(** * Ethernet manager of esp32_network_manager: configuration lifecycle

    A shallow embedding of [eth_manager.c] (the handle-based revision, with
    the older [netman] revision in module [Netman]) and the properties its
    specification states about it.

    The manager talks to three collaborators that are not part of the
    repository: the NVS key/value store, the esp_netif / esp_eth stack and
    FreeRTOS.  The contents of the NVS namespace and the manager's own
    memory (the singleton handle with its event bits) are explicit state;
    every collaborator call is logged in a trace, and the status a call
    returns is given by an environment that may depend on all calls made
    before it, so that every theorem quantifies over all behaviours of the
    collaborators. *)

From stdpp Require Import gmap strings list fin_maps.
From Stdlib Require Import ZArith Lia.

Local Open Scope Z_scope.

(** ** Error codes and constants *)

(** Modelled from the spec: the error kinds of its section 7 and the event
    identifiers of its section 4.4 are C constants of the ESP-IDF headers
    ([esp_err.h], [nvs.h], [esp_netif_types.h], [esp_eth_com.h]), which the
    sources include but the repository does not contain.  [esp_err_t] is a
    C [int]; the values below are ESP-IDF's, and the properties use only
    that they are pairwise distinct. *)

Definition esp_err_t := Z.

Definition ESP_OK : esp_err_t := 0.
Definition ESP_FAIL : esp_err_t := -1.
Definition ESP_ERR_NO_MEM : esp_err_t := 257.
Definition ESP_ERR_INVALID_ARG : esp_err_t := 258.
Definition ESP_ERR_INVALID_STATE : esp_err_t := 259.
Definition ESP_ERR_NOT_FOUND : esp_err_t := 261.
Definition ESP_ERR_INVALID_VERSION : esp_err_t := 266.
Definition ESP_ERR_NVS_NOT_FOUND : esp_err_t := 4354.
Definition ESP_ERR_NVS_TYPE_MISMATCH : esp_err_t := 4355.
Definition ESP_ERR_ESP_NETIF_DHCP_ALREADY_STARTED : esp_err_t := 20484.

Definition NVS_CFG_VER : Z := 1.
Definition ESP_NETIF_DNS_MAX : nat := 3.

Definition ESP_NETIF_DHCP_INIT : Z := 0.
Definition ESP_NETIF_DHCP_STARTED : Z := 1.
Definition ESP_NETIF_DHCP_STOPPED : Z := 2.

Definition ETHERNET_EVENT_START : Z := 0.
Definition ETHERNET_EVENT_STOP : Z := 1.
Definition ETHERNET_EVENT_CONNECTED : Z := 2.
Definition ETHERNET_EVENT_DISCONNECTED : Z := 3.

Definition ETH_EVENT : string := "ETH_EVENT".

(** For keeping track of system events. *)
Definition BIT_ETH_START : Z := 2.
Definition BIT_ETH_CONNECTED : Z := 4.
Definition BIT_ETH_GOT_IP : Z := 8.

(** ** Addresses *)

(** Modelled from the spec: the address types and the lwIP comparison
    macros used on them ([esp_netif_ip_info_t], [esp_ip_addr_t],
    [ip4_addr_cmp], [ip_addr_cmp], [ip_addr_isany_val]) come from headers
    that are not in the repository.  [esp_netif_ip_info_t] holds three IPv4
    addresses as 32-bit words; [esp_ip_addr_t] is the tagged union of an
    IPv6 address (four words and a zone) and an IPv4 address (overlaying
    word 0).  Two entries match exactly when they are of the same family
    and carry the same address of that family; an entry is "any" when its
    address is all zero. *)

Record esp_netif_ip_info_t := {
  ip : Z;
  netmask : Z;
  gw : Z
}.

Record esp_ip_addr_t := {
  u_addr : Z * Z * Z * Z;
  zone : Z;
  type : Z
}.

Definition IPADDR_TYPE_V6 : Z := 6.

Definition ip_info_zero : esp_netif_ip_info_t :=
  {| ip := 0; netmask := 0; gw := 0 |}.

Definition ip_addr_zero : esp_ip_addr_t :=
  {| u_addr := (0, 0, 0, 0); zone := 0; type := 0 |}.

Definition ip4_word (a : esp_ip_addr_t) : Z :=
  let '(w0, _, _, _) := u_addr a in w0.

Definition ip4_addr_cmp (a b : Z) : bool := a =? b.

Definition ip6_addr_cmp (a b : esp_ip_addr_t) : bool :=
  let '(a0, a1, a2, a3) := u_addr a in
  let '(b0, b1, b2, b3) := u_addr b in
  (a0 =? b0) && (a1 =? b1) && (a2 =? b2) && (a3 =? b3) && (zone a =? zone b).

(** The types must agree, then the comparison of the address family
    decides. *)
Definition ip_addr_cmp (a b : esp_ip_addr_t) : bool :=
  if negb (type a =? type b) then false
  else if type a =? IPADDR_TYPE_V6 then ip6_addr_cmp a b
  else ip4_addr_cmp (ip4_word a) (ip4_word b).

Definition ip_addr_isany_val (a : esp_ip_addr_t) : bool :=
  if type a =? IPADDR_TYPE_V6 then
    let '(a0, a1, a2, a3) := u_addr a in
    (a0 =? 0) && (a1 =? 0) && (a2 =? 0) && (a3 =? 0)
  else ip4_word a =? 0.

(** ** Configuration ([struct eth_cfg] of include/eth_manager.h) *)

Record eth_cfg := {
  is_default : bool;
  is_valid : bool;
  is_connected : bool;
  is_disabled : bool;
  is_static : bool;
  ip_info : esp_netif_ip_info_t;
  dns_info : list esp_ip_addr_t
}.

(** [cfg->dns_info[idx].ip]; the array has [ESP_NETIF_DNS_MAX] slots. *)
Definition dns_at (cfg : eth_cfg) (idx : nat) : esp_ip_addr_t :=
  default ip_addr_zero (dns_info cfg !! idx).

(** [memset(cfg, 0, sizeof( *cfg))] *)
Definition eth_cfg_init : eth_cfg :=
  {| is_default := false; is_valid := false; is_connected := false;
     is_disabled := false; is_static := false;
     ip_info := ip_info_zero;
     dns_info := replicate ESP_NETIF_DNS_MAX ip_addr_zero |}.

Definition with_is_default (v : bool) (c : eth_cfg) : eth_cfg :=
  {| is_default := v; is_valid := is_valid c; is_connected := is_connected c;
     is_disabled := is_disabled c; is_static := is_static c;
     ip_info := ip_info c; dns_info := dns_info c |}.

Definition with_is_valid (v : bool) (c : eth_cfg) : eth_cfg :=
  {| is_default := is_default c; is_valid := v; is_connected := is_connected c;
     is_disabled := is_disabled c; is_static := is_static c;
     ip_info := ip_info c; dns_info := dns_info c |}.

Definition with_is_connected (v : bool) (c : eth_cfg) : eth_cfg :=
  {| is_default := is_default c; is_valid := is_valid c; is_connected := v;
     is_disabled := is_disabled c; is_static := is_static c;
     ip_info := ip_info c; dns_info := dns_info c |}.

Definition with_is_disabled (v : bool) (c : eth_cfg) : eth_cfg :=
  {| is_default := is_default c; is_valid := is_valid c;
     is_connected := is_connected c;
     is_disabled := v; is_static := is_static c;
     ip_info := ip_info c; dns_info := dns_info c |}.

Definition with_is_static (v : bool) (c : eth_cfg) : eth_cfg :=
  {| is_default := is_default c; is_valid := is_valid c;
     is_connected := is_connected c;
     is_disabled := is_disabled c; is_static := v;
     ip_info := ip_info c; dns_info := dns_info c |}.

Definition with_ip_info (v : esp_netif_ip_info_t) (c : eth_cfg) : eth_cfg :=
  {| is_default := is_default c; is_valid := is_valid c;
     is_connected := is_connected c;
     is_disabled := is_disabled c; is_static := is_static c;
     ip_info := v; dns_info := dns_info c |}.

Definition with_dns_info (v : list esp_ip_addr_t) (c : eth_cfg) : eth_cfg :=
  {| is_default := is_default c; is_valid := is_valid c;
     is_connected := is_connected c;
     is_disabled := is_disabled c; is_static := is_static c;
     ip_info := ip_info c; dns_info := v |}.

(** ** The NVS namespace *)

(** An entry is a 32-bit word or a blob.  The two blobs the manager stores
    are the raw images of [ip_info] and [dns_info]; a blob of any other size
    is kept as its length only. *)

Inductive nvs_val :=
| NvsU32 (v : Z)
| NvsIpBlob (v : esp_netif_ip_info_t)
| NvsDnsBlob (v : list esp_ip_addr_t)
| NvsRawBlob (len : Z).

(** ** The singleton handle *)

Record eth_manager_handle_s := {
  ref_cnt : Z;
  eth_netif : option Z;   (* esp_netif_t *, [None] is NULL *)
  eth_handle : option Z;  (* esp_eth_handle_t, [None] is NULL *)
  eth_events : option Z   (* the event group's bits, [None] is NULL *)
}.

(** ** Collaborator calls *)

Inductive call :=
| NvsOpen (ns : string) (readwrite : bool)
| NvsGetU32 (key : string)
| NvsGetBlob (key : string)
| NvsSetU32 (key : string) (v : Z)
| NvsSetBlob (key : string) (v : nvs_val)
| NvsEraseAll
| NvsCommit
| NvsClose
| Calloc
| Free
| XEventGroupCreate
| VEventGroupDelete
| EspNetifNew
| EspNetifAttach (netif : option Z) (eth : option Z)
| EspEventHandlerInstanceRegister (netif : option Z)
| EspNetifDhcpcStop (netif : option Z)
| EspNetifDhcpcStart (netif : option Z)
| EspNetifDhcpcGetStatus (netif : option Z)
| EspNetifSetIpInfo (netif : option Z) (info : esp_netif_ip_info_t)
| EspNetifGetIpInfo (netif : option Z)
| EspNetifSetDnsInfo (netif : option Z) (idx : nat) (dns : esp_ip_addr_t)
| EspNetifGetDnsInfo (netif : option Z) (idx : nat)
| EspNetifSetHostname (netif : option Z) (hostname : string)
| EspNetifCreateIp6Linklocal (netif : option Z)
| EspEthStart (eth : option Z)
| EspEthStop (eth : option Z)
| EspEthIoctlGetMac.

(** The environment: what each collaborator call answers, as a function of
    the calls issued so far (most recent first). *)
Record Env := {
  respond : list call -> call -> esp_err_t;
  calloc_ok : list call -> bool;
  event_group_create_ok : list call -> bool;
  netif_new : list call -> option Z;
  dhcpc_status : list call -> Z;
  live_ip_info : list call -> esp_netif_ip_info_t;
  live_dns_info : list call -> nat -> esp_ip_addr_t;
  ETH_USE_IPV6 : bool
}.

(** ** Program state *)

Record World := {
  handle : option eth_manager_handle_s;  (* static ... *handle *)
  nvs : gmap string nvs_val;
  trace : list call
}.

Definition set_handle (h : option eth_manager_handle_s) (w : World) : World :=
  {| handle := h; nvs := nvs w; trace := trace w |}.

Definition set_nvs (s : gmap string nvs_val) (w : World) : World :=
  {| handle := handle w; nvs := s; trace := trace w |}.

Definition log (c : call) (w : World) : World :=
  {| handle := handle w; nvs := nvs w; trace := c :: trace w |}.

(** ** The monad: state, with [None] for a fault (a dereferenced NULL) *)

Definition M (A : Type) : Type := World -> option (A * World).

Definition ret {A} (a : A) : M A := fun w => Some (a, w).

Definition bind {A B} (m : M A) (k : A -> M B) : M B :=
  fun w => match m w with
           | Some (a, w') => k a w'
           | None => None
           end.

Definition fault {A} : M A := fun _ => None.

Notation "'let*' x ':=' m 'in' k" := (bind m (fun x => k))
  (at level 10, x name, m at level 100, k at level 200).

Notation "'let*' ' p ':=' m 'in' k" := (bind m (fun p => k))
  (at level 10, p strict pattern, m at level 100, k at level 200).

Definition is_ok (r : esp_err_t) : bool := r =? ESP_OK.

Definition external (env : Env) (c : call) : M esp_err_t :=
  fun w => Some (respond env (trace w) c, log c w).

(** [handle->field]: a NULL [handle] faults. *)
Definition deref_handle : M eth_manager_handle_s :=
  fun w => match handle w with
           | Some h => Some (h, w)
           | None => None
           end.

Definition get_handle : M (option eth_manager_handle_s) :=
  fun w => Some (handle w, w).

Definition put_handle (h : option eth_manager_handle_s) : M unit :=
  fun w => Some (tt, set_handle h w).

(** ** NVS primitives *)

(** Modelled from the spec: the persistent store is the collaborator of its
    section 6, "a namespaced persistent key/value store with
    open/get/set_blob/erase_all/commit/close"; its implementation is not in
    the repository.  A call that reports an error leaves the namespace as
    it was; a successful write or erase takes effect at once ([nvs_commit]
    only flushes).  A read fails when the environment makes it fail, when
    the key is absent, or when the entry has another type. *)

Section Nvs.
Variable env : Env.

Definition nvs_open (ns : string) (readwrite : bool) : M esp_err_t :=
  external env (NvsOpen ns readwrite).

Definition nvs_close : M unit :=
  let* _ := external env NvsClose in ret tt.

Definition nvs_commit : M esp_err_t := external env NvsCommit.

Definition nvs_erase_all : M esp_err_t :=
  let* r := external env NvsEraseAll in
  if is_ok r then fun w => Some (r, set_nvs ∅ w) else ret r.

Definition nvs_set_u32 (key : string) (v : Z) : M esp_err_t :=
  let* r := external env (NvsSetU32 key v) in
  if is_ok r then fun w => Some (r, set_nvs (<[key := NvsU32 v]> (nvs w)) w)
  else ret r.

Definition nvs_set_blob (key : string) (v : nvs_val) : M esp_err_t :=
  let* r := external env (NvsSetBlob key v) in
  if is_ok r then fun w => Some (r, set_nvs (<[key := v]> (nvs w)) w)
  else ret r.

Definition nvs_get_u32 (key : string) : M (esp_err_t * Z) :=
  let* r := external env (NvsGetU32 key) in
  if is_ok r then
    fun w => match nvs w !! key with
             | Some (NvsU32 v) => Some ((ESP_OK, v), w)
             | Some _ => Some ((ESP_ERR_NVS_TYPE_MISMATCH, 0), w)
             | None => Some ((ESP_ERR_NVS_NOT_FOUND, 0), w)
             end
  else ret (r, 0).

Definition nvs_get_blob (key : string) : M (esp_err_t * option nvs_val) :=
  let* r := external env (NvsGetBlob key) in
  if is_ok r then
    fun w => match nvs w !! key with
             | Some (NvsU32 _) => Some ((ESP_ERR_NVS_TYPE_MISMATCH, None), w)
             | Some b => Some ((ESP_OK, Some b), w)
             | None => Some ((ESP_ERR_NVS_NOT_FOUND, None), w)
             end
  else ret (r, None).
End Nvs.

Definition bool_to_u32 (b : bool) : Z := if b then 1 else 0.
Definition u32_to_bool (v : Z) : bool := negb (v =? 0).

Definition with_eth_netif (v : option Z) (h : eth_manager_handle_s)
  : eth_manager_handle_s :=
  {| ref_cnt := ref_cnt h; eth_netif := v; eth_handle := eth_handle h;
     eth_events := eth_events h |}.

Definition with_eth_handle (v : option Z) (h : eth_manager_handle_s)
  : eth_manager_handle_s :=
  {| ref_cnt := ref_cnt h; eth_netif := eth_netif h; eth_handle := v;
     eth_events := eth_events h |}.

Definition with_eth_events (v : option Z) (h : eth_manager_handle_s)
  : eth_manager_handle_s :=
  {| ref_cnt := ref_cnt h; eth_netif := eth_netif h;
     eth_handle := eth_handle h; eth_events := v |}.

Definition with_ref_cnt (v : Z) (h : eth_manager_handle_s)
  : eth_manager_handle_s :=
  {| ref_cnt := v; eth_netif := eth_netif h; eth_handle := eth_handle h;
     eth_events := eth_events h |}.

(** [calloc(1, sizeof( *handle))] *)
Definition handle_zero : eth_manager_handle_s :=
  {| ref_cnt := 0; eth_netif := None; eth_handle := None; eth_events := None |}.

(** ** eth_manager.c *)

Definition WMNGR_NAMESPACE : string := "eth_manager".

Section Manager.
Variable env : Env.

(** Set configuration from compiled-in defaults. *)
Definition set_defaults : eth_cfg :=
  with_is_disabled false
    (with_is_static false
       (with_is_valid true
          (with_is_default true eth_cfg_init))).

(** On a failure after [nvs_open] the function leaves through [on_exit],
    which closes the handle. *)
Definition get_saved_config_on_exit (result : esp_err_t) (cfg : eth_cfg)
  : M (esp_err_t * eth_cfg) :=
  let* _ := nvs_close env in ret (result, cfg).

(** Read saved configuration from NVS. *)
Definition get_saved_config : M (esp_err_t * eth_cfg) :=
  let cfg := eth_cfg_init in
  let* result := nvs_open env WMNGR_NAMESPACE false in
  if negb (is_ok result) then ret (result, cfg) else
  let* '(result, tmp) := nvs_get_u32 env "version" in
  if negb (is_ok result) then get_saved_config_on_exit result cfg else
  if tmp >? NVS_CFG_VER then
    get_saved_config_on_exit ESP_ERR_INVALID_VERSION cfg else
  let* '(result, tmp) := nvs_get_u32 env "eth_static" in
  if negb (is_ok result) then get_saved_config_on_exit result cfg else
  let cfg := with_is_static (u32_to_bool tmp) cfg in
  let* '(result, tmp) := nvs_get_u32 env "eth_disable" in
  if negb (is_ok result) then get_saved_config_on_exit result cfg else
  let cfg := with_is_disabled (u32_to_bool tmp) cfg in
  let* '(result, blob) := nvs_get_blob env "eth_ip" in
  if negb (is_ok result) then get_saved_config_on_exit result cfg else
  match blob with
  | Some (NvsIpBlob v) =>
      let cfg := with_ip_info v cfg in
      let* '(result, blob) := nvs_get_blob env "eth_dns" in
      if negb (is_ok result) then get_saved_config_on_exit result cfg else
      match blob with
      | Some (NvsDnsBlob v) =>
          get_saved_config_on_exit result (with_dns_info v cfg)
      | _ => (* len != sizeof(cfg->dns_info) *)
          get_saved_config_on_exit ESP_ERR_NOT_FOUND cfg
      end
  | _ => (* len != sizeof(cfg->ip_info) *)
      get_saved_config_on_exit ESP_ERR_NOT_FOUND cfg
  end.

Definition clear_config : M esp_err_t :=
  let* result := nvs_open env WMNGR_NAMESPACE true in
  if negb (is_ok result) then ret result else
  let* result := nvs_erase_all env in
  if negb (is_ok result) then (let* _ := nvs_close env in ret result) else
  let* result := nvs_commit env in
  let* _ := nvs_close env in
  ret result.

(** [on_exit] of [save_config]: we do not want to leave a half-written
    config lying around. *)
Definition save_config_on_exit (result : esp_err_t) : M esp_err_t :=
  let* _ := (if negb (is_ok result) then nvs_erase_all env
             else ret ESP_OK) in
  let* _ := nvs_commit env in
  let* _ := nvs_close env in
  ret result.

(** Save configuration to NVS. *)
Definition save_config (cfg : eth_cfg) : M esp_err_t :=
  let* result := nvs_open env WMNGR_NAMESPACE true in
  if negb (is_ok result) then ret result else
  let* result := clear_config in
  if negb (is_ok result) then save_config_on_exit result else
  (* No point in saving the factory default settings. *)
  if is_default cfg then save_config_on_exit ESP_OK else
  let* result := nvs_set_u32 env "version" NVS_CFG_VER in
  if negb (is_ok result) then save_config_on_exit result else
  let* result :=
    nvs_set_u32 env "eth_static" (bool_to_u32 (is_static cfg)) in
  if negb (is_ok result) then save_config_on_exit result else
  let* result :=
    nvs_set_u32 env "eth_disable" (bool_to_u32 (is_disabled cfg)) in
  if negb (is_ok result) then save_config_on_exit result else
  let* result := nvs_set_blob env "eth_ip" (NvsIpBlob (ip_info cfg)) in
  if negb (is_ok result) then save_config_on_exit result else
  let* result := nvs_set_blob env "eth_dns" (NvsDnsBlob (dns_info cfg)) in
  save_config_on_exit result.

(** Helper: is the link up?  A NULL handle or event group reads as "not
    connected". *)
Definition eth_connected : M bool :=
  let* h := get_handle in
  match h with
  | None => ret false
  | Some hs =>
      match eth_events hs with
      | None => ret false
      | Some events => ret (negb (Z.land events BIT_ETH_CONNECTED =? 0))
      end
  end.

Definition start_eth : M esp_err_t :=
  let* h := get_handle in
  match h with
  | None => ret ESP_ERR_INVALID_STATE
  | Some hs =>
      match eth_handle hs, eth_events hs with
      | Some eth, Some events =>
          if negb (Z.land events BIT_ETH_START =? 0) then ret ESP_OK
          else external env (EspEthStart (Some eth))
      | _, _ => ret ESP_ERR_INVALID_STATE
      end
  end.

Definition stop_eth : M esp_err_t :=
  let* h := get_handle in
  match h with
  | None => ret ESP_ERR_INVALID_STATE
  | Some hs =>
      match eth_handle hs, eth_events hs with
      | Some eth, Some events =>
          if Z.land events BIT_ETH_START =? 0 then ret ESP_OK
          else external env (EspEthStop (Some eth))
      | _, _ => ret ESP_ERR_INVALID_STATE
      end
  end.

(** The loop over [cfg->dns_info] in [set_eth_cfg]: "any" entries are
    skipped, a failing entry does not stop the loop. *)
Fixpoint set_dns_loop (cfg : eth_cfg) (idxs : list nat)
    (result : esp_err_t) : M esp_err_t :=
  match idxs with
  | [] => ret result
  | idx :: rest =>
      if ip_addr_isany_val (dns_at cfg idx) then
        set_dns_loop cfg rest result
      else
        let* hs := deref_handle in
        let* result :=
          external env (EspNetifSetDnsInfo (eth_netif hs) idx
                          (dns_at cfg idx)) in
        set_dns_loop cfg rest result
  end.

(** Helper function to set Ethernet configuration from struct eth_cfg. *)
Definition set_eth_cfg (cfg : eth_cfg) : M esp_err_t :=
  if is_disabled cfg then
    let* result := stop_eth in
    ret result (* no need to continue *)
  else
    let* result :=
      (if is_static cfg then
         let* hs := deref_handle in
         let* _ := external env (EspNetifDhcpcStop (eth_netif hs)) in
         let* hs := deref_handle in
         let* result :=
           external env (EspNetifSetIpInfo (eth_netif hs) (ip_info cfg)) in
         set_dns_loop cfg (seq 0 ESP_NETIF_DNS_MAX) result
       else
         let* hs := deref_handle in
         let* result := external env (EspNetifDhcpcStart (eth_netif hs)) in
         if result =? ESP_ERR_ESP_NETIF_DHCP_ALREADY_STARTED then ret ESP_OK
         else ret result) in
    (* Enable ethernet interface *)
    let* result := start_eth in
    ret result.

Definition cfgs_are_equal (a b : eth_cfg) : bool :=
  if negb (Bool.eqb (is_disabled a) (is_disabled b)) then false
  else if negb (Bool.eqb (is_static a) (is_static b)) then false
  else if is_static a then
    if negb (ip4_addr_cmp (ip (ip_info a)) (ip (ip_info b))) then false
    else if negb (ip4_addr_cmp (netmask (ip_info a)) (netmask (ip_info b)))
    then false
    else if negb (ip4_addr_cmp (gw (ip_info a)) (gw (ip_info b))) then false
    else forallb (fun idx => ip_addr_cmp (dns_at a idx) (dns_at b idx))
                 (seq 0 ESP_NETIF_DNS_MAX)
  else true.

(** Load the configuration from NVS or provide defaults. *)
Definition get_saved_or_default_config : M (esp_err_t * eth_cfg) :=
  let* '(result, cfg_state) := get_saved_config in
  let '(result, cfg_state) :=
    if negb (is_ok result) then (ESP_OK, set_defaults)
    else (result, cfg_state) in
  (* Any config read from NVS or restored from defaults should be valid. *)
  ret (result, with_is_valid true cfg_state).

Definition esp_netif_dhcpc_get_status (netif : option Z)
  : M (esp_err_t * Z) :=
  fun w =>
    let c := EspNetifDhcpcGetStatus netif in
    Some ((respond env (trace w) c, dhcpc_status env (trace w)), log c w).

Definition esp_netif_get_ip_info (netif : option Z)
  : M (esp_err_t * esp_netif_ip_info_t) :=
  fun w =>
    let c := EspNetifGetIpInfo netif in
    Some ((respond env (trace w) c, live_ip_info env (trace w)), log c w).

Definition esp_netif_get_dns_info (netif : option Z) (idx : nat)
  : M (esp_err_t * esp_ip_addr_t) :=
  fun w =>
    let c := EspNetifGetDnsInfo netif idx in
    Some ((respond env (trace w) c, live_dns_info env (trace w) idx),
          log c w).

(** The loop over [cfg->dns_info] in [get_eth_state]: the first failing
    query leaves through [on_exit]. *)
Fixpoint get_dns_loop (idxs : list nat) (result : esp_err_t)
    (cfg : eth_cfg) : M (esp_err_t * eth_cfg) :=
  match idxs with
  | [] => ret (result, with_is_valid true cfg)
  | idx :: rest =>
      let* hs := deref_handle in
      let* '(result, dns) := esp_netif_get_dns_info (eth_netif hs) idx in
      if negb (is_ok result) then ret (result, cfg) else
      get_dns_loop rest result
        (with_dns_info (<[idx := dns]> (dns_info cfg)) cfg)
  end.

(** Helper to fetch current Ethernet state from the system and return it
    in a eth_cfg struct. *)
Definition get_eth_state : M (esp_err_t * eth_cfg) :=
  let cfg := eth_cfg_init in
  let* connected := eth_connected in
  if negb connected then
    (* not currently connected, so just return default config settings *)
    let* '(result, cfg) := get_saved_or_default_config in
    ret (result, with_is_connected false cfg)
  else
  (* Else we are connected, so get the current state *)
  let cfg := with_is_connected true cfg in
  let* hs := deref_handle in
  let* '(result, dhcp_status) :=
    esp_netif_dhcpc_get_status (eth_netif hs) in
  if negb (is_ok result) then ret (result, cfg) else
  (* If DHCP is stopped on Ethernet interface, assume static IP *)
  let cfg := if dhcp_status =? ESP_NETIF_DHCP_STOPPED
             then with_is_static true cfg else cfg in
  let* hs := deref_handle in
  let* '(result, info) := esp_netif_get_ip_info (eth_netif hs) in
  if negb (is_ok result) then ret (result, cfg) else
  let cfg := with_ip_info info cfg in
  get_dns_loop (seq 0 ESP_NETIF_DNS_MAX) result cfg.

(** Modelled from the spec: the FreeRTOS event group is the tracker
    primitive of its section 4.3, with set and clear of sticky bits.
    [xEventGroupSetBits(handle->eth_events, bits)] and
    [xEventGroupClearBits] both dereference [handle] and need an event
    group. *)
Definition xEventGroupSetBits (bits : Z) : M unit :=
  let* hs := deref_handle in
  match eth_events hs with
  | None => fault
  | Some events =>
      put_handle (Some (with_eth_events (Some (Z.lor events bits)) hs))
  end.

Definition xEventGroupClearBits (bits : Z) : M unit :=
  let* hs := deref_handle in
  match eth_events hs with
  | None => fault
  | Some events =>
      put_handle (Some (with_eth_events (Some (Z.ldiff events bits)) hs))
  end.

(** Event handler for Ethernet events *)
Definition eth_event_handler (esp_netif : option Z) (event_base : string)
    (event_id : Z) : M unit :=
  if String.eqb ETH_EVENT event_base then
    if event_id =? ETHERNET_EVENT_CONNECTED then
      let* _ := xEventGroupSetBits BIT_ETH_CONNECTED in
      let* _ := (if ETH_USE_IPV6 env
                 then external env (EspNetifCreateIp6Linklocal esp_netif)
                 else ret ESP_OK) in
      let* _ := external env EspEthIoctlGetMac in
      ret tt
    else if event_id =? ETHERNET_EVENT_DISCONNECTED then
      xEventGroupClearBits BIT_ETH_CONNECTED
    else if event_id =? ETHERNET_EVENT_START then
      xEventGroupSetBits BIT_ETH_START
    else if event_id =? ETHERNET_EVENT_STOP then
      xEventGroupClearBits BIT_ETH_START
    else ret tt
  else ret tt.

(** *** API functions *)

(** [on_exit] of [eth_manager_init]: roll back when [result] is an
    error. *)
Definition eth_manager_init_on_exit (result : esp_err_t) : M esp_err_t :=
  let* _ :=
    (if negb (is_ok result) then
       let* h := get_handle in
       match h with
       | Some hs =>
           let* _ :=
             (match eth_events hs with
              | Some _ =>
                  let* _ := external env VEventGroupDelete in
                  put_handle (Some (with_eth_events None hs))
              | None => ret tt
              end) in
           let* _ := external env Free in
           put_handle None
       | None => ret tt
       end
     else ret tt) in
  ret result.

Definition calloc_handle : M unit :=
  fun w =>
    Some (tt, set_handle (if calloc_ok env (trace w) then Some handle_zero
                          else None) (log Calloc w)).

Definition xEventGroupCreate : M (option Z) :=
  fun w =>
    Some (if event_group_create_ok env (trace w) then Some 0 else None,
          log XEventGroupCreate w).

Definition esp_netif_new : M (option Z) :=
  fun w => Some (netif_new env (trace w), log EspNetifNew w).

(** Initialize the Ethernet Manager. *)
Definition eth_manager_init (eth_handle_ : option Z) : M esp_err_t :=
  let result := ESP_OK in
  let* h := get_handle in
  match h with
  | Some _ => ret ESP_ERR_INVALID_STATE
  | None =>
  let* _ := calloc_handle in
  let* h := get_handle in
  match h with
  | None => eth_manager_init_on_exit ESP_ERR_NO_MEM
  | Some hs =>
  (* kref_init initialises ref_cnt to 1 *)
  let hs := with_eth_handle eth_handle_ (with_ref_cnt 1 hs) in
  let* _ := put_handle (Some hs) in
  let* events := xEventGroupCreate in
  let hs := with_eth_events events hs in
  let* _ := put_handle (Some hs) in
  match events with
  | None => eth_manager_init_on_exit ESP_ERR_NO_MEM
  | Some _ =>
  let* netif := esp_netif_new in
  let hs := with_eth_netif netif hs in
  let* _ := put_handle (Some hs) in
  match netif with
  | None => eth_manager_init_on_exit result
  | Some _ =>
  (* attach Ethernet driver to TCP/IP stack; creating the glue with
   esp_eth_new_netif_glue is part of this call *)
  let* result :=
    external env (EspNetifAttach (eth_netif hs) (eth_handle hs)) in
  if negb (is_ok result) then eth_manager_init_on_exit result else
  (* Register user defined event handers *)
  let* result :=
    external env (EspEventHandlerInstanceRegister (eth_netif hs)) in
  if negb (is_ok result) then eth_manager_init_on_exit result else
  (* Load the saved configuration from NVS *)
  let* '(result, cfg_state) := get_saved_or_default_config in
  if negb (is_ok result) then eth_manager_init_on_exit result else
  (* Set the configuration to the Ethernet interface *)
  let* result := set_eth_cfg cfg_state in
  eth_manager_init_on_exit result
  end end end end.

(** Set a new Network Manager configuration. *)
Definition eth_manager_set_eth_cfg (new_cfg : eth_cfg) : M esp_err_t :=
  let* _ := save_config new_cfg in
  set_eth_cfg new_cfg.

(** Get the current Network Manager configuration. *)
Definition eth_manager_get_eth_cfg : M (esp_err_t * eth_cfg) :=
  get_saved_or_default_config.

(** Query current connection status. *)
Definition eth_manager_get_eth_state : M (esp_err_t * eth_cfg) :=
  get_eth_state.

(** Set the hostname on the Ethernet interface *)
Definition eth_manager_set_hostname (hostname : string) : M esp_err_t :=
  let* h := get_handle in
  match h with
  | None => ret ESP_ERR_INVALID_STATE
  | Some hs =>
      match eth_netif hs with
      | None => ret ESP_ERR_INVALID_STATE
      | Some _ =>
          let* err :=
            external env (EspNetifSetHostname (eth_netif hs) hostname) in
          if negb (err =? 0) then ret err else ret ESP_OK
      end
  end.
End Manager.

(** ** The older revision: netman (no handle, [eth_connect] instead of
    [is_disabled])

    Only its persistence half is needed below. *)

Module Netman.

Record eth_cfg := {
  is_default : bool;
  is_valid : bool;
  eth_static : bool;
  eth_ip_info : esp_netif_ip_info_t;
  eth_dns_info : list esp_ip_addr_t;
  eth_connect : bool
}.

Definition WMNGR_NAMESPACE : string := "esp_netman".

(** [memset(cfg, 0x0, sizeof( *cfg))] *)
Definition cfg_zero : eth_cfg :=
  {| is_default := false; is_valid := false; eth_static := false;
     eth_ip_info := ip_info_zero;
     eth_dns_info := replicate ESP_NETIF_DNS_MAX ip_addr_zero;
     eth_connect := false |}.

Definition with_is_valid (v : bool) (c : eth_cfg) : eth_cfg :=
  {| is_default := is_default c; is_valid := v; eth_static := eth_static c;
     eth_ip_info := eth_ip_info c; eth_dns_info := eth_dns_info c;
     eth_connect := eth_connect c |}.

Definition with_eth_static (v : bool) (c : eth_cfg) : eth_cfg :=
  {| is_default := is_default c; is_valid := is_valid c; eth_static := v;
     eth_ip_info := eth_ip_info c; eth_dns_info := eth_dns_info c;
     eth_connect := eth_connect c |}.

Definition with_eth_connect (v : bool) (c : eth_cfg) : eth_cfg :=
  {| is_default := is_default c; is_valid := is_valid c;
     eth_static := eth_static c;
     eth_ip_info := eth_ip_info c; eth_dns_info := eth_dns_info c;
     eth_connect := v |}.

Definition with_eth_ip_info (v : esp_netif_ip_info_t) (c : eth_cfg)
  : eth_cfg :=
  {| is_default := is_default c; is_valid := is_valid c;
     eth_static := eth_static c;
     eth_ip_info := v; eth_dns_info := eth_dns_info c;
     eth_connect := eth_connect c |}.

Definition with_eth_dns_info (v : list esp_ip_addr_t) (c : eth_cfg)
  : eth_cfg :=
  {| is_default := is_default c; is_valid := is_valid c;
     eth_static := eth_static c;
     eth_ip_info := eth_ip_info c; eth_dns_info := v;
     eth_connect := eth_connect c |}.

Section Netman.
Variable env : Env.

(** Set configuration from compiled-in defaults. *)
Definition set_defaults : eth_cfg :=
  {| is_default := true; is_valid := true; eth_static := false;
     eth_ip_info := ip_info_zero;
     eth_dns_info := replicate ESP_NETIF_DNS_MAX ip_addr_zero;
     eth_connect := true |}.

Definition get_saved_config_on_exit (result : esp_err_t) (cfg : eth_cfg)
  : M (esp_err_t * eth_cfg) :=
  let* _ := nvs_close env in ret (result, cfg).

(** Read saved configuration from NVS. *)
Definition get_saved_config : M (esp_err_t * eth_cfg) :=
  let cfg := cfg_zero in
  let* result := nvs_open env WMNGR_NAMESPACE false in
  if negb (is_ok result) then ret (result, cfg) else
  let* '(result, tmp) := nvs_get_u32 env "version" in
  if negb (is_ok result) then get_saved_config_on_exit result cfg else
  if tmp >? NVS_CFG_VER then
    get_saved_config_on_exit ESP_ERR_INVALID_VERSION cfg else
  let* '(result, tmp) := nvs_get_u32 env "eth_static" in
  if negb (is_ok result) then get_saved_config_on_exit result cfg else
  let cfg := with_eth_static (u32_to_bool tmp) cfg in
  let* '(result, tmp) := nvs_get_u32 env "eth_connect" in
  if negb (is_ok result) then get_saved_config_on_exit result cfg else
  let cfg := with_eth_connect (u32_to_bool tmp) cfg in
  let* '(result, blob) := nvs_get_blob env "eth_ip" in
  if negb (is_ok result) then get_saved_config_on_exit result cfg else
  match blob with
  | Some (NvsIpBlob v) =>
      let cfg := with_eth_ip_info v cfg in
      let* '(result, blob) := nvs_get_blob env "eth_dns" in
      if negb (is_ok result) then get_saved_config_on_exit result cfg else
      match blob with
      | Some (NvsDnsBlob v) =>
          get_saved_config_on_exit result (with_eth_dns_info v cfg)
      | _ => get_saved_config_on_exit ESP_ERR_NOT_FOUND cfg
      end
  | _ => get_saved_config_on_exit ESP_ERR_NOT_FOUND cfg
  end.

Definition clear_config : M esp_err_t :=
  let* result := nvs_open env WMNGR_NAMESPACE true in
  if negb (is_ok result) then ret result else
  let* result := nvs_erase_all env in
  if negb (is_ok result) then (let* _ := nvs_close env in ret result) else
  let* result := nvs_commit env in
  let* _ := nvs_close env in
  ret result.

Definition save_config_on_exit (result : esp_err_t) : M esp_err_t :=
  let* _ := (if negb (is_ok result) then nvs_erase_all env
             else ret ESP_OK) in
  let* _ := nvs_commit env in
  let* _ := nvs_close env in
  ret result.

(** Save configuration to NVS. *)
Definition save_config (cfg : eth_cfg) : M esp_err_t :=
  let* result := nvs_open env WMNGR_NAMESPACE true in
  if negb (is_ok result) then ret result else
  let* result := clear_config in
  if negb (is_ok result) then save_config_on_exit result else
  if is_default cfg then save_config_on_exit ESP_OK else
  let* result := nvs_set_u32 env "version" NVS_CFG_VER in
  if negb (is_ok result) then save_config_on_exit result else
  let* result :=
    nvs_set_u32 env "eth_static" (bool_to_u32 (eth_static cfg)) in
  if negb (is_ok result) then save_config_on_exit result else
  let* result :=
    nvs_set_u32 env "eth_connect" (bool_to_u32 (eth_connect cfg)) in
  if negb (is_ok result) then save_config_on_exit result else
  let* result :=
    nvs_set_blob env "eth_ip" (NvsIpBlob (eth_ip_info cfg)) in
  if negb (is_ok result) then save_config_on_exit result else
  let* result :=
    nvs_set_blob env "eth_dns" (NvsDnsBlob (eth_dns_info cfg)) in
  save_config_on_exit result.

(** Load the configuration from NVS or provide defaults.  The
    configuration is built in the local [cfg_state]; the caller's [cfg]
    is passed through as it came in, and [result] is returned as
    [get_saved_config] left it. *)
Definition get_effective_config (cfg : eth_cfg)
  : M (esp_err_t * eth_cfg) :=
  let* '(result, cfg_state) := get_saved_config in
  let cfg_state :=
    if negb (is_ok result) then set_defaults else cfg_state in
  let cfg_state := with_is_valid true cfg_state in
  ret (result, cfg).

(** Get the current Network Manager configuration. *)
Definition netman_get_eth_cfg (new_cfg : eth_cfg)
  : M (esp_err_t * eth_cfg) :=
  get_effective_config new_cfg.
End Netman.

(** The record [save_config] writes for [cfg]. *)
Definition stored_record (cfg : eth_cfg) : gmap string nvs_val :=
  <["eth_dns" := NvsDnsBlob (eth_dns_info cfg)]>
    (<["eth_ip" := NvsIpBlob (eth_ip_info cfg)]>
       (<["eth_connect" := NvsU32 (bool_to_u32 (eth_connect cfg))]>
          (<["eth_static" := NvsU32 (bool_to_u32 (eth_static cfg))]>
             (<["version" := NvsU32 NVS_CFG_VER]> ∅)))).

End Netman.

(** ** Vocabulary of the properties *)

(** The calls with which [set_eth_cfg] pushes addresses, drives the DHCP
    client or starts the interface. *)
Definition is_ip_dns_dhcp_or_start (c : call) : bool :=
  match c with
  | EspNetifSetIpInfo _ _ | EspNetifSetDnsInfo _ _ _
  | EspNetifDhcpcStop _ | EspNetifDhcpcStart _ | EspEthStart _ => true
  | _ => false
  end.

(** The Started and Connected bits of the event group. *)
Definition started_bit (events : Z) : bool := Z.testbit events 1.
Definition connected_bit (events : Z) : bool := Z.testbit events 2.

(** The event bits after the handler has run on [event_id]. *)
Definition events_after (event_id events : Z) : Z :=
  if event_id =? ETHERNET_EVENT_CONNECTED then Z.lor events BIT_ETH_CONNECTED
  else if event_id =? ETHERNET_EVENT_DISCONNECTED
       then Z.ldiff events BIT_ETH_CONNECTED
  else if event_id =? ETHERNET_EVENT_START then Z.lor events BIT_ETH_START
  else if event_id =? ETHERNET_EVENT_STOP then Z.ldiff events BIT_ETH_START
  else events.

(** The network stack delivering a sequence of Ethernet events: the
    registered handler runs once per event, in order. *)
Fixpoint deliver_events (env : Env) (esp_netif : option Z)
    (event_ids : list Z) : M unit :=
  match event_ids with
  | [] => ret tt
  | event_id :: rest =>
      let* _ := eth_event_handler env esp_netif ETH_EVENT event_id in
      deliver_events env esp_netif rest
  end.

(** The tracker in the specification's words, on the pair (Started,
    Connected): Started sets the first, Stopped clears it, LinkUp sets the
    second, LinkDown clears it, any other event changes nothing. *)
Definition tracker_step (bits : bool * bool) (event_id : Z) : bool * bool :=
  if event_id =? ETHERNET_EVENT_START then (true, snd bits)
  else if event_id =? ETHERNET_EVENT_STOP then (false, snd bits)
  else if event_id =? ETHERNET_EVENT_CONNECTED then (fst bits, true)
  else if event_id =? ETHERNET_EVENT_DISCONNECTED then (fst bits, false)
  else bits.

Definition tracker_run (event_ids : list Z) (bits : bool * bool)
  : bool * bool :=
  fold_left tracker_step event_ids bits.

(** A computation that always returns and neither reads nor writes the
    singleton handle: run with any other handle in place, it returns the
    same value and leaves the same namespace and trace. *)
Definition handle_blind {A} (m : M A) : Prop :=
  forall w, exists a w',
    m w = Some (a, w') /\
    forall h, m (set_handle h w) = Some (a, set_handle h w').

(** The record [save_config] writes for [cfg]: the schema version, the two
    flags and the two blobs, each under its own key. *)
Definition stored_record (cfg : eth_cfg) : gmap string nvs_val :=
  <["eth_dns" := NvsDnsBlob (dns_info cfg)]>
    (<["eth_ip" := NvsIpBlob (ip_info cfg)]>
       (<["eth_disable" := NvsU32 (bool_to_u32 (is_disabled cfg))]>
          (<["eth_static" := NvsU32 (bool_to_u32 (is_static cfg))]>
             (<["version" := NvsU32 NVS_CFG_VER]> ∅)))).

(** A computation that neither reads nor writes the NVS namespace: run on
    any other store contents it does the same and leaves them in place. *)
Definition nvs_blind {A} (m : M A) : Prop :=
  forall w s,
    m (set_nvs s w) =
      match m w with
      | Some (a, w') => Some (a, set_nvs s w')
      | None => None
      end.

(** A computation that, started with the handle [hs] in place, returns
    and leaves that handle in place. *)
Definition handle_stable {A} (hs : eth_manager_handle_s) (m : M A) : Prop :=
  forall w, handle w = Some hs ->
            exists a w', m w = Some (a, w') /\ handle w' = Some hs.

(** ** Concrete environments, worlds and configurations of the examples *)

(** Every collaborator call succeeds; DHCP is running. *)
Definition env_all_ok : Env :=
  {| respond := fun _ _ => ESP_OK;
     calloc_ok := fun _ => true;
     event_group_create_ok := fun _ => true;
     netif_new := fun _ => Some 1;
     dhcpc_status := fun _ => ESP_NETIF_DHCP_STARTED;
     live_ip_info := fun _ => ip_info_zero;
     live_dns_info := fun _ _ => ip_addr_zero;
     ETH_USE_IPV6 := false |}.

(** The store cannot be opened; everything else would succeed. *)
Definition env_open_fails : Env :=
  {| respond := fun _ c =>
       match c with NvsOpen _ _ => ESP_FAIL | _ => ESP_OK end;
     calloc_ok := fun _ => true;
     event_group_create_ok := fun _ => true;
     netif_new := fun _ => Some 1;
     dhcpc_status := fun _ => ESP_NETIF_DHCP_STARTED;
     live_ip_info := fun _ => ip_info_zero;
     live_dns_info := fun _ _ => ip_addr_zero;
     ETH_USE_IPV6 := false |}.



(** [esp_netif_new] returns NULL; everything else succeeds. *)
Definition env_netif_new_fails : Env :=
  {| respond := fun _ _ => ESP_OK;
     calloc_ok := fun _ => true;
     event_group_create_ok := fun _ => true;
     netif_new := fun _ => None;
     dhcpc_status := fun _ => ESP_NETIF_DHCP_STARTED;
     live_ip_info := fun _ => ip_info_zero;
     live_dns_info := fun _ _ => ip_addr_zero;
     ETH_USE_IPV6 := false |}.

(** The driver cannot be attached to the new interface. *)
Definition env_attach_fails : Env :=
  {| respond := fun _ c =>
       match c with EspNetifAttach _ _ => ESP_FAIL | _ => ESP_OK end;
     calloc_ok := fun _ => true;
     event_group_create_ok := fun _ => true;
     netif_new := fun _ => Some 1;
     dhcpc_status := fun _ => ESP_NETIF_DHCP_STARTED;
     live_ip_info := fun _ => ip_info_zero;
     live_dns_info := fun _ _ => ip_addr_zero;
     ETH_USE_IPV6 := false |}.

(** A connected interface with a static address: the DHCP client is
    stopped and the stack reports 10.0.0.5/24 with DNS 10.0.0.1. *)
Definition env_static_live : Env :=
  {| respond := fun _ _ => ESP_OK;
     calloc_ok := fun _ => true;
     event_group_create_ok := fun _ => true;
     netif_new := fun _ => Some 1;
     dhcpc_status := fun _ => ESP_NETIF_DHCP_STOPPED;
     live_ip_info := fun _ =>
       {| ip := 83886090; netmask := 16777215; gw := 16777226 |};
     live_dns_info := fun _ idx =>
       match idx with
       | O => {| u_addr := (16777226, 0, 0, 0); zone := 0; type := 0 |}
       | _ => ip_addr_zero
       end;
     ETH_USE_IPV6 := false |}.

Definition is_eth_start (c : call) : bool :=
  match c with EspEthStart _ => true | _ => false end.

Definition is_dhcpc_start (c : call) : bool :=
  match c with EspNetifDhcpcStart _ => true | _ => false end.

(** A stack that says so when asked to start what is already started: the
    driver answers a second [esp_eth_start] with ESP_ERR_INVALID_STATE, the
    DHCP client a second start with "already started". *)
Definition env_strict_driver : Env :=
  {| respond := fun t c =>
       match c with
       | EspEthStart _ =>
           if existsb is_eth_start t then ESP_ERR_INVALID_STATE else ESP_OK
       | EspNetifDhcpcStart _ =>
           if existsb is_dhcpc_start t
           then ESP_ERR_ESP_NETIF_DHCP_ALREADY_STARTED else ESP_OK
       | _ => ESP_OK
       end;
     calloc_ok := fun _ => true;
     event_group_create_ok := fun _ => true;
     netif_new := fun _ => Some 1;
     dhcpc_status := fun _ => ESP_NETIF_DHCP_STARTED;
     live_ip_info := fun _ => ip_info_zero;
     live_dns_info := fun _ _ => ip_addr_zero;
     ETH_USE_IPV6 := false |}.

(** An initialised handle with the given event bits. *)
Definition handle_ready (events : Z) : eth_manager_handle_s :=
  {| ref_cnt := 1; eth_netif := Some 1; eth_handle := Some 2;
     eth_events := Some events |}.

Definition world_ready (events : Z) : World :=
  {| handle := Some (handle_ready events); nvs := ∅; trace := [] |}.

Definition world_uninit (store : gmap string nvs_val) : World :=
  {| handle := None; nvs := store; trace := [] |}.

(** DHCP, enabled, not the factory default. *)
Definition cfg_dhcp : eth_cfg := eth_cfg_init.

(** Static 10.0.0.5/24, gateway and DNS 10.0.0.1. *)
Definition cfg_static : eth_cfg :=
  {| is_default := false; is_valid := true; is_connected := false;
     is_disabled := false; is_static := true;
     ip_info := {| ip := 83886090; netmask := 16777215; gw := 16777226 |};
     dns_info := [ {| u_addr := (16777226, 0, 0, 0); zone := 0; type := 0 |};
                   ip_addr_zero; ip_addr_zero ] |}.

(** ** The older revision: the interface half

    In the netman revision the interface is a file-scope pointer
    [eth_netif] rather than a field of a handle; the program state is that
    pointer together with the store and the trace. *)

Module NetmanStack.

Record State := {
  eth_netif : option Z;   (* static esp_netif_t *eth_netif, [None] is NULL *)
  world : World
}.

Definition N (A : Type) : Type := State -> option (A * State).

Definition nret {A} (a : A) : N A := fun s => Some (a, s).

Definition nbind {A B} (m : N A) (k : A -> N B) : N B :=
  fun s => match m s with
           | Some (a, s') => k a s'
           | None => None
           end.

Notation "'let+' x ':=' m 'in' k" := (nbind m (fun x => k))
  (at level 10, x name, m at level 100, k at level 200).

Notation "'let+' ' p ':=' m 'in' k" := (nbind m (fun p => k))
  (at level 10, p strict pattern, m at level 100, k at level 200).

(** A computation on the store and the trace alone. *)
Definition lift {A} (m : M A) : N A :=
  fun s => match m (world s) with
           | Some (a, w') => Some (a, {| eth_netif := eth_netif s; world := w' |})
           | None => None
           end.

Definition get_eth_netif : N (option Z) := fun s => Some (eth_netif s, s).

Definition put_eth_netif (v : option Z) : N unit :=
  fun s => Some (tt, {| eth_netif := v; world := world s |}).

Section NetmanStack.
Variable env : Env.

(** The loop over [cfg->eth_dns_info] in [set_eth_cfg]. *)
Fixpoint set_dns_loop (cfg : Netman.eth_cfg) (idxs : list nat)
    (result : esp_err_t) : N esp_err_t :=
  match idxs with
  | [] => nret result
  | idx :: rest =>
      let dns := default ip_addr_zero (Netman.eth_dns_info cfg !! idx) in
      if ip_addr_isany_val dns then set_dns_loop cfg rest result
      else
        let+ netif := get_eth_netif in
        let+ result := lift (external env (EspNetifSetDnsInfo netif idx dns)) in
        set_dns_loop cfg rest result
  end.

Definition set_eth_cfg (cfg : Netman.eth_cfg) : N esp_err_t :=
  let+ result :=
    (if Netman.eth_static cfg then
       let+ netif := get_eth_netif in
       let+ _ := lift (external env (EspNetifDhcpcStop netif)) in
       let+ netif := get_eth_netif in
       let+ result :=
         lift (external env (EspNetifSetIpInfo netif
                               (Netman.eth_ip_info cfg))) in
       set_dns_loop cfg (seq 0 ESP_NETIF_DNS_MAX) result
     else
       let+ netif := get_eth_netif in
       let+ result := lift (external env (EspNetifDhcpcStart netif)) in
       if result =? ESP_ERR_ESP_NETIF_DHCP_ALREADY_STARTED then nret ESP_OK
       else nret result) in
  (* Todo enable / disable ethernet interface: both branches are empty *)
  let+ _ := (if Netman.eth_connect cfg then nret tt else nret tt) in
  nret result.

(** The loop over [cfg->eth_dns_info] in [get_eth_cfg]. *)
Fixpoint get_dns_loop (idxs : list nat) (result : esp_err_t)
    (cfg : Netman.eth_cfg) : N (esp_err_t * Netman.eth_cfg) :=
  match idxs with
  | [] => nret (result, Netman.with_is_valid true cfg)
  | idx :: rest =>
      let+ netif := get_eth_netif in
      let+ '(result, dns) := lift (esp_netif_get_dns_info env netif idx) in
      if negb (is_ok result) then nret (result, cfg) else
      get_dns_loop rest result
        (Netman.with_eth_dns_info (<[idx := dns]> (Netman.eth_dns_info cfg))
           cfg)
  end.

(** Helper to fetch current Ethernet configuration from the system and
    store it in a eth_cfg struct. *)
Definition get_eth_cfg : N (esp_err_t * Netman.eth_cfg) :=
  let cfg := Netman.cfg_zero in
  let+ netif := get_eth_netif in
  let+ '(result, dhcp_status) :=
    lift (esp_netif_dhcpc_get_status env netif) in
  if negb (is_ok result) then nret (result, cfg) else
  if dhcp_status =? ESP_NETIF_DHCP_STOPPED then
    let cfg := Netman.with_eth_static true cfg in
    let+ netif := get_eth_netif in
    let+ '(result, info) := lift (esp_netif_get_ip_info env netif) in
    if negb (is_ok result) then nret (result, cfg) else
    get_dns_loop (seq 0 ESP_NETIF_DNS_MAX) result
      (Netman.with_eth_ip_info info cfg)
  else nret (result, Netman.with_is_valid true cfg).

(** Set a new Network Manager configuration. *)
Definition netman_set_eth_cfg (new_cfg : Netman.eth_cfg) : N esp_err_t :=
  let+ _ := lift (Netman.save_config env new_cfg) in
  set_eth_cfg new_cfg.

(** Event handler for Ethernet events *)
Definition eth_event_handler (esp_netif : option Z) (event_base : string)
    (event_id : Z) : N unit :=
  if event_id =? ETHERNET_EVENT_CONNECTED then
    let+ _ := lift (external env EspEthIoctlGetMac) in
    let+ _ := (if ETH_USE_IPV6 env
               then lift (external env (EspNetifCreateIp6Linklocal esp_netif))
               else nret ESP_OK) in
    nret tt
  else nret tt.

(** Set the hostname on the Ethernet interface *)
Definition eth_manager_set_hostname (hostname : string) : N esp_err_t :=
  let+ netif := get_eth_netif in
  match netif with
  | None => nret ESP_FAIL
  | Some _ =>
      let+ err := lift (external env (EspNetifSetHostname netif hostname)) in
      if negb (err =? 0) then nret err else nret ESP_OK
  end.

(** Initialize the Ethernet manager.  [eth_handle] is the pointer the
    caller passes; [cfg_state] stands for the local of that name, which the
    function declares without initialising it and whose contents
    [get_effective_config] leaves untouched. *)
Definition eth_manager_init (eth_handle : option Z)
    (cfg_state : Netman.eth_cfg) : N esp_err_t :=
  let err := ESP_OK in
  match eth_handle with
  | None => nret ESP_ERR_INVALID_ARG
  | Some _ =>
  let+ netif := lift (esp_netif_new env) in
  let+ _ := put_eth_netif netif in
  match netif with
  | None => nret err (* goto error *)
  | Some _ =>
  (* attach Ethernet driver to TCP/IP stack *)
  let+ netif := get_eth_netif in
  let+ err := lift (external env (EspNetifAttach netif eth_handle)) in
  if negb (err =? 0) then nret err else
  (* Register user defined event handers *)
  let+ netif := get_eth_netif in
  let+ err := lift (external env (EspEventHandlerInstanceRegister netif)) in
  if negb (err =? 0) then nret err else
  (* start Ethernet driver state machine *)
  let+ err := lift (external env (EspEthStart eth_handle)) in
  if negb (err =? 0) then nret err else
  (* Load the saved configuration from NVS *)
  let+ '(err, cfg_state) :=
    lift (Netman.get_effective_config env cfg_state) in
  if negb (err =? 0) then nret err else
  (* Set the configuration to the Ethernet interface *)
  let+ err := set_eth_cfg cfg_state in
  if negb (err =? 0) then nret err else
  nret 0
  end end.
End NetmanStack.

End NetmanStack.

(** ** Vocabulary of the further properties *)

Definition is_nvs_call (c : call) : bool :=
  match c with
  | NvsOpen _ _ | NvsGetU32 _ | NvsGetBlob _ | NvsSetU32 _ _ | NvsSetBlob _ _
  | NvsEraseAll | NvsCommit | NvsClose => true
  | _ => false
  end.

(** A store none of whose operations reports an error. *)
Definition nvs_reliable (env : Env) : Prop :=
  forall t c, is_nvs_call c = true -> respond env t c = ESP_OK.

(** What of a configuration survives a save and a load: the two flags and
    the two address blocks; the bookkeeping flags come back cleared. *)
Definition persisted (cfg : eth_cfg) : eth_cfg :=
  {| is_default := false; is_valid := false; is_connected := false;
     is_disabled := is_disabled cfg; is_static := is_static cfg;
     ip_info := ip_info cfg; dns_info := dns_info cfg |}.

(** The store holds a complete record of a schema version this build
    understands. *)
Definition complete_record (store : gmap string nvs_val) (key3 : string)
    (static flag3 : bool) (info : esp_netif_ip_info_t)
    (dns : list esp_ip_addr_t) : Prop :=
  exists ver s d,
    store !! "version" = Some (NvsU32 ver) /\ ver <= NVS_CFG_VER /\
    store !! "eth_static" = Some (NvsU32 s) /\ static = u32_to_bool s /\
    store !! key3 = Some (NvsU32 d) /\ flag3 = u32_to_bool d /\
    store !! "eth_ip" = Some (NvsIpBlob info) /\
    store !! "eth_dns" = Some (NvsDnsBlob dns).

(** A computation that leaves the handle and the store as they are and
    issues only calls that satisfy [P]. *)
Definition confined (P : call -> bool) {A} (m : M A) : Prop :=
  forall w a w',
    m w = Some (a, w') ->
    handle w' = handle w /\ nvs w' = nvs w /\
    exists issued, trace w' = issued ++ trace w /\ forallb P issued = true.

(** The DNS entries [set_eth_cfg] pushes for [cfg], in the order it pushes
    them: every entry that is not "any", by ascending index. *)
Definition dns_pushes (netif : option Z) (cfg : eth_cfg) : list call :=
  map (fun idx => EspNetifSetDnsInfo netif idx (dns_at cfg idx))
      (List.filter (fun idx => negb (ip_addr_isany_val (dns_at cfg idx)))
              (seq 0 ESP_NETIF_DNS_MAX)).

Definition is_eth_stop (c : call) : bool :=
  match c with EspEthStop _ => true | _ => false end.

(** A complete record whose version entry was written by a newer schema. *)
Definition store_newer_version : gmap string nvs_val :=
  <["version" := NvsU32 (NVS_CFG_VER + 1)]> (stored_record cfg_static).

(** The calls with which a configuration is applied to the interface. *)
Definition is_apply_call (c : call) : bool :=
  is_ip_dns_dhcp_or_start c || is_eth_stop c.

(** The read-only store calls. *)
Definition is_nvs_read (c : call) : bool :=
  match c with
  | NvsOpen _ false | NvsGetU32 _ | NvsGetBlob _ | NvsClose => true
  | _ => false
  end.

(** The queries of the live interface. *)
Definition is_netif_query (c : call) : bool :=
  match c with
  | EspNetifDhcpcGetStatus _ | EspNetifGetIpInfo _ | EspNetifGetDnsInfo _ _ =>
      true
  | _ => false
  end.

(** A computation that leaves the store as it is. *)
Definition keeps_nvs {A} (m : M A) : Prop :=
  forall w a w', m w = Some (a, w') -> nvs w' = nvs w.

(** What of an older-revision configuration survives a save and a load. *)
Definition netman_persisted (cfg : Netman.eth_cfg) : Netman.eth_cfg :=
  {| Netman.is_default := false; Netman.is_valid := false;
     Netman.eth_static := Netman.eth_static cfg;
     Netman.eth_ip_info := Netman.eth_ip_info cfg;
     Netman.eth_dns_info := Netman.eth_dns_info cfg;
     Netman.eth_connect := Netman.eth_connect cfg |}.

(** The calls with which the older revision applies a configuration. *)
Definition is_netman_apply_call (c : call) : bool :=
  match c with
  | EspNetifSetIpInfo _ _ | EspNetifSetDnsInfo _ _ _
  | EspNetifDhcpcStop _ | EspNetifDhcpcStart _ => true
  | _ => false
  end.

(** An older-revision state with the given interface pointer and store. *)
Definition netman_state (netif : option Z) (store : gmap string nvs_val)
  : NetmanStack.State :=
  {| NetmanStack.eth_netif := netif; NetmanStack.world := world_uninit store |}.

(** An older-revision static configuration: 10.0.0.5/24, DNS 10.0.0.1. *)
Definition netman_cfg_static : Netman.eth_cfg :=
  {| Netman.is_default := false; Netman.is_valid := true;
     Netman.eth_static := true;
     Netman.eth_ip_info := ip_info cfg_static;
     Netman.eth_dns_info := dns_info cfg_static;
     Netman.eth_connect := true |}.

(** The driver refuses to start; everything else succeeds. *)
Definition env_eth_start_fails : Env :=
  {| respond := fun _ c =>
       match c with EspEthStart _ => ESP_FAIL | _ => ESP_OK end;
     calloc_ok := fun _ => true;
     event_group_create_ok := fun _ => true;
     netif_new := fun _ => Some 1;
     dhcpc_status := fun _ => ESP_NETIF_DHCP_STARTED;
     live_ip_info := fun _ => ip_info_zero;
     live_dns_info := fun _ _ => ip_addr_zero;
     ETH_USE_IPV6 := false |}.

(** * Properties *)

Arguments is_ok : simpl never.

Lemma is_ok_true r : is_ok r = true <-> r = ESP_OK.
Proof. unfold is_ok. apply Z.eqb_eq. Qed.

Lemma is_ok_false r : is_ok r = false <-> r <> ESP_OK.
Proof. unfold is_ok. apply Z.eqb_neq. Qed.

Lemma forallb_seq_lt (f : nat -> bool) (n : nat) :
  forallb f (seq 0 n) = true <-> forall idx, (idx < n)%nat -> f idx = true.
Proof.
  rewrite forallb_forall. split.
  - intros H idx Hlt. apply H. apply in_seq. lia.
  - intros H idx Hin. apply H. apply in_seq in Hin. lia.
Qed.

(** ** Comparing configurations *)

(** C6. [cfgs_are_equal a b] holds exactly when the disabled flags agree,
    the static flags agree and, for static configurations, address,
    netmask, gateway and every DNS slot match; so two non-static
    configurations with equal flags are equal whatever their IP and DNS
    fields, and two static ones that differ in DNS slot 0 are not. *)
Theorem cfgs_are_equal_spec :
  (forall a b : eth_cfg,
      cfgs_are_equal a b = true <->
      is_disabled a = is_disabled b /\
      is_static a = is_static b /\
      (is_static a = true -> is_static b = true ->
       ip (ip_info a) = ip (ip_info b) /\
       netmask (ip_info a) = netmask (ip_info b) /\
       gw (ip_info a) = gw (ip_info b) /\
       forall idx, (idx < ESP_NETIF_DNS_MAX)%nat ->
                   ip_addr_cmp (dns_at a idx) (dns_at b idx) = true)) /\
  (forall a b : eth_cfg,
      is_static a = false -> is_static b = false ->
      is_disabled a = is_disabled b ->
      cfgs_are_equal a b = true) /\
  (forall a b : eth_cfg,
      is_static a = true -> is_static b = true ->
      ip_addr_cmp (dns_at a 0%nat) (dns_at b 0%nat) = false ->
      cfgs_are_equal a b = false).
Proof.
  assert (Hmain : forall a b : eth_cfg,
      cfgs_are_equal a b = true <->
      is_disabled a = is_disabled b /\
      is_static a = is_static b /\
      (is_static a = true -> is_static b = true ->
       ip (ip_info a) = ip (ip_info b) /\
       netmask (ip_info a) = netmask (ip_info b) /\
       gw (ip_info a) = gw (ip_info b) /\
       forall idx, (idx < ESP_NETIF_DNS_MAX)%nat ->
                   ip_addr_cmp (dns_at a idx) (dns_at b idx) = true)).
  { intros a b. unfold cfgs_are_equal, ip4_addr_cmp.
    destruct (Bool.eqb (is_disabled a) (is_disabled b)) eqn:Hd; cbn [negb].
    2:{ apply Bool.eqb_false_iff in Hd. split; [discriminate | tauto]. }
    apply Bool.eqb_prop in Hd.
    destruct (Bool.eqb (is_static a) (is_static b)) eqn:Hs; cbn [negb].
    2:{ apply Bool.eqb_false_iff in Hs. split; [discriminate | tauto]. }
    apply Bool.eqb_prop in Hs.
    destruct (is_static a) eqn:Ha.
    2:{ split; [intros _ | reflexivity].
        split; [exact Hd | split; [exact Hs | discriminate]]. }
    destruct (Z.eqb_spec (ip (ip_info a)) (ip (ip_info b))) as [E1 | E1];
      cbn [negb].
    2:{ split; [discriminate |]. intros (_ & _ & H).
        destruct (H eq_refl (eq_sym Hs)) as [H1 _]. contradiction. }
    destruct (Z.eqb_spec (netmask (ip_info a)) (netmask (ip_info b)))
      as [E2 | E2]; cbn [negb].
    2:{ split; [discriminate |]. intros (_ & _ & H).
        destruct (H eq_refl (eq_sym Hs)) as (_ & H2 & _). contradiction. }
    destruct (Z.eqb_spec (gw (ip_info a)) (gw (ip_info b))) as [E3 | E3];
      cbn [negb].
    2:{ split; [discriminate |]. intros (_ & _ & H).
        destruct (H eq_refl (eq_sym Hs)) as (_ & _ & H3 & _). contradiction. }
    rewrite forallb_seq_lt. split.
    - intros H. repeat split; assumption.
    - intros (_ & _ & H). destruct (H eq_refl (eq_sym Hs)) as (_ & _ & _ & H4).
      exact H4. }
  split; [exact Hmain |]. split.
  - intros a b Ha Hb Hd. apply Hmain. repeat split; try congruence.
  - intros a b Ha Hb Hdns.
    destruct (cfgs_are_equal a b) eqn:E; [| reflexivity].
    apply Hmain in E. destruct E as (_ & _ & H).
    destruct (H Ha Hb) as (_ & _ & _ & H4).
    rewrite H4 in Hdns; [discriminate |]. unfold ESP_NETIF_DNS_MAX. lia.
Qed.

(** ** Applying a configuration *)

Lemma bind_ret_r {A} (m : M A) (w : World) :
  (let* a := m in ret a) w = m w.
Proof. unfold bind, ret. destruct (m w) as [[a w'] |]; reflexivity. Qed.

Lemma stop_eth_runs env w :
  exists result,
    (stop_eth env w = Some (result, w) /\
     (result = ESP_OK \/ result = ESP_ERR_INVALID_STATE)) \/
    (exists eth, stop_eth env w = Some (result, log (EspEthStop eth) w)).
Proof.
  unfold stop_eth, bind, get_handle, ret, external.
  destruct (handle w) as [hs |]; [| eauto].
  destruct (eth_handle hs) as [eth |]; [| eauto].
  destruct (eth_events hs) as [events |]; [| eauto].
  destruct (Z.land events BIT_ETH_START =? 0); eauto.
Qed.

(** ** Event bits *)

Lemma land_pow2_eqb (e k : Z) :
  0 <= k -> (Z.land e (2 ^ k) =? 0) = negb (Z.testbit e k).
Proof.
  intros Hk. destruct (Z.testbit e k) eqn:Hbit; simpl.
  - apply Z.eqb_neq. intros Hz.
    assert (Hb : Z.testbit (Z.land e (2 ^ k)) k = true).
    { rewrite Z.land_spec, Hbit, Z.pow2_bits_true by lia. reflexivity. }
    rewrite Hz, Z.bits_0 in Hb. discriminate.
  - apply Z.eqb_eq. apply Z.bits_inj'. intros n Hn.
    rewrite Z.land_spec, Z.bits_0, Z.pow2_bits_eqb by lia.
    destruct (Z.eqb_spec k n) as [-> | Hne].
    + rewrite Hbit. reflexivity.
    + apply andb_false_r.
Qed.

Lemma start_test (events : Z) :
  (Z.land events BIT_ETH_START =? 0) = negb (started_bit events).
Proof. apply (land_pow2_eqb events 1). lia. Qed.

Lemma connected_test (events : Z) :
  (Z.land events BIT_ETH_CONNECTED =? 0) = negb (connected_bit events).
Proof. apply (land_pow2_eqb events 2). lia. Qed.

Lemma testbit_set (events k n : Z) :
  0 <= k -> 0 <= n ->
  Z.testbit (Z.lor events (2 ^ k)) n = (n =? k) || Z.testbit events n.
Proof.
  intros Hk Hn. rewrite Z.lor_spec, Z.pow2_bits_eqb by lia.
  rewrite (Z.eqb_sym k n). apply orb_comm.
Qed.

Lemma testbit_clear (events k n : Z) :
  0 <= k -> 0 <= n ->
  Z.testbit (Z.ldiff events (2 ^ k)) n = negb (n =? k) && Z.testbit events n.
Proof.
  intros Hk Hn. rewrite Z.ldiff_spec, Z.pow2_bits_eqb by lia.
  rewrite (Z.eqb_sym k n). apply andb_comm.
Qed.

(** ** Starting the interface *)

Lemma start_eth_ready env w hs eth events :
  handle w = Some hs -> eth_handle hs = Some eth ->
  eth_events hs = Some events ->
  start_eth env w =
    if started_bit events then Some (ESP_OK, w)
    else Some (respond env (trace w) (EspEthStart (Some eth)),
               log (EspEthStart (Some eth)) w).
Proof.
  intros Hh He Hev. unfold start_eth, bind, get_handle, ret, external.
  rewrite Hh, He, Hev, start_test.
  destruct (started_bit events); reflexivity.
Qed.

(** ** Applying a disabled configuration *)

Lemma stop_eth_ready env w hs eth events :
  handle w = Some hs -> eth_handle hs = Some eth ->
  eth_events hs = Some events ->
  stop_eth env w =
    if started_bit events
    then Some (respond env (trace w) (EspEthStop (Some eth)),
               log (EspEthStop (Some eth)) w)
    else Some (ESP_OK, w).
Proof.
  intros Hh He Hev. unfold stop_eth, bind, get_handle, ret, external.
  rewrite Hh, He, Hev, start_test.
  destruct (started_bit events); reflexivity.
Qed.

Lemma stop_eth_not_ready env w :
  handle w = None \/
  (exists hs, handle w = Some hs /\
              (eth_handle hs = None \/ eth_events hs = None)) ->
  stop_eth env w = Some (ESP_ERR_INVALID_STATE, w).
Proof.
  unfold stop_eth, bind, get_handle, ret.
  intros [Hh | (hs & Hh & [He | Hev])]; rewrite Hh; [reflexivity | |].
  - rewrite He. reflexivity.
  - rewrite Hev. destruct (eth_handle hs); reflexivity.
Qed.

(** C7. Applying a disabled configuration is exactly [stop_eth], whatever
    [is_static], [ip_info] and [dns_info] hold: it returns at once and
    issues no IP, DNS, DHCP or interface-start call.  The interface stop
    itself is issued exactly when the manager is initialised and the
    Started bit is set, and its status is the result; with the bit clear
    the call returns ESP_OK having issued nothing, and without a handle, a
    driver handle or an event group it returns ESP_ERR_INVALID_STATE having
    issued nothing. *)
Theorem set_eth_cfg_disabled_only_stops env cfg w :
  is_disabled cfg = true ->
  set_eth_cfg env cfg w = stop_eth env w /\
  (forall hs eth events,
      handle w = Some hs -> eth_handle hs = Some eth ->
      eth_events hs = Some events ->
      set_eth_cfg env cfg w =
        if started_bit events
        then Some (respond env (trace w) (EspEthStop (Some eth)),
                   log (EspEthStop (Some eth)) w)
        else Some (ESP_OK, w)) /\
  (handle w = None \/
   (exists hs, handle w = Some hs /\
               (eth_handle hs = None \/ eth_events hs = None)) ->
   set_eth_cfg env cfg w = Some (ESP_ERR_INVALID_STATE, w)) /\
  (exists result w',
      set_eth_cfg env cfg w = Some (result, w') /\
      handle w' = handle w /\ nvs w' = nvs w /\
      exists issued,
        trace w' = issued ++ trace w /\
        (issued = [] \/ exists eth, issued = [EspEthStop eth]) /\
        forallb (fun c => negb (is_ip_dns_dhcp_or_start c)) issued = true) /\
  (forall cfg', is_disabled cfg' = true ->
                set_eth_cfg env cfg' w = set_eth_cfg env cfg w).
Proof.
  intros Hdis.
  assert (Heq : forall c, is_disabled c = true ->
                          set_eth_cfg env c w = stop_eth env w).
  { intros c Hc. unfold set_eth_cfg. rewrite Hc. apply bind_ret_r. }
  split; [apply Heq, Hdis |]. split; [| split; [| split]].
  - intros hs eth events Hh He Hev. rewrite (Heq cfg Hdis).
    apply (stop_eth_ready env w hs eth events Hh He Hev).
  - intros Hnot. rewrite (Heq cfg Hdis). apply stop_eth_not_ready, Hnot.
  - rewrite (Heq cfg Hdis).
    destruct (stop_eth_runs env w) as [result [[Hrun _] | [eth Hrun]]].
    + exists result, w. repeat split; try assumption.
      exists []. repeat split; auto.
    + exists result, (log (EspEthStop eth) w). repeat split; try assumption.
      exists [EspEthStop eth]. repeat split; eauto.
  - intros cfg' Hdis'. rewrite (Heq cfg Hdis), (Heq cfg' Hdis'). reflexivity.
Qed.

(** At a world whose interface is started, a disabled configuration stops
    it and touches nothing else. *)
Lemma set_eth_cfg_disabled_only_stops_witness :
  is_disabled (with_is_disabled true cfg_static) = true /\
  set_eth_cfg env_all_ok (with_is_disabled true cfg_static)
    (world_ready BIT_ETH_START) =
    Some (ESP_OK, log (EspEthStop (Some 2)) (world_ready BIT_ETH_START)).
Proof.
  split; [reflexivity |].
  destruct (set_eth_cfg_disabled_only_stops env_all_ok
              (with_is_disabled true cfg_static) (world_ready BIT_ETH_START)
              eq_refl) as (_ & Hready & _).
  rewrite (Hready (handle_ready BIT_ETH_START) 2 BIT_ETH_START
             eq_refl eq_refl eq_refl).
  reflexivity.
Defined.

(** C7 as stated fails: a disabled configuration does not always stop
    the interface.  Here a DHCP configuration has just been
    applied, so the driver was asked to start and agreed; the Started
    event has not been delivered yet, and the disabled configuration
    applied next returns ESP_OK without calling [esp_eth_stop].  On an
    uninitialised manager it is refused, again without a call. *)
Lemma set_eth_cfg_disabled_skips_stop :
  exists w1,
    set_eth_cfg env_all_ok cfg_dhcp (world_ready 0) = Some (ESP_OK, w1) /\
    trace w1 = [EspEthStart (Some 2); EspNetifDhcpcStart (Some 1)] /\
    is_disabled (with_is_disabled true cfg_dhcp) = true /\
    set_eth_cfg env_all_ok (with_is_disabled true cfg_dhcp) w1 =
      Some (ESP_OK, w1) /\
    set_eth_cfg env_all_ok (with_is_disabled true cfg_dhcp)
      (world_uninit ∅) = Some (ESP_ERR_INVALID_STATE, world_uninit ∅).
Proof.
  eexists. split; [vm_compute; reflexivity |].
  repeat split; vm_compute; reflexivity.
Qed.

(** ** Applying a DHCP configuration *)

Lemma set_eth_cfg_dhcp env cfg w hs :
  is_disabled cfg = false -> is_static cfg = false ->
  handle w = Some hs ->
  set_eth_cfg env cfg w =
    start_eth env (log (EspNetifDhcpcStart (eth_netif hs)) w).
Proof.
  intros Hd Hs Hh. unfold set_eth_cfg. rewrite Hd, Hs.
  unfold bind at 1. unfold bind at 1. unfold deref_handle at 1.
  rewrite Hh. unfold bind at 1. unfold external at 1.
  destruct (_ =? ESP_ERR_ESP_NETIF_DHCP_ALREADY_STARTED);
    unfold ret at 1; apply bind_ret_r.
Qed.

(** ** The event handler on an initialised manager *)

Lemma with_eth_events_same hs events :
  eth_events hs = Some events -> with_eth_events (Some events) hs = hs.
Proof. destruct hs; simpl; intros ->; reflexivity. Qed.

Lemma eth_event_handler_ready env netif event_id w hs events :
  handle w = Some hs -> eth_events hs = Some events ->
  exists w',
    eth_event_handler env netif ETH_EVENT event_id w = Some (tt, w') /\
    handle w' =
      Some (with_eth_events (Some (events_after event_id events)) hs) /\
    nvs w' = nvs w.
Proof.
  intros Hh Hev.
  unfold eth_event_handler, events_after. rewrite String.eqb_refl.
  destruct (event_id =? ETHERNET_EVENT_CONNECTED).
  { unfold xEventGroupSetBits, bind, deref_handle, put_handle, external, ret.
    rewrite Hh, Hev.
    destruct (ETH_USE_IPV6 env); eexists; repeat split; reflexivity. }
  destruct (event_id =? ETHERNET_EVENT_DISCONNECTED).
  { unfold xEventGroupClearBits, bind, deref_handle, put_handle.
    rewrite Hh, Hev. eexists; repeat split; reflexivity. }
  destruct (event_id =? ETHERNET_EVENT_START).
  { unfold xEventGroupSetBits, bind, deref_handle, put_handle.
    rewrite Hh, Hev. eexists; repeat split; reflexivity. }
  destruct (event_id =? ETHERNET_EVENT_STOP).
  { unfold xEventGroupClearBits, bind, deref_handle, put_handle.
    rewrite Hh, Hev. eexists; repeat split; reflexivity. }
  exists w. rewrite (with_eth_events_same hs events Hev).
  repeat split; assumption.
Qed.

Lemma eth_event_handler_started env netif w hs events :
  handle w = Some hs -> eth_events hs = Some events ->
  eth_event_handler env netif ETH_EVENT ETHERNET_EVENT_START w =
    Some (tt, set_handle
                (Some (with_eth_events (Some (Z.lor events BIT_ETH_START)) hs))
                w).
Proof.
  intros Hh Hev. unfold eth_event_handler. rewrite String.eqb_refl. simpl.
  unfold xEventGroupSetBits, bind, deref_handle, put_handle.
  rewrite Hh, Hev. reflexivity.
Qed.

Lemma started_bit_set events : started_bit (Z.lor events BIT_ETH_START) = true.
Proof.
  unfold started_bit. change BIT_ETH_START with (2 ^ 1).
  rewrite testbit_set by lia. reflexivity.
Qed.

(** ** Applying a DHCP configuration, and applying it again *)

(** C8 (as the code has it). On an initialised manager, applying a
    non-static, non-disabled configuration returns what the interface start
    returns, whatever the DHCP start reported: success when the Started bit
    is set, the driver's own result when it is clear.  So two applications
    both succeed once the first driver start succeeded (or the interface
    was already marked started) and the Started event was delivered in
    between. *)
Theorem set_eth_cfg_dhcp_repeated env cfg netif w hs eth events :
  is_disabled cfg = false -> is_static cfg = false ->
  handle w = Some hs -> eth_handle hs = Some eth ->
  eth_events hs = Some events ->
  let w1 := log (EspNetifDhcpcStart (eth_netif hs)) w in
  (started_bit events = true ->
   set_eth_cfg env cfg w = Some (ESP_OK, w1)) /\
  (started_bit events = false ->
   set_eth_cfg env cfg w =
     Some (respond env (trace w1) (EspEthStart (Some eth)),
           log (EspEthStart (Some eth)) w1)) /\
  (started_bit events = true \/
   respond env (trace w1) (EspEthStart (Some eth)) = ESP_OK ->
   exists w2 w3 w4,
     set_eth_cfg env cfg w = Some (ESP_OK, w2) /\
     eth_event_handler env netif ETH_EVENT ETHERNET_EVENT_START w2 =
       Some (tt, w3) /\
     set_eth_cfg env cfg w3 = Some (ESP_OK, w4)).
Proof.
  intros Hd Hs Hh He Hev w1.
  assert (Hrun : set_eth_cfg env cfg w =
                 if started_bit events then Some (ESP_OK, w1)
                 else Some (respond env (trace w1) (EspEthStart (Some eth)),
                            log (EspEthStart (Some eth)) w1)).
  { rewrite (set_eth_cfg_dhcp env cfg w hs Hd Hs Hh).
    apply (start_eth_ready env _ hs eth events); assumption. }
  split; [| split].
  - intros Hb. rewrite Hrun, Hb. reflexivity.
  - intros Hb. rewrite Hrun, Hb. reflexivity.
  - intros Hok.
    assert (Hfirst : exists w2, set_eth_cfg env cfg w = Some (ESP_OK, w2) /\
                                handle w2 = Some hs).
    { rewrite Hrun. destruct (started_bit events).
      - exists w1. split; [reflexivity | exact Hh].
      - destruct Hok as [Hok | Hok]; [discriminate |]. rewrite Hok.
        eexists. split; [reflexivity | exact Hh]. }
    destruct Hfirst as (w2 & Hw2 & Hh2).
    exists w2. eexists. eexists. split; [exact Hw2 |]. split.
    + apply (eth_event_handler_started env netif w2 hs events Hh2 Hev).
    + set (hs3 := with_eth_events (Some (Z.lor events BIT_ETH_START)) hs).
      rewrite (set_eth_cfg_dhcp env cfg (set_handle (Some hs3) w2) hs3
                 Hd Hs eq_refl).
      erewrite (start_eth_ready env _ hs3 eth (Z.lor events BIT_ETH_START));
        [| reflexivity | exact He | reflexivity].
      rewrite started_bit_set. reflexivity.
Qed.

(** Two applications with the Started event delivered in between. *)
Lemma set_eth_cfg_dhcp_repeated_witness :
  exists w2 w3 w4,
    set_eth_cfg env_strict_driver cfg_dhcp (world_ready 0) =
      Some (ESP_OK, w2) /\
    eth_event_handler env_strict_driver (Some 1) ETH_EVENT
      ETHERNET_EVENT_START w2 = Some (tt, w3) /\
    set_eth_cfg env_strict_driver cfg_dhcp w3 = Some (ESP_OK, w4).
Proof.
  apply (set_eth_cfg_dhcp_repeated env_strict_driver cfg_dhcp (Some 1)
           (world_ready 0) (handle_ready 0) 2 0
           eq_refl eq_refl eq_refl eq_refl eq_refl).
  right. reflexivity.
Defined.

(** C8 as stated fails: applied twice in succession, with no Started event
    delivered in between, the second application asks the driver to start
    again and returns the driver's refusal, although the DHCP client's
    "already started" was mapped to success. *)
Lemma set_eth_cfg_dhcp_twice_in_succession :
  exists w1 w2,
    set_eth_cfg env_strict_driver cfg_dhcp (world_ready 0) =
      Some (ESP_OK, w1) /\
    respond env_strict_driver (trace w1) (EspNetifDhcpcStart (Some 1)) =
      ESP_ERR_ESP_NETIF_DHCP_ALREADY_STARTED /\
    set_eth_cfg env_strict_driver cfg_dhcp w1 =
      Some (ESP_ERR_INVALID_STATE, w2) /\
    ESP_ERR_INVALID_STATE <> ESP_OK.
Proof.
  eexists. eexists.
  split; [reflexivity |]. split; [reflexivity |]. split; [reflexivity |].
  discriminate.
Qed.

(** ** Persistence never touches the handle *)

Lemma handle_blind_ret {A} (a : A) : handle_blind (ret a).
Proof. intros w. exists a, w. split; [reflexivity | intros h; reflexivity]. Qed.

Lemma handle_blind_bind {A B} (m : M A) (k : A -> M B) :
  handle_blind m -> (forall a, handle_blind (k a)) -> handle_blind (bind m k).
Proof.
  intros Hm Hk w.
  destruct (Hm w) as (a & w1 & H1 & H1').
  destruct (Hk a w1) as (b & w2 & H2 & H2').
  exists b, w2. split.
  - unfold bind. rewrite H1. exact H2.
  - intros h. unfold bind. rewrite H1'. apply H2'.
Qed.

Lemma handle_blind_external env c : handle_blind (external env c).
Proof.
  intros w. eexists. eexists. split; [reflexivity | intros h; reflexivity].
Qed.

Lemma handle_blind_handle {A} (m : M A) w a w' :
  handle_blind m -> m w = Some (a, w') -> handle w' = handle w.
Proof.
  intros Hm Hrun. destruct (Hm w) as (a1 & w1 & H1 & H1').
  rewrite Hrun in H1. injection H1 as <- <-.
  specialize (H1' (handle w)).
  replace (set_handle (handle w) w) with w in H1' by (destruct w; reflexivity).
  rewrite Hrun in H1'. injection H1' as Heq.
  rewrite Heq at 1. reflexivity.
Qed.

Ltac handle_blind_step :=
  first
    [ apply handle_blind_ret
    | apply handle_blind_external
    | apply handle_blind_bind; [| intros ?]
    | match goal with
      | |- handle_blind (if ?c then _ else _) => destruct c
      | |- handle_blind (match ?x with _ => _ end) => destruct x
      | |- handle_blind (fun w => Some _) =>
          let w := fresh "w" in
          intros w; eexists; eexists;
          (split; [reflexivity | intros ?; reflexivity])
      end ].

Lemma handle_blind_nvs_open env ns rw : handle_blind (nvs_open env ns rw).
Proof. unfold nvs_open. repeat handle_blind_step. Qed.

Lemma handle_blind_nvs_close env : handle_blind (nvs_close env).
Proof. unfold nvs_close. repeat handle_blind_step. Qed.

Lemma handle_blind_nvs_commit env : handle_blind (nvs_commit env).
Proof. unfold nvs_commit. repeat handle_blind_step. Qed.

Lemma handle_blind_nvs_erase_all env : handle_blind (nvs_erase_all env).
Proof. unfold nvs_erase_all. repeat handle_blind_step. Qed.

Lemma handle_blind_nvs_set_u32 env key v : handle_blind (nvs_set_u32 env key v).
Proof. unfold nvs_set_u32. repeat handle_blind_step. Qed.

Lemma handle_blind_nvs_set_blob env key v :
  handle_blind (nvs_set_blob env key v).
Proof. unfold nvs_set_blob. repeat handle_blind_step. Qed.

Lemma handle_blind_nvs_get_u32 env key : handle_blind (nvs_get_u32 env key).
Proof.
  unfold nvs_get_u32. apply handle_blind_bind; [apply handle_blind_external |].
  intros r. destruct (is_ok r); [| apply handle_blind_ret].
  intros w. destruct (nvs w !! key) as [[] |] eqn:Hk;
    eexists; eexists; (split; [reflexivity |]);
    intros h; simpl; rewrite Hk; reflexivity.
Qed.

Lemma handle_blind_nvs_get_blob env key : handle_blind (nvs_get_blob env key).
Proof.
  unfold nvs_get_blob. apply handle_blind_bind; [apply handle_blind_external |].
  intros r. destruct (is_ok r); [| apply handle_blind_ret].
  intros w. destruct (nvs w !! key) as [[] |] eqn:Hk;
    eexists; eexists; (split; [reflexivity |]);
    intros h; simpl; rewrite Hk; reflexivity.
Qed.

Create HintDb blind.

#[local] Hint Resolve handle_blind_nvs_open handle_blind_nvs_close
  handle_blind_nvs_commit handle_blind_nvs_erase_all handle_blind_nvs_set_u32
  handle_blind_nvs_set_blob handle_blind_nvs_get_u32 handle_blind_nvs_get_blob
  : blind.

Ltac handle_blind_auto :=
  repeat first [ solve [auto with blind] | handle_blind_step ].

Lemma handle_blind_get_saved_config env : handle_blind (get_saved_config env).
Proof.
  unfold get_saved_config, get_saved_config_on_exit. handle_blind_auto.
Qed.

Lemma handle_blind_clear_config env : handle_blind (clear_config env).
Proof. unfold clear_config. handle_blind_auto. Qed.

#[local] Hint Resolve handle_blind_get_saved_config handle_blind_clear_config
  : blind.

Lemma handle_blind_save_config env cfg : handle_blind (save_config env cfg).
Proof. unfold save_config, save_config_on_exit. handle_blind_auto. Qed.

Lemma handle_blind_get_saved_or_default_config env :
  handle_blind (get_saved_or_default_config env).
Proof. unfold get_saved_or_default_config. handle_blind_auto. Qed.

(** ** The effective configuration *)

Lemma set_defaults_fields :
  is_default set_defaults = true /\ is_valid set_defaults = true /\
  is_static set_defaults = false /\ is_disabled set_defaults = false /\
  is_connected set_defaults = false.
Proof. repeat split. Qed.

(** [get_saved_or_default_config] always returns ESP_OK with a valid
    configuration: the compiled-in defaults when the load failed, the
    loaded record otherwise.  It leaves the handle alone. *)
Lemma get_saved_or_default_config_ok env w :
  exists r c w',
    get_saved_config env w = Some ((r, c), w') /\
    get_saved_or_default_config env w =
      Some ((ESP_OK, if is_ok r then with_is_valid true c else set_defaults),
            w') /\
    is_valid (if is_ok r then with_is_valid true c else set_defaults) = true /\
    handle w' = handle w /\ nvs w' = nvs w.
Proof.
  destruct (handle_blind_get_saved_config env w) as ([r c] & w' & Hrun & _).
  exists r, c, w'. split; [exact Hrun |].
  assert (Hh : handle w' = handle w).
  { eapply handle_blind_handle;
      [apply handle_blind_get_saved_config | exact Hrun]. }
  split; [| split; [| split; [exact Hh |]]].
  - unfold get_saved_or_default_config, bind. rewrite Hrun.
    destruct (is_ok r) eqn:Hr; simpl; unfold ret.
    + apply is_ok_true in Hr. rewrite Hr. reflexivity.
    + reflexivity.
  - destruct (is_ok r); reflexivity.
  - revert Hrun. unfold get_saved_config, get_saved_config_on_exit, nvs_open,
      nvs_close, nvs_get_u32, nvs_get_blob, bind, external, ret.
    repeat first
      [ progress simpl
      | match goal with
        | |- Some _ = Some _ -> _ =>
            let H := fresh in intros H; injection H as _ _ <-; reflexivity
        | |- context [if ?c then _ else _] => destruct c
        | |- context [match nvs w !! ?k with _ => _ end] =>
            destruct (nvs w !! k) as [[] |]
        | |- context [match ?x with Some _ => _ | None => _ end] =>
            destruct x
        end ].
Qed.

(** ** The live state *)

Lemma eth_connected_ready w hs events :
  handle w = Some hs -> eth_events hs = Some events ->
  eth_connected w = Some (connected_bit events, w).
Proof.
  intros Hh Hev. unfold eth_connected, bind, get_handle, ret.
  rewrite Hh, Hev, connected_test, negb_involutive. reflexivity.
Qed.

Lemma eth_connected_uninit w :
  handle w = None -> eth_connected w = Some (false, w).
Proof.
  intros Hh. unfold eth_connected, bind, get_handle, ret. rewrite Hh.
  reflexivity.
Qed.

Lemma get_eth_state_disconnected env w :
  eth_connected w = Some (false, w) ->
  exists cfg w',
    get_saved_or_default_config env w = Some ((ESP_OK, cfg), w') /\
    get_eth_state env w = Some ((ESP_OK, with_is_connected false cfg), w') /\
    is_valid cfg = true /\ handle w' = handle w.
Proof.
  intros Hc.
  destruct (get_saved_or_default_config_ok env w)
    as (r & c & w' & _ & Hrun & Hvalid & Hh & _).
  eexists. exists w'. split; [exact Hrun |].
  split; [| split; [exact Hvalid | exact Hh]].
  unfold get_eth_state. unfold bind at 1. rewrite Hc. simpl.
  unfold bind. rewrite Hrun. reflexivity.
Qed.

(** With the Connected bit set, [get_eth_state] returns a snapshot with
    [is_connected] true whatever the interface answers. *)
Lemma get_eth_state_connected env w hs events :
  handle w = Some hs -> eth_events hs = Some events ->
  connected_bit events = true ->
  let netif := eth_netif hs in
  let t1 := EspNetifDhcpcGetStatus netif :: trace w in
  let t2 := EspNetifGetIpInfo netif :: t1 in
  let t3 := EspNetifGetDnsInfo netif 0 :: t2 in
  let t4 := EspNetifGetDnsInfo netif 1 :: t3 in
  exists result cfg w',
    get_eth_state env w = Some ((result, cfg), w') /\
    is_connected cfg = true /\
    (result = ESP_OK ->
     is_valid cfg = true /\
     is_static cfg = (dhcpc_status env (trace w) =? ESP_NETIF_DHCP_STOPPED) /\
     (dhcpc_status env (trace w) = ESP_NETIF_DHCP_STOPPED ->
      is_static cfg = true) /\
     (is_static cfg = true ->
      ip_info cfg = live_ip_info env t1 /\
      dns_info cfg = [live_dns_info env t2 0%nat; live_dns_info env t3 1%nat;
                      live_dns_info env t4 2%nat])).
Proof.
  intros Hh Hev Hbit netif t1 t2 t3 t4.
  unfold get_eth_state. unfold bind at 1.
  rewrite (eth_connected_ready w hs events Hh Hev), Hbit.
  destruct w as [h store t]. simpl in Hh. subst h.
  unfold bind, deref_handle, esp_netif_dhcpc_get_status,
    esp_netif_get_ip_info, ret; simpl.
  subst t1 t2 t3 t4 netif. simpl.
  destruct (dhcpc_status env t =? ESP_NETIF_DHCP_STOPPED) eqn:Ed;
    repeat
      (match goal with
       | |- context [is_ok (respond env ?tr ?c)] =>
           let E := fresh "E" in
           destruct (is_ok (respond env tr c)) eqn:E;
           [| apply is_ok_false in E]
       end;
       unfold bind, deref_handle, esp_netif_get_dns_info, ret; simpl);
    eexists; eexists; eexists;
    (split; [reflexivity |]); (split; [reflexivity |]);
    intros Hr; try contradiction;
    (split; [reflexivity |]); (split; [reflexivity |]);
    (split;
     [ intros Hd; first [reflexivity | apply Z.eqb_neq in Ed; contradiction]
     | intros Hs; first [discriminate | split; reflexivity] ]).
Qed.

(** C5. With the Connected bit clear, [get_eth_state] returns the
    saved-or-default configuration with [is_connected] false.  With the bit
    set it returns a snapshot with [is_connected] true; when it succeeds the
    snapshot is valid, a stopped DHCP client makes it static, and its
    [ip_info] and [dns_info] are the values the interface reported. *)
Theorem get_eth_state_spec env w hs events :
  handle w = Some hs -> eth_events hs = Some events ->
  (connected_bit events = false ->
   exists cfg w',
     get_saved_or_default_config env w = Some ((ESP_OK, cfg), w') /\
     get_eth_state env w = Some ((ESP_OK, with_is_connected false cfg), w') /\
     is_valid cfg = true) /\
  (connected_bit events = true ->
   let netif := eth_netif hs in
   let t1 := EspNetifDhcpcGetStatus netif :: trace w in
   let t2 := EspNetifGetIpInfo netif :: t1 in
   let t3 := EspNetifGetDnsInfo netif 0 :: t2 in
   let t4 := EspNetifGetDnsInfo netif 1 :: t3 in
   exists result cfg w',
     get_eth_state env w = Some ((result, cfg), w') /\
     is_connected cfg = true /\
     (result = ESP_OK ->
      is_valid cfg = true /\
      is_static cfg = (dhcpc_status env (trace w) =? ESP_NETIF_DHCP_STOPPED) /\
      (dhcpc_status env (trace w) = ESP_NETIF_DHCP_STOPPED ->
       is_static cfg = true) /\
      (is_static cfg = true ->
       ip_info cfg = live_ip_info env t1 /\
       dns_info cfg = [live_dns_info env t2 0%nat; live_dns_info env t3 1%nat;
                       live_dns_info env t4 2%nat]))).
Proof.
  intros Hh Hev. split.
  - intros Hbit.
    destruct (get_eth_state_disconnected env w) as (cfg & w' & H1 & H2 & H3 & _).
    { rewrite (eth_connected_ready w hs events Hh Hev), Hbit.
      reflexivity. }
    exists cfg, w'. repeat split; assumption.
  - intros Hbit. exact (get_eth_state_connected env w hs events Hh Hev Hbit).
Qed.

Lemma get_eth_state_spec_witness :
  exists result cfg w',
    get_eth_state env_static_live (world_ready BIT_ETH_CONNECTED) =
      Some ((result, cfg), w') /\
    is_connected cfg = true /\ is_valid cfg = true /\ is_static cfg = true /\
    ip_info cfg = ip_info cfg_static /\ dns_info cfg = dns_info cfg_static.
Proof.
  destruct (get_eth_state_spec env_static_live (world_ready BIT_ETH_CONNECTED)
              (handle_ready BIT_ETH_CONNECTED) BIT_ETH_CONNECTED
              eq_refl eq_refl) as [_ Hlive].
  destruct (Hlive eq_refl) as (result & cfg & w' & Hrun & Hconn & Hok).
  exists result, cfg, w'. split; [exact Hrun |]. split; [exact Hconn |].
  assert (Hres : result = ESP_OK).
  { vm_compute in Hrun. injection Hrun as <- _ _. reflexivity. }
  destruct (Hok Hres) as (Hvalid & _ & Hstopped & Hvals).
  split; [exact Hvalid |].
  assert (Hstatic : is_static cfg = true) by (apply Hstopped; reflexivity).
  split; [exact Hstatic |].
  destruct (Hvals Hstatic) as [Hip Hdns]. split; [exact Hip | exact Hdns].
Defined.

(** ** The uninitialised manager *)

Lemma set_eth_cfg_uninit_enabled env cfg w :
  handle w = None -> is_disabled cfg = false -> set_eth_cfg env cfg w = None.
Proof.
  intros Hh Hd. unfold set_eth_cfg. rewrite Hd.
  unfold bind at 1.
  destruct (is_static cfg); unfold bind at 1; unfold deref_handle at 1;
    rewrite Hh; reflexivity.
Qed.

Lemma save_config_keeps_handle env cfg w :
  exists r w', save_config env cfg w = Some (r, w') /\ handle w' = handle w.
Proof.
  destruct (handle_blind_save_config env cfg w) as (r & w' & Hrun & Hany).
  exists r, w'. split; [exact Hrun |].
  specialize (Hany (handle w)).
  assert (Hw : set_handle (handle w) w = w) by (destruct w; reflexivity).
  rewrite Hw, Hrun in Hany. injection Hany as Hany.
  rewrite Hany at 1. reflexivity.
Qed.

Lemma eth_manager_set_eth_cfg_uninit_enabled env cfg w :
  handle w = None -> is_disabled cfg = false ->
  eth_manager_set_eth_cfg env cfg w = None.
Proof.
  intros Hh Hd.
  destruct (save_config_keeps_handle env cfg w) as (r & w' & Hrun & Hh').
  unfold eth_manager_set_eth_cfg, bind. rewrite Hrun.
  apply set_eth_cfg_uninit_enabled; [congruence | exact Hd].
Qed.

(** C10. With a NULL handle, [get_eth_state] succeeds with the
    saved-or-default configuration and [is_connected] false, and
    [get_eth_cfg] succeeds (its answer is the same under any handle at
    all); [set_hostname], [start_eth], [stop_eth] and the application of a
    disabled configuration refuse with ESP_ERR_INVALID_STATE.  The
    application of an enabled configuration does not: it dereferences the
    NULL handle for [eth_netif] before it reaches the check in
    [start_eth], through [set_eth_cfg] and through
    [eth_manager_set_eth_cfg] alike. *)
Theorem uninitialized_manager_queries env w :
  handle w = None ->
  (exists cfg w',
      get_saved_or_default_config env w = Some ((ESP_OK, cfg), w') /\
      eth_manager_get_eth_state env w =
        Some ((ESP_OK, with_is_connected false cfg), w') /\
      is_valid cfg = true) /\
  (exists cfg w',
      eth_manager_get_eth_cfg env w = Some ((ESP_OK, cfg), w') /\
      is_valid cfg = true /\
      forall h, eth_manager_get_eth_cfg env (set_handle h w) =
                Some ((ESP_OK, cfg), set_handle h w')) /\
  (forall hostname,
      eth_manager_set_hostname env hostname w =
        Some (ESP_ERR_INVALID_STATE, w)) /\
  start_eth env w = Some (ESP_ERR_INVALID_STATE, w) /\
  stop_eth env w = Some (ESP_ERR_INVALID_STATE, w) /\
  (forall cfg, is_disabled cfg = true ->
               set_eth_cfg env cfg w = Some (ESP_ERR_INVALID_STATE, w)) /\
  (forall cfg, is_disabled cfg = false ->
               set_eth_cfg env cfg w = None /\
               eth_manager_set_eth_cfg env cfg w = None).
Proof.
  intros Hh.
  assert (Hstop : stop_eth env w = Some (ESP_ERR_INVALID_STATE, w)).
  { unfold stop_eth, bind, get_handle. rewrite Hh. reflexivity. }
  assert (Hdis : forall cfg, is_disabled cfg = true ->
                   set_eth_cfg env cfg w = Some (ESP_ERR_INVALID_STATE, w)).
  { intros cfg Hd. unfold set_eth_cfg. rewrite Hd, bind_ret_r. exact Hstop. }
  split; [| split; [| split; [| split; [| split; [| split]]]]].
  - destruct (get_eth_state_disconnected env w (eth_connected_uninit w Hh))
      as (cfg & w' & H1 & H2 & H3 & _).
    exists cfg, w'. repeat split; assumption.
  - destruct (handle_blind_get_saved_or_default_config env w)
      as ([r cfg] & w' & Hrun & Hany).
    destruct (get_saved_or_default_config_ok env w)
      as (r0 & c0 & w0 & _ & Hok & Hvalid & _).
    rewrite Hok in Hrun. injection Hrun as <- <- <-.
    eexists. exists w0. split; [exact Hok |]. split; [exact Hvalid |].
    exact Hany.
  - intros hostname. unfold eth_manager_set_hostname, bind, get_handle.
    rewrite Hh. reflexivity.
  - unfold start_eth, bind, get_handle. rewrite Hh. reflexivity.
  - exact Hstop.
  - exact Hdis.
  - intros cfg Hd. split.
    + apply set_eth_cfg_uninit_enabled; assumption.
    + apply eth_manager_set_eth_cfg_uninit_enabled; assumption.
Qed.

(** Before [eth_manager_init]: the state query answers with the defaults,
    the hostname is refused, and setting a DHCP configuration dereferences
    the NULL handle. *)
Lemma uninitialized_manager_queries_witness :
  exists w',
    eth_manager_get_eth_state env_all_ok (world_uninit ∅) =
      Some ((ESP_OK, set_defaults), w') /\
    eth_manager_set_hostname env_all_ok "esp32" (world_uninit ∅) =
      Some (ESP_ERR_INVALID_STATE, world_uninit ∅) /\
    is_disabled cfg_dhcp = false /\
    eth_manager_set_eth_cfg env_all_ok cfg_dhcp (world_uninit ∅) = None.
Proof.
  destruct (uninitialized_manager_queries env_all_ok (world_uninit ∅) eq_refl)
    as (_ & _ & Hhost & _ & _ & _ & Hfault).
  eexists. split; [vm_compute; reflexivity |].
  split; [apply Hhost |]. split; [reflexivity |].
  apply (Hfault cfg_dhcp eq_refl).
Defined.

(** ** Saving a configuration *)

Lemma is_ok_OK : is_ok ESP_OK = true.
Proof. reflexivity. Qed.

Lemma stored_record_fields cfg :
  stored_record cfg !! "version" = Some (NvsU32 NVS_CFG_VER) /\
  stored_record cfg !! "eth_static" =
    Some (NvsU32 (bool_to_u32 (is_static cfg))) /\
  stored_record cfg !! "eth_disable" =
    Some (NvsU32 (bool_to_u32 (is_disabled cfg))) /\
  stored_record cfg !! "eth_ip" = Some (NvsIpBlob (ip_info cfg)) /\
  stored_record cfg !! "eth_dns" = Some (NvsDnsBlob (dns_info cfg)).
Proof. unfold stored_record. repeat split; by simplify_map_eq. Qed.

(** The case analysis behind the two-state theorems: run [save_config] on
    an opened store whose erases succeed, split on the outcome of every
    other call, and read the namespace off the final world. *)
Ltac save_config_cases env cfg Herase :=
  repeat
    (rewrite ?Herase, ?is_ok_OK; simpl;
     try match goal with
         | |- context [is_ok (respond env ?tr ?c)] =>
             let E := fresh "E" in
             destruct (is_ok (respond env tr c)) eqn:E; simpl
         | |- context [if ?d cfg then _ else _] =>
             let E := fresh "Edef" in
             destruct (d cfg) eqn:E; simpl
         end);
  try (simpl in *; congruence);
  eexists; eexists; (split; [reflexivity |]); simpl;
  (split; [first [left; reflexivity | right; reflexivity] |]);
  (split; [intros ?; first [reflexivity | discriminate] |]);
  (split;
   [ intros Hr;
     first [ reflexivity
           | exfalso; apply Hr; reflexivity
           | match goal with
             | E : is_ok ?r = true, H : ?r <> ESP_OK |- _ =>
                 apply is_ok_true in E; contradiction
             end ]
   | intros Hr ?;
     first [ reflexivity
           | discriminate
           | match goal with
             | E : is_ok ?r = false, H : ?r = ESP_OK |- _ =>
                 apply is_ok_false in E; contradiction
             end ] ]).




(** The same holds of the older revision, whose record carries
    "eth_connect" in place of "eth_disable". *)
Lemma netman_save_config_two_states env cfg w :
  respond env (trace w) (NvsOpen Netman.WMNGR_NAMESPACE true) = ESP_OK ->
  (forall t, respond env t NvsEraseAll = ESP_OK) ->
  exists result w',
    Netman.save_config env cfg w = Some (result, w') /\
    (nvs w' = ∅ \/ nvs w' = Netman.stored_record cfg) /\
    (Netman.is_default cfg = true -> nvs w' = ∅) /\
    (result <> ESP_OK -> nvs w' = ∅) /\
    (result = ESP_OK -> Netman.is_default cfg = false ->
     nvs w' = Netman.stored_record cfg).
Proof.
  intros Hopen Herase. destruct w as [h store t]. simpl in Hopen.
  unfold Netman.save_config, Netman.clear_config, Netman.save_config_on_exit,
    nvs_open, nvs_close, nvs_commit, nvs_erase_all, nvs_set_u32, nvs_set_blob,
    bind, external, ret.
  simpl. rewrite Hopen, is_ok_OK. simpl.
  save_config_cases env cfg Herase.
Qed.

Ltac sub_record :=
  repeat first
    [ reflexivity
    | apply map_empty_subseteq
    | etrans; [| apply insert_subseteq; by simplify_map_eq] ].

(** Whatever the store operations answer, [save_config] returns, and the
    store ends as it was or holding fields of [cfg] only: old and new
    fields are never mixed. *)
Lemma save_config_never_mixes env cfg w :
  exists result w',
    save_config env cfg w = Some (result, w') /\
    (nvs w' = nvs w \/ nvs w' ⊆ stored_record cfg).
Proof.
  destruct w as [h store t].
  unfold save_config, clear_config, save_config_on_exit, nvs_open, nvs_close,
    nvs_commit, nvs_erase_all, nvs_set_u32, nvs_set_blob, bind, external, ret.
  simpl.
  repeat
    (rewrite ?is_ok_OK; simpl;
     try match goal with
         | |- context [is_ok (respond env ?tr ?c)] =>
             let E := fresh "E" in
             destruct (is_ok (respond env tr c)) eqn:E; simpl
         | |- context [if is_default cfg then _ else _] =>
             let E := fresh "Edef" in
             destruct (is_default cfg) eqn:E; simpl
         end);
    try (simpl in *; congruence);
    eexists; eexists; (split; [reflexivity |]); simpl;
    first [left; reflexivity | right; unfold stored_record; sub_record].
Qed.

(** ** The effective configuration in the older revision *)

Lemma handle_blind_netman_get_saved_config env :
  handle_blind (Netman.get_saved_config env).
Proof.
  unfold Netman.get_saved_config, Netman.get_saved_config_on_exit.
  handle_blind_auto.
Qed.

(** [get_effective_config] hands back what it was given: the status is
    that of [get_saved_config], the caller's record is not written. *)
Lemma netman_get_effective_config_passes_through env cfg w :
  exists r c w',
    Netman.get_saved_config env w = Some ((r, c), w') /\
    Netman.get_effective_config env cfg w = Some ((r, cfg), w').
Proof.
  destruct (handle_blind_netman_get_saved_config env w)
    as ([r c] & w' & Hrun & _).
  exists r, c, w'. split; [exact Hrun |].
  unfold Netman.get_effective_config, bind. rewrite Hrun. reflexivity.
Qed.

(** C3. On an empty store the handle-based revision answers ESP_OK with
    the compiled-in defaults, valid; the older revision's
    [get_effective_config] answers the load error and leaves the caller's
    record as it was (here zeroed, so neither valid nor default). *)
Theorem get_effective_config_on_empty_store :
  (exists w',
      eth_manager_get_eth_cfg env_all_ok (world_uninit ∅) =
        Some ((ESP_OK, set_defaults), w')) /\
  (exists w',
      Netman.netman_get_eth_cfg env_all_ok Netman.cfg_zero (world_uninit ∅) =
        Some ((ESP_ERR_NVS_NOT_FOUND, Netman.cfg_zero), w')) /\
  ESP_ERR_NVS_NOT_FOUND <> ESP_OK /\
  Netman.is_valid Netman.cfg_zero = false /\
  Netman.is_default Netman.cfg_zero = false.
Proof.
  split; [eexists; vm_compute; reflexivity |].
  split; [eexists; vm_compute; reflexivity |].
  repeat split. discriminate.
Qed.

(** ** Setting a configuration *)

Lemma nvs_blind_ret {A} (a : A) : nvs_blind (ret a).
Proof. intros w s. reflexivity. Qed.

Lemma nvs_blind_bind {A B} (m : M A) (k : A -> M B) :
  nvs_blind m -> (forall a, nvs_blind (k a)) -> nvs_blind (bind m k).
Proof.
  intros Hm Hk w s. unfold bind. rewrite (Hm w s).
  destruct (m w) as [[a w'] |]; [apply Hk | reflexivity].
Qed.

Lemma nvs_blind_external env c : nvs_blind (external env c).
Proof. intros w s. reflexivity. Qed.

Lemma nvs_blind_deref_handle : nvs_blind deref_handle.
Proof.
  intros w s. unfold deref_handle. simpl.
  destruct (handle w); reflexivity.
Qed.

Lemma nvs_blind_get_handle : nvs_blind get_handle.
Proof. intros w s. reflexivity. Qed.

Ltac nvs_blind_step :=
  first
    [ apply nvs_blind_ret
    | apply nvs_blind_external
    | apply nvs_blind_deref_handle
    | apply nvs_blind_get_handle
    | apply nvs_blind_bind; [| intros ?]
    | match goal with
      | |- nvs_blind (if ?c then _ else _) => destruct c
      | |- nvs_blind (match ?x with _ => _ end) => destruct x
      end ].

Lemma nvs_blind_start_eth env : nvs_blind (start_eth env).
Proof. unfold start_eth. repeat nvs_blind_step. Qed.

Lemma nvs_blind_stop_eth env : nvs_blind (stop_eth env).
Proof. unfold stop_eth. repeat nvs_blind_step. Qed.

Lemma nvs_blind_set_dns_loop env cfg idxs result :
  nvs_blind (set_dns_loop env cfg idxs result).
Proof.
  revert result. induction idxs as [| idx rest IH]; intros result;
    cbn [set_dns_loop].
  - apply nvs_blind_ret.
  - destruct (ip_addr_isany_val (dns_at cfg idx)); [apply IH |].
    apply nvs_blind_bind; [apply nvs_blind_deref_handle | intros hs].
    apply nvs_blind_bind; [apply nvs_blind_external | intros r]. apply IH.
Qed.

(** Applying a configuration never looks at the store. *)
Lemma nvs_blind_set_eth_cfg env cfg : nvs_blind (set_eth_cfg env cfg).
Proof.
  unfold set_eth_cfg.
  repeat first
    [ apply nvs_blind_start_eth | apply nvs_blind_stop_eth
    | apply nvs_blind_set_dns_loop | nvs_blind_step ].
Qed.

(** C4. [eth_manager_set_eth_cfg] runs [save_config], drops its status and
    returns what [set_eth_cfg] returns on the world the save left: the save
    always returns, it leaves the handle alone, and the application does
    not look at the store.  So a configuration can take effect without
    having been saved: when the store cannot be opened, a static
    configuration is still pushed to the interface and ESP_OK is returned. *)
Theorem eth_manager_set_eth_cfg_applies_regardless :
  (forall env new_cfg w,
      exists saved w1,
        save_config env new_cfg w = Some (saved, w1) /\
        handle w1 = handle w /\
        eth_manager_set_eth_cfg env new_cfg w = set_eth_cfg env new_cfg w1 /\
        nvs_blind (set_eth_cfg env new_cfg)) /\
  (exists w1 w',
      save_config env_open_fails cfg_static (world_ready BIT_ETH_START) =
        Some (ESP_FAIL, w1) /\
      eth_manager_set_eth_cfg env_open_fails cfg_static
        (world_ready BIT_ETH_START) = Some (ESP_OK, w') /\
      nvs w' = ∅ /\
      trace w' =
        [ EspNetifSetDnsInfo (Some 1) 0 (dns_at cfg_static 0);
          EspNetifSetIpInfo (Some 1) (ip_info cfg_static);
          EspNetifDhcpcStop (Some 1);
          NvsOpen WMNGR_NAMESPACE true ]).
Proof.
  split.
  - intros env new_cfg w.
    destruct (handle_blind_save_config env new_cfg w)
      as (saved & w1 & Hrun & _).
    exists saved, w1. split; [exact Hrun |]. split.
    { eapply handle_blind_handle;
        [apply handle_blind_save_config | exact Hrun]. }
    split; [| apply nvs_blind_set_eth_cfg].
    unfold eth_manager_set_eth_cfg, bind. rewrite Hrun. reflexivity.
  - eexists. eexists.
    split; [vm_compute; reflexivity |].
    split; [vm_compute; reflexivity |].
    split; reflexivity.
Qed.

(** ** Tracking the link through events *)

Lemma testbit_set_start events n :
  0 <= n ->
  Z.testbit (Z.lor events BIT_ETH_START) n = (n =? 1) || Z.testbit events n.
Proof. intros Hn. apply (testbit_set events 1 n); lia. Qed.

Lemma testbit_clear_start events n :
  0 <= n ->
  Z.testbit (Z.ldiff events BIT_ETH_START) n =
    negb (n =? 1) && Z.testbit events n.
Proof. intros Hn. apply (testbit_clear events 1 n); lia. Qed.

Lemma testbit_set_connected events n :
  0 <= n ->
  Z.testbit (Z.lor events BIT_ETH_CONNECTED) n =
    (n =? 2) || Z.testbit events n.
Proof. intros Hn. apply (testbit_set events 2 n); lia. Qed.

Lemma testbit_clear_connected events n :
  0 <= n ->
  Z.testbit (Z.ldiff events BIT_ETH_CONNECTED) n =
    negb (n =? 2) && Z.testbit events n.
Proof. intros Hn. apply (testbit_clear events 2 n); lia. Qed.

Lemma events_after_tracks event_id events :
  (started_bit (events_after event_id events),
   connected_bit (events_after event_id events)) =
    tracker_step (started_bit events, connected_bit events) event_id /\
  forall n, 0 <= n -> n <> 1 -> n <> 2 ->
            Z.testbit (events_after event_id events) n = Z.testbit events n.
Proof.
  unfold events_after, tracker_step, started_bit, connected_bit.
  destruct (Z.eqb_spec event_id ETHERNET_EVENT_START) as [H1 | H1],
    (Z.eqb_spec event_id ETHERNET_EVENT_STOP) as [H2 | H2],
    (Z.eqb_spec event_id ETHERNET_EVENT_CONNECTED) as [H3 | H3],
    (Z.eqb_spec event_id ETHERNET_EVENT_DISCONNECTED) as [H4 | H4];
    try (exfalso;
         unfold ETHERNET_EVENT_START, ETHERNET_EVENT_STOP,
           ETHERNET_EVENT_CONNECTED, ETHERNET_EVENT_DISCONNECTED in *; lia);
    cbn [fst snd];
    (split;
     [ rewrite ?testbit_set_start, ?testbit_clear_start,
         ?testbit_set_connected, ?testbit_clear_connected by lia;
       cbv [Z.eqb Pos.eqb orb andb negb]; reflexivity
     | intros n Hn Hn1 Hn2;
       rewrite ?testbit_set_start, ?testbit_clear_start,
         ?testbit_set_connected, ?testbit_clear_connected by lia;
       destruct (Z.eqb_spec n 1), (Z.eqb_spec n 2);
       try contradiction; reflexivity ]).
Qed.

(** Events of another base than ETH_EVENT are ignored altogether. *)
Lemma eth_event_handler_other_base env netif event_base event_id w :
  event_base <> ETH_EVENT ->
  eth_event_handler env netif event_base event_id w = Some (tt, w).
Proof.
  intros Hne. unfold eth_event_handler.
  destruct (String.eqb_spec ETH_EVENT event_base) as [Heq | _];
    [congruence | reflexivity].
Qed.

Lemma deliver_events_ready env netif event_ids :
  forall w hs events,
    handle w = Some hs -> eth_events hs = Some events ->
    exists w' events',
      deliver_events env netif event_ids w = Some (tt, w') /\
      handle w' = Some (with_eth_events (Some events') hs) /\
      nvs w' = nvs w /\
      (started_bit events', connected_bit events') =
        tracker_run event_ids (started_bit events, connected_bit events) /\
      forall n, 0 <= n -> n <> 1 -> n <> 2 ->
                Z.testbit events' n = Z.testbit events n.
Proof.
  induction event_ids as [| event_id rest IH]; intros w hs events Hh Hev.
  - exists w, events. split; [reflexivity |].
    rewrite (with_eth_events_same hs events Hev).
    repeat split; auto.
  - destruct (eth_event_handler_ready env netif event_id w hs events Hh Hev)
      as (w1 & Hrun1 & Hh1 & Hnvs1).
    destruct (events_after_tracks event_id events) as [Hstep Hrest].
    destruct (IH w1 _ (events_after event_id events) Hh1 eq_refl)
      as (w' & events' & Hrun & Hh' & Hnvs & Hbits & Hother).
    exists w', events'. split.
    { cbn [deliver_events]. unfold bind. rewrite Hrun1. exact Hrun. }
    split; [exact Hh' |]. split; [congruence |]. split.
    { rewrite Hbits, Hstep. reflexivity. }
    intros n Hn Hn1 Hn2. rewrite Hother, Hrest by assumption. reflexivity.
Qed.

Lemma tracker_run_last event_ids event_id bits :
  tracker_run (event_ids ++ [event_id]) bits =
    tracker_step (tracker_run event_ids bits) event_id.
Proof. unfold tracker_run. rewrite fold_left_app. reflexivity. Qed.

Lemma get_eth_state_is_connected env w hs events :
  handle w = Some hs -> eth_events hs = Some events ->
  exists result cfg w',
    get_eth_state env w = Some ((result, cfg), w') /\
    is_connected cfg = connected_bit events.
Proof.
  intros Hh Hev. destruct (connected_bit events) eqn:Hbit.
  - destruct (get_eth_state_connected env w hs events Hh Hev Hbit)
      as (result & cfg & w' & Hrun & Hconn & _).
    exists result, cfg, w'. split; assumption.
  - destruct (get_eth_state_disconnected env w)
      as (cfg & w' & _ & Hrun & _).
    { rewrite (eth_connected_ready w hs events Hh Hev), Hbit. reflexivity. }
    eexists. eexists. exists w'. split; [exact Hrun | reflexivity].
Qed.

(** On an initialised manager, after any sequence of Ethernet events
    the Started and Connected bits are what the tracker of the
    specification says (Started sets the one, Stopped clears it, LinkUp
    sets the other, LinkDown clears it, any other event changes neither),
    every other bit is as before, and [get_eth_state] reports
    [is_connected] as the Connected bit stands: true right after a LinkUp,
    false right after a LinkDown. *)
Theorem event_bits_follow_events env netif event_ids w hs events :
  handle w = Some hs -> eth_events hs = Some events ->
  exists w' events',
    deliver_events env netif event_ids w = Some (tt, w') /\
    handle w' = Some (with_eth_events (Some events') hs) /\
    (started_bit events', connected_bit events') =
      tracker_run event_ids (started_bit events, connected_bit events) /\
    (forall n, 0 <= n -> n <> 1 -> n <> 2 ->
               Z.testbit events' n = Z.testbit events n) /\
    exists result cfg w'',
      get_eth_state env w' = Some ((result, cfg), w'') /\
      is_connected cfg = connected_bit events' /\
      (forall earlier,
          event_ids = earlier ++ [ETHERNET_EVENT_CONNECTED] ->
          is_connected cfg = true) /\
      (forall earlier,
          event_ids = earlier ++ [ETHERNET_EVENT_DISCONNECTED] ->
          is_connected cfg = false).
Proof.
  intros Hh Hev.
  destruct (deliver_events_ready env netif event_ids w hs events Hh Hev)
    as (w' & events' & Hrun & Hh' & _ & Hbits & Hother).
  exists w', events'. split; [exact Hrun |]. split; [exact Hh' |].
  split; [exact Hbits |]. split; [exact Hother |].
  destruct (get_eth_state_is_connected env w' _ events' Hh' eq_refl)
    as (result & cfg & w'' & Hstate & Hconn).
  exists result, cfg, w''. split; [exact Hstate |]. split; [exact Hconn |].
  split; intros earlier Hids; rewrite Hconn;
    rewrite Hids, tracker_run_last in Hbits;
    unfold tracker_step in Hbits; simpl in Hbits;
    injection Hbits as _ Hc; exact Hc.
Qed.

Lemma event_bits_follow_events_witness :
  exists w' events',
    deliver_events env_all_ok (Some 1)
      [ETHERNET_EVENT_START; ETHERNET_EVENT_CONNECTED;
       ETHERNET_EVENT_DISCONNECTED] (world_ready 0) = Some (tt, w') /\
    handle w' = Some (handle_ready events') /\
    started_bit events' = true /\ connected_bit events' = false /\
    exists result cfg w'',
      get_eth_state env_all_ok w' = Some ((result, cfg), w'') /\
      is_connected cfg = false.
Proof.
  destruct (event_bits_follow_events env_all_ok (Some 1)
              [ETHERNET_EVENT_START; ETHERNET_EVENT_CONNECTED;
               ETHERNET_EVENT_DISCONNECTED]
              (world_ready 0) (handle_ready 0) 0 eq_refl eq_refl)
    as (w' & events' & Hrun & Hh & Hbits & _ & result & cfg & w'' & Hstate
        & _ & _ & Hdown).
  exists w', events'. split; [exact Hrun |]. split; [exact Hh |].
  vm_compute in Hbits. injection Hbits as Hs Hc.
  split; [exact Hs |]. split; [exact Hc |].
  exists result, cfg, w''. split; [exact Hstate |].
  apply (Hdown [ETHERNET_EVENT_START; ETHERNET_EVENT_CONNECTED]).
  reflexivity.
Defined.

(** ** An event after a failed initialisation *)

(** C9. An event delivered after a failed initialisation.  The driver
    refuses to start, so [eth_manager_init] reports the error and rolls
    back by deleting the event group and freeing the handle: the handle is
    NULL again, while the handler registered before the configuration was
    loaded stays registered (most recent call first in the trace).  Each of the four Ethernet events then
    dereferences the NULL handle in the handler, so after a LinkUp no bit
    has been set, and [get_eth_state] still reports the link as down. *)
Theorem event_after_failed_init :
  exists w',
    eth_manager_init env_eth_start_fails (Some 2) (world_uninit ∅) =
      Some (ESP_FAIL, w') /\
    handle w' = None /\
    trace w' =
      [Free; VEventGroupDelete] ++
      [EspEthStart (Some 2); EspNetifDhcpcStart (Some 1)] ++
      [NvsClose; NvsGetU32 "version"; NvsOpen WMNGR_NAMESPACE false] ++
      [EspEventHandlerInstanceRegister (Some 1);
       EspNetifAttach (Some 1) (Some 2); EspNetifNew;
       XEventGroupCreate; Calloc] /\
    (forall event_id,
        In event_id [ETHERNET_EVENT_START; ETHERNET_EVENT_STOP;
                     ETHERNET_EVENT_CONNECTED; ETHERNET_EVENT_DISCONNECTED] ->
        eth_event_handler env_eth_start_fails (Some 1) ETH_EVENT event_id w' =
          None) /\
    deliver_events env_eth_start_fails (Some 1)
      [ETHERNET_EVENT_START; ETHERNET_EVENT_CONNECTED] w' = None /\
    exists cfg w'',
      eth_manager_get_eth_state env_eth_start_fails w' =
        Some ((ESP_OK, cfg), w'') /\
      is_connected cfg = false.
Proof.
  eexists. split; [vm_compute; reflexivity |].
  split; [reflexivity |]. split; [vm_compute; reflexivity |].
  split; [| split].
  - intros event_id Hin. simpl in Hin.
    destruct Hin as [<- | [<- | [<- | [<- | []]]]]; vm_compute; reflexivity.
  - vm_compute. reflexivity.
  - eexists. eexists. split; [vm_compute; reflexivity | reflexivity].
Qed.

(** ** Initialisation *)

Lemma handle_stable_ret {A} hs (a : A) : handle_stable hs (ret a).
Proof. intros w Hh. exists a, w. split; [reflexivity | exact Hh]. Qed.

Lemma handle_stable_bind {A B} hs (m : M A) (k : A -> M B) :
  handle_stable hs m -> (forall a, handle_stable hs (k a)) ->
  handle_stable hs (bind m k).
Proof.
  intros Hm Hk w Hh. destruct (Hm w Hh) as (a & w1 & H1 & Hh1).
  destruct (Hk a w1 Hh1) as (b & w2 & H2 & Hh2).
  exists b, w2. split; [| exact Hh2]. unfold bind. rewrite H1. exact H2.
Qed.

Lemma handle_stable_external env hs c : handle_stable hs (external env c).
Proof. intros w Hh. eexists. eexists. split; [reflexivity | exact Hh]. Qed.

Lemma handle_stable_deref_handle hs : handle_stable hs deref_handle.
Proof.
  intros w Hh. exists hs, w. unfold deref_handle. rewrite Hh.
  split; reflexivity.
Qed.

Lemma handle_stable_get_handle hs : handle_stable hs get_handle.
Proof. intros w Hh. eexists. exists w. split; [reflexivity | exact Hh]. Qed.

Ltac handle_stable_step :=
  first
    [ apply handle_stable_ret
    | apply handle_stable_external
    | apply handle_stable_deref_handle
    | apply handle_stable_get_handle
    | apply handle_stable_bind; [| intros ?]
    | match goal with
      | |- handle_stable _ (if ?c then _ else _) => destruct c
      | |- handle_stable _ (match ?x with _ => _ end) => destruct x
      end ].

Lemma handle_stable_set_dns_loop env hs cfg idxs result :
  handle_stable hs (set_dns_loop env cfg idxs result).
Proof.
  revert result. induction idxs as [| idx rest IH]; intros result;
    cbn [set_dns_loop].
  - apply handle_stable_ret.
  - destruct (ip_addr_isany_val (dns_at cfg idx)); [apply IH |].
    apply handle_stable_bind; [apply handle_stable_deref_handle | intros h].
    apply handle_stable_bind; [apply handle_stable_external | intros r].
    apply IH.
Qed.

(** With a handle in place, applying a configuration returns and leaves
    the handle as it is. *)
Lemma handle_stable_set_eth_cfg env hs cfg :
  handle_stable hs (set_eth_cfg env cfg).
Proof.
  unfold set_eth_cfg, start_eth, stop_eth.
  repeat first [ apply handle_stable_set_dns_loop | handle_stable_step ].
Qed.

Lemma eth_manager_init_on_exit_success env w :
  eth_manager_init_on_exit env ESP_OK w = Some (ESP_OK, w).
Proof. reflexivity. Qed.

(** The rollback: the event group, if there is one, is deleted, the handle
    is freed and the singleton pointer reset to NULL. *)
Lemma eth_manager_init_on_exit_error env result w hs :
  handle w = Some hs -> result <> ESP_OK ->
  exists w',
    eth_manager_init_on_exit env result w = Some (result, w') /\
    handle w' = None /\ nvs w' = nvs w /\
    trace w' =
      Free :: match eth_events hs with
              | Some _ => VEventGroupDelete :: trace w
              | None => trace w
              end.
Proof.
  intros Hh Hr. apply is_ok_false in Hr.
  destruct w as [h store t]. simpl in Hh. subst h.
  unfold eth_manager_init_on_exit, bind, get_handle, put_handle, external,
    ret.
  rewrite Hr. simpl.
  destruct (eth_events hs); eexists; repeat split; reflexivity.
Qed.

Lemma eth_manager_init_on_exit_null env result w :
  handle w = None -> eth_manager_init_on_exit env result w = Some (result, w).
Proof.
  intros Hh. destruct w as [h store t]. simpl in Hh. subst h.
  unfold eth_manager_init_on_exit, bind, get_handle, ret.
  destruct (negb (is_ok result)); reflexivity.
Qed.

Arguments get_saved_or_default_config : simpl never.
Arguments set_eth_cfg : simpl never.
Arguments eth_manager_init_on_exit : simpl never.

(** What [eth_manager_init] leaves behind on an uninitialised manager: it
    always returns; an error comes with the handle rolled back to NULL; a
    success comes with a handle whose interface reference is whatever
    [esp_netif_new] returned. *)
Lemma eth_manager_init_outcome env eth w :
  handle w = None ->
  exists result w',
    eth_manager_init env eth w = Some (result, w') /\
    (result <> ESP_OK -> handle w' = None) /\
    (result = ESP_OK ->
     exists hs,
       handle w' = Some hs /\ eth_handle hs = eth /\ eth_events hs = Some 0 /\
       eth_netif hs = netif_new env (XEventGroupCreate :: Calloc :: trace w)).
Proof.
  intros Hh. destruct w as [h store t]. simpl in Hh. subst h.
  unfold eth_manager_init, bind, get_handle, calloc_handle, put_handle,
    xEventGroupCreate, esp_netif_new, external. simpl.
  assert (Hroll : forall result w1 hs1,
             handle w1 = Some hs1 -> result <> ESP_OK ->
             exists result' w',
               eth_manager_init_on_exit env result w1 = Some (result', w') /\
               (result' <> ESP_OK -> handle w' = None) /\
               (result' = ESP_OK ->
                exists hs,
                  handle w' = Some hs /\ eth_handle hs = eth /\
                  eth_events hs = Some 0 /\
                  eth_netif hs =
                    netif_new env (XEventGroupCreate :: Calloc :: t))).
  { intros result w1 hs1 Hh1 Hr.
    destruct (eth_manager_init_on_exit_error env result w1 hs1 Hh1 Hr)
      as (w' & Hexit & Hnull & _).
    exists result, w'. split; [exact Hexit |].
    split; [intros _; exact Hnull | intros Hok; contradiction]. }
  destruct (calloc_ok env t); simpl.
  2:{ rewrite eth_manager_init_on_exit_null by reflexivity.
      eexists. eexists. split; [reflexivity |].
      split; [reflexivity | discriminate]. }
  destruct (event_group_create_ok env (Calloc :: t)); simpl.
  2:{ eapply Hroll; [reflexivity | discriminate]. }
  destruct (netif_new env (XEventGroupCreate :: Calloc :: t))
    as [netif |] eqn:Hnew; simpl.
  2:{ rewrite eth_manager_init_on_exit_success.
      eexists. eexists. split; [reflexivity |].
      split; [intros Hr; contradiction |]. intros _.
      eexists. repeat split. }
  destruct (is_ok (respond env _ (EspNetifAttach _ _))) eqn:E1; simpl.
  2:{ eapply Hroll; [reflexivity | apply is_ok_false; exact E1]. }
  destruct (is_ok (respond env _ (EspEventHandlerInstanceRegister _)))
    eqn:E2; simpl.
  2:{ eapply Hroll; [reflexivity | apply is_ok_false; exact E2]. }
  match goal with
  | |- context [get_saved_or_default_config env ?w0] =>
      destruct (get_saved_or_default_config_ok env w0)
        as (r & c & w1 & _ & Hcfg & _ & Hh1 & _)
  end.
  rewrite Hcfg. rewrite is_ok_OK. simpl. simpl in Hh1.
  match goal with
  | |- context [set_eth_cfg env ?cfg w1] =>
      destruct (handle_stable_set_eth_cfg env _ cfg w1 Hh1)
        as (result & w2 & Hrun & Hh2)
  end.
  rewrite Hrun. destruct (is_ok result) eqn:E3.
  - apply is_ok_true in E3. subst result.
    rewrite eth_manager_init_on_exit_success.
    eexists. eexists. split; [reflexivity |].
    split; [intros Hr; contradiction |]. intros _.
    eexists. split; [exact Hh2 |]. repeat split.
  - eapply Hroll; [exact Hh2 | apply is_ok_false; exact E3].
Qed.

(** Once the handle is gone, an event delivered to the handler that
    [eth_manager_init] registered dereferences NULL. *)
Lemma eth_event_handler_uninit env netif w :
  handle w = None ->
  eth_event_handler env netif ETH_EVENT ETHERNET_EVENT_START w = None.
Proof.
  intros Hh. unfold eth_event_handler. rewrite String.eqb_refl. simpl.
  unfold xEventGroupSetBits, bind, deref_handle. rewrite Hh. reflexivity.
Qed.

(** C1. When [esp_netif_new] returns NULL, [eth_manager_init] leaves
    through [on_exit] with [result] still ESP_OK: it reports success,
    rolls nothing back and leaves a handle whose interface reference is
    NULL.  From then on a second [eth_manager_init] is refused as "already
    initialised" and [eth_manager_set_hostname] as "not initialised".  The
    next step, attaching the driver, does roll back when it fails. *)
Theorem eth_manager_init_netif_new_null :
  exists w',
    eth_manager_init env_netif_new_fails (Some 2) (world_uninit ∅) =
      Some (ESP_OK, w') /\
    handle w' =
      Some {| ref_cnt := 1; eth_netif := None; eth_handle := Some 2;
              eth_events := Some 0 |} /\
    trace w' = [EspNetifNew; XEventGroupCreate; Calloc] /\
    eth_manager_init env_netif_new_fails (Some 2) w' =
      Some (ESP_ERR_INVALID_STATE, w') /\
    eth_manager_set_hostname env_netif_new_fails "esp32" w' =
      Some (ESP_ERR_INVALID_STATE, w') /\
    exists w'',
      eth_manager_init env_attach_fails (Some 2) (world_uninit ∅) =
        Some (ESP_FAIL, w'') /\
      handle w'' = None /\
      trace w'' =
        [Free; VEventGroupDelete; EspNetifAttach (Some 1) (Some 2);
         EspNetifNew; XEventGroupCreate; Calloc].
Proof.
  eexists. split; [vm_compute; reflexivity |].
  split; [reflexivity |]. split; [reflexivity |].
  split; [vm_compute; reflexivity |]. split; [vm_compute; reflexivity |].
  eexists. split; [vm_compute; reflexivity |].
  split; reflexivity.
Qed.

(** * Further properties *)

(** ** Loading a configuration *)

(** The case analysis of a load: split on every status the store reports
    and on every entry it holds. *)
Ltac load_cases env store :=
  repeat match goal with
         | |- context [is_ok (respond env ?t ?c)] =>
             let E := fresh "E" in
             destruct (is_ok (respond env t c)) eqn:E; simpl
         | |- context [store !! ?k] =>
             let E := fresh "Ek" in
             destruct (store !! k) as [[] |] eqn:E; simpl
         | |- context [?v >? NVS_CFG_VER] =>
             destruct (Z.gtb_spec v NVS_CFG_VER); simpl
         end.

Lemma get_saved_config_ok_inv env w cfg w' :
  get_saved_config env w = Some ((ESP_OK, cfg), w') ->
  complete_record (nvs w) "eth_disable" (is_static cfg) (is_disabled cfg)
    (ip_info cfg) (dns_info cfg) /\
  is_default cfg = false /\ is_valid cfg = false /\ is_connected cfg = false /\
  nvs w' = nvs w /\ handle w' = handle w.
Proof.
  destruct w as [h store t].
  unfold get_saved_config, get_saved_config_on_exit, nvs_open, nvs_close,
    nvs_get_u32, nvs_get_blob, bind, external, ret. simpl.
  load_cases env store;
    intros Hrun; inversion Hrun; subst; clear Hrun;
    try discriminate;
    try (match goal with
         | E : is_ok ?r = false, H : ?r = ESP_OK |- _ =>
             apply is_ok_false in E; contradiction
         end).
  split; [| repeat split].
  unfold complete_record. simpl.
  eexists. eexists. eexists. repeat split; eassumption.
Qed.

Lemma get_saved_config_reads env w static flag info dns :
  nvs_reliable env ->
  complete_record (nvs w) "eth_disable" static flag info dns ->
  exists w',
    get_saved_config env w =
      Some ((ESP_OK,
             {| is_default := false; is_valid := false; is_connected := false;
                is_disabled := flag; is_static := static;
                ip_info := info; dns_info := dns |}), w') /\
    nvs w' = nvs w /\ handle w' = handle w.
Proof.
  intros Hrel (ver & s & d & Hver & Hle & Hs & -> & Hd & -> & Hip & Hdns).
  destruct w as [h store t]. simpl in *.
  unfold get_saved_config, get_saved_config_on_exit, nvs_open, nvs_close,
    nvs_get_u32, nvs_get_blob, bind, external, ret. simpl.
  repeat (first [ rewrite Hrel by reflexivity | rewrite is_ok_OK
                | rewrite Hver | rewrite Hs | rewrite Hd | rewrite Hip
                | rewrite Hdns ]; simpl).
  destruct (Z.gtb_spec ver NVS_CFG_VER) as [Hgt | _]; [lia |]. simpl.
  repeat (first [ rewrite Hrel by reflexivity | rewrite is_ok_OK
                | rewrite Hver | rewrite Hs | rewrite Hd | rewrite Hip
                | rewrite Hdns ]; simpl).
  eexists. repeat split.
Qed.

Lemma u32_bool_roundtrip b : u32_to_bool (bool_to_u32 b) = b.
Proof. destruct b; reflexivity. Qed.

Lemma stored_record_complete cfg :
  complete_record (stored_record cfg) "eth_disable" (is_static cfg)
    (is_disabled cfg) (ip_info cfg) (dns_info cfg).
Proof.
  destruct (stored_record_fields cfg) as (Hv & Hs & Hd & Hip & Hdns).
  exists NVS_CFG_VER, (bool_to_u32 (is_static cfg)),
    (bool_to_u32 (is_disabled cfg)).
  rewrite !u32_bool_roundtrip. repeat split; try assumption. reflexivity.
Qed.

(** X1. A load that succeeds read every field from the store: the
    namespace holds a complete record of a supported version, the result
    carries exactly its two flags and two address blocks (the bookkeeping
    flags are cleared), and the load changed neither the store nor the
    handle. *)
Theorem load_success_reflects_store env w cfg w' :
  get_saved_config env w = Some ((ESP_OK, cfg), w') ->
  complete_record (nvs w) "eth_disable" (is_static cfg) (is_disabled cfg)
    (ip_info cfg) (dns_info cfg) /\
  cfg = persisted cfg /\ nvs w' = nvs w /\ handle w' = handle w.
Proof.
  intros Hrun.
  destruct (get_saved_config_ok_inv env w cfg w' Hrun)
    as (Hrec & Hdef & Hval & Hconn & Hnvs & Hh).
  split; [exact Hrec |]. split; [| split; assumption].
  destruct cfg; simpl in *; subst; reflexivity.
Qed.

Lemma load_success_reflects_store_witness :
  complete_record (stored_record cfg_static) "eth_disable" true false
    (ip_info cfg_static) (dns_info cfg_static) /\
  persisted cfg_static = persisted (persisted cfg_static).
Proof.
  destruct (load_success_reflects_store env_all_ok
              (world_uninit (stored_record cfg_static)) (persisted cfg_static)
              (log NvsClose
                 (log (NvsGetBlob "eth_dns")
                    (log (NvsGetBlob "eth_ip")
                       (log (NvsGetU32 "eth_disable")
                          (log (NvsGetU32 "eth_static")
                             (log (NvsGetU32 "version")
                                (log (NvsOpen WMNGR_NAMESPACE false)
                                   (world_uninit
                                      (stored_record cfg_static)))))))))
              ltac:(vm_compute; reflexivity))
    as (Hrec & Heq & _).
  split; [exact Hrec | exact Heq].
Defined.

(** With a store that reports no error, saving any configuration succeeds
    and leaves its record (nothing, for the factory default). *)
Lemma save_config_reliable env cfg w :
  nvs_reliable env ->
  exists w',
    save_config env cfg w = Some (ESP_OK, w') /\
    nvs w' = (if is_default cfg then ∅ else stored_record cfg) /\
    handle w' = handle w.
Proof.
  intros Hrel. destruct w as [h store t].
  unfold save_config, clear_config, save_config_on_exit, nvs_open, nvs_close,
    nvs_commit, nvs_erase_all, nvs_set_u32, nvs_set_blob, bind, external, ret.
  simpl.
  repeat (first [rewrite Hrel by reflexivity | rewrite is_ok_OK]; simpl).
  destruct (is_default cfg); simpl;
    repeat (first [rewrite Hrel by reflexivity | rewrite is_ok_OK]; simpl);
    eexists; repeat split.
Qed.

(** X2. Save then load is the identity on what is persisted: with a store
    that reports no error, a non-default configuration is saved with
    ESP_OK, and the next load returns its two flags and two address blocks;
    the effective configuration is that record, marked valid. *)
Theorem save_then_load env cfg w :
  nvs_reliable env -> is_default cfg = false ->
  exists w1 w2,
    save_config env cfg w = Some (ESP_OK, w1) /\
    nvs w1 = stored_record cfg /\
    get_saved_config env w1 = Some ((ESP_OK, persisted cfg), w2) /\
    get_saved_or_default_config env w1 =
      Some ((ESP_OK, with_is_valid true (persisted cfg)), w2) /\
    nvs w2 = stored_record cfg.
Proof.
  intros Hrel Hdef.
  destruct (save_config_reliable env cfg w Hrel) as (w1 & Hsave & Hnvs & _).
  rewrite Hdef in Hnvs.
  destruct (get_saved_config_reads env w1 (is_static cfg) (is_disabled cfg)
              (ip_info cfg) (dns_info cfg) Hrel) as (w2 & Hload & Hnvs2 & _).
  { rewrite Hnvs. apply stored_record_complete. }
  exists w1, w2. split; [exact Hsave |]. split; [exact Hnvs |].
  split; [exact Hload |]. split; [| congruence].
  unfold get_saved_or_default_config, bind. rewrite Hload.
  rewrite is_ok_OK. reflexivity.
Qed.

Lemma env_all_ok_reliable : nvs_reliable env_all_ok.
Proof. intros t c _. reflexivity. Qed.

Lemma save_then_load_witness :
  exists w1 w2,
    save_config env_all_ok cfg_static (world_uninit ∅) = Some (ESP_OK, w1) /\
    get_saved_config env_all_ok w1 = Some ((ESP_OK, persisted cfg_static), w2).
Proof.
  destruct (save_then_load env_all_ok cfg_static (world_uninit ∅)
              env_all_ok_reliable eq_refl)
    as (w1 & w2 & Hsave & _ & Hload & _).
  exists w1, w2. split; assumption.
Defined.

(** X3. A record with a key missing is no record: whatever the store
    operations answer, if any of the five keys is absent the load reports
    an error (nothing is loaded in part), and the effective configuration
    is the compiled-in defaults.  The store is left as it is. *)
Theorem missing_key_gives_defaults env w key :
  In key ["version"; "eth_static"; "eth_disable"; "eth_ip"; "eth_dns"] ->
  nvs w !! key = None ->
  exists r cfg w',
    get_saved_config env w = Some ((r, cfg), w') /\ r <> ESP_OK /\
    get_saved_or_default_config env w = Some ((ESP_OK, set_defaults), w') /\
    nvs w' = nvs w /\ handle w' = handle w.
Proof.
  intros Hin Hnone.
  destruct (get_saved_or_default_config_ok env w)
    as (r & c & w' & Hload & Heff & _ & Hh & Hnvs).
  assert (Hr : r <> ESP_OK).
  { intros ->.
    destruct (get_saved_config_ok_inv env w c w' Hload)
      as ((ver & s & d & Hv & _ & Hs & _ & Hd & _ & Hip & Hdns) & _).
    simpl in Hin.
    destruct Hin as [<- | [<- | [<- | [<- | [<- | []]]]]]; congruence. }
  exists r, c, w'. split; [exact Hload |]. split; [exact Hr |].
  split; [| split; assumption].
  apply is_ok_false in Hr. rewrite Hr in Heff. exact Heff.
Qed.

Lemma missing_key_gives_defaults_witness :
  exists r cfg w',
    get_saved_config env_all_ok (world_uninit ∅) = Some ((r, cfg), w') /\
    r <> ESP_OK /\
    get_saved_or_default_config env_all_ok (world_uninit ∅) =
      Some ((ESP_OK, set_defaults), w').
Proof.
  destruct (missing_key_gives_defaults env_all_ok (world_uninit ∅) "version"
              ltac:(simpl; tauto) eq_refl)
    as (r & cfg & w' & Hload & Hr & Heff & _).
  exists r, cfg, w'. repeat split; assumption.
Defined.

(** X4. A record written by a newer schema is refused before any of its
    fields is read: when the store opens and the version entry reads as a
    number above [NVS_CFG_VER], the load returns ESP_ERR_INVALID_VERSION
    having issued the open, the one read and the close, and the effective
    configuration is the compiled-in defaults. *)
Theorem newer_version_is_refused env w ver :
  respond env (trace w) (NvsOpen WMNGR_NAMESPACE false) = ESP_OK ->
  respond env (NvsOpen WMNGR_NAMESPACE false :: trace w)
    (NvsGetU32 "version") = ESP_OK ->
  nvs w !! "version" = Some (NvsU32 ver) ->
  ver > NVS_CFG_VER ->
  let w' := log NvsClose
              (log (NvsGetU32 "version")
                 (log (NvsOpen WMNGR_NAMESPACE false) w)) in
  get_saved_config env w =
    Some ((ESP_ERR_INVALID_VERSION, eth_cfg_init), w') /\
  get_saved_or_default_config env w = Some ((ESP_OK, set_defaults), w').
Proof.
  intros Hopen Hread Hver Hgt w'.
  assert (Hload : get_saved_config env w =
                  Some ((ESP_ERR_INVALID_VERSION, eth_cfg_init), w')).
  { subst w'. destruct w as [h store t]. simpl in *.
    unfold get_saved_config, get_saved_config_on_exit, nvs_open, nvs_close,
      nvs_get_u32, bind, external, ret. simpl.
    rewrite Hopen, is_ok_OK. simpl. rewrite Hread, is_ok_OK. simpl.
    rewrite Hver. simpl.
    destruct (Z.gtb_spec ver NVS_CFG_VER) as [_ | Hle]; [| lia].
    reflexivity. }
  split; [exact Hload |].
  unfold get_saved_or_default_config, bind. rewrite Hload. reflexivity.
Qed.

Lemma newer_version_is_refused_witness :
  get_saved_or_default_config env_all_ok (world_uninit store_newer_version) =
    Some ((ESP_OK, set_defaults),
          log NvsClose
            (log (NvsGetU32 "version")
               (log (NvsOpen WMNGR_NAMESPACE false)
                  (world_uninit store_newer_version)))).
Proof.
  destruct (newer_version_is_refused env_all_ok
              (world_uninit store_newer_version) (NVS_CFG_VER + 1))
    as [_ Heff];
    [reflexivity | reflexivity | vm_compute; reflexivity | reflexivity |].
  exact Heff.
Defined.

(** ** Clearing the store *)

Lemma empty_store_gives_defaults env w :
  nvs w = ∅ ->
  exists w', get_saved_or_default_config env w =
               Some ((ESP_OK, set_defaults), w').
Proof.
  intros Hempty.
  destruct (get_saved_or_default_config_ok env w)
    as (r & c & w' & Hload & Heff & _).
  exists w'. destruct (is_ok r) eqn:Hr; [| exact Heff].
  apply is_ok_true in Hr. subst r.
  destruct (get_saved_config_ok_inv env w c w' Hload)
    as ((ver & s & d & Hv & _) & _).
  rewrite Hempty, lookup_empty in Hv. discriminate.
Qed.

(** X5. [clear_config] always returns; it leaves the store either empty or
    exactly as it was, empty whenever it reports ESP_OK, and it leaves the
    handle alone.  After a clear that reported ESP_OK the effective
    configuration is the compiled-in defaults, whatever the store
    operations answer from then on. *)
Theorem clear_config_outcome env w :
  exists r w1,
    clear_config env w = Some (r, w1) /\
    (nvs w1 = ∅ \/ nvs w1 = nvs w) /\
    handle w1 = handle w /\
    (r = ESP_OK ->
     nvs w1 = ∅ /\
     forall env', exists w2,
       get_saved_or_default_config env' w1 =
         Some ((ESP_OK, set_defaults), w2)).
Proof.
  assert (Hdefaults : forall w1, nvs w1 = ∅ ->
            forall env', exists w2,
              get_saved_or_default_config env' w1 =
                Some ((ESP_OK, set_defaults), w2)).
  { intros w1 Hempty env'. apply empty_store_gives_defaults. exact Hempty. }
  destruct w as [h store t].
  unfold clear_config, nvs_open, nvs_close, nvs_commit, nvs_erase_all, bind,
    external, ret. simpl.
  repeat match goal with
         | |- context [is_ok (respond env ?tr ?c)] =>
             let E := fresh "E" in
             destruct (is_ok (respond env tr c)) eqn:E; simpl
         end;
    try (simpl in *; congruence);
    eexists; eexists; (split; [reflexivity |]); simpl;
    (split; [first [left; reflexivity | right; reflexivity] |]);
    (split; [reflexivity |]);
    intros Hr;
    try (match goal with
         | E : is_ok ?r = false, H : ?r = ESP_OK |- _ =>
             apply is_ok_false in E; contradiction
         end);
    (split; [reflexivity | apply Hdefaults; reflexivity]).
Qed.

(** ** What a save leaves when it reports success *)

(** X6. Whatever the store operations answer, a save that reports ESP_OK
    has left the store holding exactly the record of the configuration
    (nothing, for the factory default), and has left the handle alone. *)
Theorem save_success_means_stored env cfg w w' :
  save_config env cfg w = Some (ESP_OK, w') ->
  nvs w' = (if is_default cfg then ∅ else stored_record cfg) /\
  handle w' = handle w.
Proof.
  destruct w as [h store t].
  unfold save_config, clear_config, save_config_on_exit, nvs_open, nvs_close,
    nvs_commit, nvs_erase_all, nvs_set_u32, nvs_set_blob, bind, external, ret.
  simpl.
  repeat
    (rewrite ?is_ok_OK; simpl;
     try match goal with
         | |- context [is_ok (respond env ?tr ?c)] =>
             let E := fresh "E" in
             destruct (is_ok (respond env tr c)) eqn:E; simpl
         | |- context [if is_default cfg then _ else _] =>
             let E := fresh "Edef" in
             destruct (is_default cfg) eqn:E; simpl
         end);
    try (simpl in *; congruence);
    intros Hrun; inversion Hrun; subst; clear Hrun;
    try (match goal with
         | E : is_ok ?r = false, H : ?r = ESP_OK |- _ =>
             apply is_ok_false in E; contradiction
         end);
    split; reflexivity.
Qed.

Lemma save_success_means_stored_witness :
  exists w',
    save_config env_all_ok cfg_static (world_uninit (stored_record cfg_dhcp)) =
      Some (ESP_OK, w') /\
    nvs w' = stored_record cfg_static.
Proof.
  destruct (save_config_reliable env_all_ok cfg_static
              (world_uninit (stored_record cfg_dhcp)) env_all_ok_reliable)
    as (w' & Hsave & _).
  exists w'. split; [exact Hsave |].
  apply (save_success_means_stored env_all_ok cfg_static _ w' Hsave).
Defined.

(** ** What applying a configuration touches *)

Lemma confined_ret P {A} (a : A) : confined P (ret a).
Proof.
  intros w a' w' Hrun. injection Hrun as <- <-.
  split; [reflexivity |]. split; [reflexivity |].
  exists []. split; reflexivity.
Qed.

Lemma confined_bind P {A B} (m : M A) (k : A -> M B) :
  confined P m -> (forall a, confined P (k a)) -> confined P (bind m k).
Proof.
  intros Hm Hk w b w' Hrun. unfold bind in Hrun.
  destruct (m w) as [[a w1] |] eqn:H1; [| discriminate].
  destruct (Hm w a w1 H1) as (Hh1 & Hn1 & l1 & Ht1 & Hp1).
  destruct (Hk a w1 b w' Hrun) as (Hh2 & Hn2 & l2 & Ht2 & Hp2).
  split; [congruence |]. split; [congruence |].
  exists (l2 ++ l1). split.
  - rewrite Ht2, Ht1. apply app_assoc.
  - rewrite forallb_app, Hp1, Hp2. reflexivity.
Qed.

Lemma confined_external P env c : P c = true -> confined P (external env c).
Proof.
  intros Hc w a w' Hrun. injection Hrun as <- <-.
  split; [reflexivity |]. split; [reflexivity |].
  exists [c]. split; [reflexivity |]. simpl. rewrite Hc. reflexivity.
Qed.

Lemma confined_deref_handle P : confined P deref_handle.
Proof.
  intros w a w' Hrun. unfold deref_handle in Hrun.
  destruct w as [[hs |] store t]; simpl in Hrun; [| discriminate].
  injection Hrun as <- <-.
  split; [reflexivity |]. split; [reflexivity |].
  exists []. split; reflexivity.
Qed.

Lemma confined_get_handle P : confined P get_handle.
Proof.
  intros w a w' Hrun. injection Hrun as <- <-.
  split; [reflexivity |]. split; [reflexivity |].
  exists []. split; reflexivity.
Qed.

Ltac confined_step :=
  first
    [ apply confined_ret
    | apply confined_deref_handle
    | apply confined_get_handle
    | apply confined_external; reflexivity
    | apply confined_bind; [| intros ?]
    | match goal with
      | |- confined _ (if ?c then _ else _) => destruct c
      | |- confined _ (match ?x with _ => _ end) => destruct x
      end ].

Lemma confined_set_dns_loop env cfg idxs result :
  confined is_apply_call (set_dns_loop env cfg idxs result).
Proof.
  revert result. induction idxs as [| idx rest IH]; intros result;
    cbn [set_dns_loop].
  - apply confined_ret.
  - destruct (ip_addr_isany_val (dns_at cfg idx)); [apply IH |].
    apply confined_bind; [apply confined_deref_handle | intros hs].
    apply confined_bind; [apply confined_external; reflexivity | intros r].
    apply IH.
Qed.

Lemma confined_set_eth_cfg env cfg :
  confined is_apply_call (set_eth_cfg env cfg).
Proof.
  unfold set_eth_cfg, start_eth, stop_eth.
  repeat first [ apply confined_set_dns_loop | confined_step ].
Qed.

(** X7. Applying a configuration only talks to the interface: whatever it
    returns, it has changed neither the store nor the handle (so not the
    event bits either), and every call it issued is one of DHCP stop or
    start, set IP, set DNS, interface start or interface stop. *)
Theorem set_eth_cfg_only_drives_interface env cfg w result w' :
  set_eth_cfg env cfg w = Some (result, w') ->
  handle w' = handle w /\ nvs w' = nvs w /\
  exists issued,
    trace w' = issued ++ trace w /\
    forallb is_apply_call issued = true /\
    forallb (fun c => negb (is_nvs_call c)) issued = true.
Proof.
  intros Hrun.
  destruct (confined_set_eth_cfg env cfg w result w' Hrun)
    as (Hh & Hn & issued & Ht & Hp).
  split; [exact Hh |]. split; [exact Hn |].
  exists issued. split; [exact Ht |]. split; [exact Hp |].
  rewrite forallb_forall in Hp |- *. intros c Hc.
  specialize (Hp c Hc). destruct c; try reflexivity; discriminate.
Qed.

Lemma set_eth_cfg_only_drives_interface_witness :
  exists result w',
    set_eth_cfg env_all_ok cfg_static (world_ready 0) = Some (result, w') /\
    handle w' = handle (world_ready 0) /\ nvs w' = ∅.
Proof.
  eexists. eexists.
  assert (Hrun : set_eth_cfg env_all_ok cfg_static (world_ready 0) =
                 Some (ESP_OK,
                       log (EspEthStart (Some 2))
                         (log (EspNetifSetDnsInfo (Some 1) 0
                                 (dns_at cfg_static 0))
                            (log (EspNetifSetIpInfo (Some 1)
                                    (ip_info cfg_static))
                               (log (EspNetifDhcpcStop (Some 1))
                                  (world_ready 0))))))
    by (vm_compute; reflexivity).
  split; [exact Hrun |].
  destruct (set_eth_cfg_only_drives_interface _ _ _ _ _ Hrun) as (Hh & Hn & _).
  split; [exact Hh | exact Hn].
Defined.

(** ** Applying a static configuration *)

Lemma set_dns_loop_pushes env cfg hs idxs :
  forall result h store t,
    h = Some hs ->
    exists r,
      set_dns_loop env cfg idxs result
        {| handle := h; nvs := store; trace := t |} =
        Some (r, {| handle := h; nvs := store;
                    trace :=
                      rev (map (fun idx =>
                                  EspNetifSetDnsInfo (eth_netif hs) idx
                                    (dns_at cfg idx))
                             (List.filter
                                (fun idx =>
                                   negb (ip_addr_isany_val (dns_at cfg idx)))
                                idxs)) ++ t |}).
Proof.
  induction idxs as [| idx rest IH]; intros result h store t Hh.
  - exists result. reflexivity.
  - cbn [set_dns_loop List.filter].
    destruct (ip_addr_isany_val (dns_at cfg idx)); cbn [negb].
    + apply IH. exact Hh.
    + subst h.
      destruct (IH (respond env t
                      (EspNetifSetDnsInfo (eth_netif hs) idx (dns_at cfg idx)))
                  (Some hs) store
                  (EspNetifSetDnsInfo (eth_netif hs) idx (dns_at cfg idx) :: t)
                  eq_refl) as (r & Hr).
      exists r. cbn [map rev]. rewrite <- app_assoc. cbn [app].
      rewrite <- Hr. reflexivity.
Qed.

(** X8. On an initialised manager, a static, enabled configuration is
    applied by stopping the DHCP client, setting the IP block and pushing
    every DNS entry that is not "any", by ascending index, and then
    starting the interface.  None of the statuses of these pushes stops the
    sequence or reaches the caller: the result is that of [start_eth]. *)
Theorem set_eth_cfg_static_pushes env cfg w hs :
  is_disabled cfg = false -> is_static cfg = true ->
  handle w = Some hs ->
  let netif := eth_netif hs in
  let w1 := {| handle := handle w; nvs := nvs w;
               trace := rev (dns_pushes netif cfg) ++
                        [EspNetifSetIpInfo netif (ip_info cfg);
                         EspNetifDhcpcStop netif] ++ trace w |} in
  set_eth_cfg env cfg w = start_eth env w1.
Proof.
  intros Hd Hs Hh netif w1. subst netif w1.
  destruct w as [h store t]. simpl in Hh. subst h.
  unfold set_eth_cfg. rewrite Hd, Hs. cbn [handle nvs trace].
  destruct (set_dns_loop_pushes env cfg hs (seq 0 ESP_NETIF_DNS_MAX)
              (respond env (EspNetifDhcpcStop (eth_netif hs) :: t)
                 (EspNetifSetIpInfo (eth_netif hs) (ip_info cfg)))
              (Some hs) store
              (EspNetifSetIpInfo (eth_netif hs) (ip_info cfg)
               :: EspNetifDhcpcStop (eth_netif hs) :: t) eq_refl)
    as (r & Hr).
  unfold dns_pushes. cbn [app].
  transitivity
    ((let* result := (fun w => set_dns_loop env cfg (seq 0 ESP_NETIF_DNS_MAX)
                                 (respond env
                                    (EspNetifDhcpcStop (eth_netif hs) :: t)
                                    (EspNetifSetIpInfo (eth_netif hs)
                                       (ip_info cfg)))
                                 {| handle := Some hs; nvs := store;
                                    trace :=
                                      EspNetifSetIpInfo (eth_netif hs)
                                        (ip_info cfg)
                                      :: EspNetifDhcpcStop (eth_netif hs)
                                         :: t |}) in
      let* result := start_eth env in ret result)
       {| handle := Some hs; nvs := store; trace := t |}).
  { reflexivity. }
  unfold bind at 1. rewrite Hr. apply bind_ret_r.
Qed.

Lemma set_eth_cfg_static_pushes_witness :
  set_eth_cfg env_all_ok cfg_static (world_ready 0) =
    Some (ESP_OK,
          {| handle := Some (handle_ready 0); nvs := ∅;
             trace := [ EspEthStart (Some 2);
                        EspNetifSetDnsInfo (Some 1) 0 (dns_at cfg_static 0);
                        EspNetifSetIpInfo (Some 1) (ip_info cfg_static);
                        EspNetifDhcpcStop (Some 1) ] |}).
Proof.
  rewrite (set_eth_cfg_static_pushes env_all_ok cfg_static (world_ready 0)
             (handle_ready 0) eq_refl eq_refl eq_refl).
  reflexivity.
Defined.

(** ** Disabling before the Started event has arrived *)

(** X9. [stop_eth] decides by the Started bit, which only the event
    handler sets.  So on an initialised manager whose Started bit is clear,
    applying a disabled configuration right after an application of an
    enabled one (no event delivered in between) returns ESP_OK and issues
    no call at all, even when that first application has just started the
    driver. *)
Theorem disable_before_started_event env cfg_on cfg_off w hs eth events r w1 :
  handle w = Some hs -> eth_handle hs = Some eth ->
  eth_events hs = Some events -> started_bit events = false ->
  is_disabled cfg_off = true ->
  set_eth_cfg env cfg_on w = Some (r, w1) ->
  set_eth_cfg env cfg_off w1 = Some (ESP_OK, w1).
Proof.
  intros Hh He Hev Hbit Hoff Hrun.
  destruct (confined_set_eth_cfg env cfg_on w r w1 Hrun) as (Hh1 & _).
  rewrite Hh in Hh1.
  unfold set_eth_cfg. rewrite Hoff, bind_ret_r.
  unfold stop_eth, bind, get_handle. rewrite Hh1, He, Hev, start_test, Hbit.
  reflexivity.
Qed.

Lemma disable_before_started_event_witness :
  exists w1,
    set_eth_cfg env_all_ok cfg_dhcp (world_ready 0) = Some (ESP_OK, w1) /\
    trace w1 = [EspEthStart (Some 2); EspNetifDhcpcStart (Some 1)] /\
    set_eth_cfg env_all_ok (with_is_disabled true cfg_dhcp) w1 =
      Some (ESP_OK, w1).
Proof.
  eexists.
  assert (Hrun : set_eth_cfg env_all_ok cfg_dhcp (world_ready 0) =
                 Some (ESP_OK,
                       log (EspEthStart (Some 2))
                         (log (EspNetifDhcpcStart (Some 1)) (world_ready 0))))
    by reflexivity.
  split; [exact Hrun |]. split; [reflexivity |].
  apply (disable_before_started_event env_all_ok cfg_dhcp
           (with_is_disabled true cfg_dhcp) (world_ready 0) (handle_ready 0)
           2 0 ESP_OK _ eq_refl eq_refl eq_refl eq_refl eq_refl Hrun).
Defined.

(** ** The life cycle of the handle *)

Lemma keeps_nvs_ret {A} (a : A) : keeps_nvs (ret a).
Proof. intros w a' w' Hrun. injection Hrun as <- <-. reflexivity. Qed.

Lemma keeps_nvs_bind {A B} (m : M A) (k : A -> M B) :
  keeps_nvs m -> (forall a, keeps_nvs (k a)) -> keeps_nvs (bind m k).
Proof.
  intros Hm Hk w b w' Hrun. unfold bind in Hrun.
  destruct (m w) as [[a w1] |] eqn:H1; [| discriminate].
  rewrite (Hk a w1 b w' Hrun). apply (Hm w a w1 H1).
Qed.

Lemma keeps_nvs_step {A} (f : World -> A * World) :
  (forall w, nvs (snd (f w)) = nvs w) -> keeps_nvs (fun w => Some (f w)).
Proof.
  intros Hf w a w' Hrun. injection Hrun as Heq.
  rewrite <- (Hf w), Heq. reflexivity.
Qed.

Lemma keeps_nvs_confined P {A} (m : M A) : confined P m -> keeps_nvs m.
Proof. intros Hm w a w' Hrun. apply (Hm w a w' Hrun). Qed.

Lemma keeps_nvs_get_saved_or_default_config env :
  keeps_nvs (get_saved_or_default_config env).
Proof.
  intros w a w' Hrun.
  destruct (get_saved_or_default_config_ok env w)
    as (r & c & w1 & _ & Heff & _ & _ & Hnvs).
  rewrite Heff in Hrun. injection Hrun as _ <-. exact Hnvs.
Qed.

Lemma keeps_nvs_eth_manager_init_on_exit env result :
  keeps_nvs (eth_manager_init_on_exit env result).
Proof.
  unfold eth_manager_init_on_exit.
  apply keeps_nvs_bind; [| intros ?; apply keeps_nvs_ret].
  destruct (negb (is_ok result)); [| apply keeps_nvs_ret].
  apply keeps_nvs_bind; [apply (keeps_nvs_step (fun w => (handle w, w)));
                         reflexivity |].
  intros [hs |]; [| apply keeps_nvs_ret].
  apply keeps_nvs_bind.
  - destruct (eth_events hs); [| apply keeps_nvs_ret].
    apply keeps_nvs_bind;
      [ apply (keeps_nvs_confined (fun _ => true)), confined_external;
        reflexivity
      | intros ?; apply (keeps_nvs_step (fun w => (tt, set_handle _ w)));
        reflexivity ].
  - intros ?. apply keeps_nvs_bind;
      [ apply (keeps_nvs_confined (fun _ => true)), confined_external;
        reflexivity
      | intros ?; apply (keeps_nvs_step (fun w => (tt, set_handle _ w)));
        reflexivity ].
Qed.

Lemma keeps_nvs_eth_manager_init env eth :
  keeps_nvs (eth_manager_init env eth).
Proof.
  unfold eth_manager_init.
  repeat first
    [ apply keeps_nvs_ret
    | apply keeps_nvs_eth_manager_init_on_exit
    | apply keeps_nvs_get_saved_or_default_config
    | apply (keeps_nvs_confined is_apply_call), confined_set_eth_cfg
    | apply (keeps_nvs_confined (fun _ => true)), confined_external;
      reflexivity
    | apply (keeps_nvs_step (fun w => (handle w, w))); reflexivity
    | apply (keeps_nvs_step (fun w => (tt, set_handle _ w))); reflexivity
    | apply keeps_nvs_bind; [| intros ?]
    | match goal with
      | |- keeps_nvs (if ?c then _ else _) => destruct c
      | |- keeps_nvs (match ?x with _ => _ end) => destruct x
      | |- keeps_nvs (calloc_handle _) =>
          unfold calloc_handle;
          apply (keeps_nvs_step (fun w => (tt, set_handle _ (log Calloc w))));
          reflexivity
      | |- keeps_nvs (xEventGroupCreate _) =>
          unfold xEventGroupCreate;
          apply (keeps_nvs_step
                   (fun w => (_, log XEventGroupCreate w)));
          reflexivity
      | |- keeps_nvs (esp_netif_new _) =>
          unfold esp_netif_new;
          apply (keeps_nvs_step (fun w => (_, log EspNetifNew w)));
          reflexivity
      end ].
Qed.

(** X10. The handle's life cycle.  On an uninitialised manager
    [eth_manager_init] always returns and never writes the store.  When it
    reports an error the handle is NULL again, so the call can simply be
    repeated.  When it reports ESP_OK a handle is in place that holds the
    driver handle it was given and a fresh event group with every bit
    clear, and from then on any further [eth_manager_init] is refused with
    ESP_ERR_INVALID_STATE without touching anything. *)
Theorem eth_manager_init_lifecycle env eth w :
  handle w = None ->
  exists result w',
    eth_manager_init env eth w = Some (result, w') /\
    nvs w' = nvs w /\
    (result <> ESP_OK -> handle w' = None) /\
    (result = ESP_OK ->
     exists hs,
       handle w' = Some hs /\ eth_handle hs = eth /\ eth_events hs = Some 0 /\
       forall env' eth',
         eth_manager_init env' eth' w' = Some (ESP_ERR_INVALID_STATE, w')).
Proof.
  intros Hh.
  destruct (eth_manager_init_outcome env eth w Hh)
    as (result & w' & Hrun & Herr & Hok).
  exists result, w'. split; [exact Hrun |].
  split; [apply (keeps_nvs_eth_manager_init env eth w result w' Hrun) |].
  split; [exact Herr |]. intros Hr.
  destruct (Hok Hr) as (hs & Hh' & He & Hev & _).
  exists hs. split; [exact Hh' |]. split; [exact He |]. split; [exact Hev |].
  intros env' eth'. unfold eth_manager_init, bind, get_handle. rewrite Hh'.
  reflexivity.
Qed.

Lemma eth_manager_init_lifecycle_witness :
  exists w' w'',
    eth_manager_init env_attach_fails (Some 2) (world_uninit ∅) =
      Some (ESP_FAIL, w') /\
    handle w' = None /\
    eth_manager_init env_all_ok (Some 2) w' = Some (ESP_OK, w'') /\
    eth_manager_init env_all_ok (Some 2) w'' =
      Some (ESP_ERR_INVALID_STATE, w'').
Proof.
  destruct (eth_manager_init_lifecycle env_attach_fails (Some 2)
              (world_uninit ∅) eq_refl)
    as (r1 & w' & Hrun1 & _ & Herr1 & _).
  assert (Hr1 : r1 = ESP_FAIL).
  { vm_compute in Hrun1. injection Hrun1 as <- _. reflexivity. }
  subst r1. specialize (Herr1 ltac:(discriminate)).
  destruct (eth_manager_init_lifecycle env_all_ok (Some 2) w' Herr1)
    as (r2 & w'' & Hrun2 & _ & _ & Hok2).
  assert (Hr2 : r2 = ESP_OK).
  { destruct (is_ok r2) eqn:E; [apply is_ok_true; exact E |].
    exfalso. revert Hrun2. vm_compute in Hrun1. injection Hrun1 as <-.
    vm_compute. intros Hrun2. injection Hrun2 as <- _. discriminate. }
  subst r2. destruct (Hok2 eq_refl) as (hs & _ & _ & _ & Hagain).
  exists w', w''. split; [exact Hrun1 |]. split; [exact Herr1 |].
  split; [exact Hrun2 | apply Hagain].
Defined.

(** ** What a state query touches *)

Lemma confined_logged P {A} (c : call) (f : World -> A) :
  P c = true -> confined P (fun w => Some (f w, log c w)).
Proof.
  intros Hc w a w' Hrun. injection Hrun as <- <-.
  split; [reflexivity |]. split; [reflexivity |].
  exists [c]. split; [reflexivity |]. simpl. rewrite Hc. reflexivity.
Qed.

Lemma confined_nvs_get_u32 env key :
  confined is_nvs_read (nvs_get_u32 env key).
Proof.
  unfold nvs_get_u32.
  apply confined_bind; [apply confined_external; reflexivity | intros r].
  destruct (is_ok r); [| apply confined_ret].
  intros w a w' Hrun.
  destruct (nvs w !! key) as [[] |]; injection Hrun as <- <-;
    (split; [reflexivity |]); (split; [reflexivity |]);
    exists []; split; reflexivity.
Qed.

Lemma confined_nvs_get_blob env key :
  confined is_nvs_read (nvs_get_blob env key).
Proof.
  unfold nvs_get_blob.
  apply confined_bind; [apply confined_external; reflexivity | intros r].
  destruct (is_ok r); [| apply confined_ret].
  intros w a w' Hrun.
  destruct (nvs w !! key) as [[] |]; injection Hrun as <- <-;
    (split; [reflexivity |]); (split; [reflexivity |]);
    exists []; split; reflexivity.
Qed.

Lemma confined_get_saved_config env :
  confined is_nvs_read (get_saved_config env).
Proof.
  unfold get_saved_config, get_saved_config_on_exit, nvs_open, nvs_close.
  repeat first
    [ apply confined_nvs_get_u32 | apply confined_nvs_get_blob
    | confined_step ].
Qed.

Lemma confined_get_saved_or_default_config env :
  confined is_nvs_read (get_saved_or_default_config env).
Proof.
  unfold get_saved_or_default_config.
  apply confined_bind; [apply confined_get_saved_config | intros [r c]].
  destruct (negb (is_ok r)); apply confined_ret.
Qed.

Lemma confined_get_dns_loop env idxs result cfg :
  confined is_netif_query (get_dns_loop env idxs result cfg).
Proof.
  revert result cfg. induction idxs as [| idx rest IH]; intros result cfg;
    cbn [get_dns_loop].
  - apply confined_ret.
  - apply confined_bind; [apply confined_deref_handle | intros hs].
    apply confined_bind.
    + unfold esp_netif_get_dns_info.
      apply (confined_logged is_netif_query
               (EspNetifGetDnsInfo (eth_netif hs) idx)
               (fun w => (respond env (trace w)
                            (EspNetifGetDnsInfo (eth_netif hs) idx),
                          live_dns_info env (trace w) idx))).
      reflexivity.
    + intros [r dns]. destruct (negb (is_ok r)); [apply confined_ret |].
      apply IH.
Qed.

Lemma eth_connected_total w :
  exists b,
    eth_connected w = Some (b, w) /\
    (b = true ->
     exists hs events,
       handle w = Some hs /\ eth_events hs = Some events /\
       connected_bit events = true).
Proof.
  unfold eth_connected, bind, get_handle, ret.
  destruct (handle w) as [hs |] eqn:Hh; [| exists false; split; easy].
  destruct (eth_events hs) as [events |] eqn:Hev;
    [| exists false; split; easy].
  rewrite connected_test, negb_involutive.
  exists (connected_bit events). split; [reflexivity |].
  intros Hb. exists hs, events. repeat split; assumption.
Qed.

(** X11. A state query only reads.  Whatever [get_eth_state] returns, it
    has changed neither the handle nor the store; when it reports the link
    as connected every call it issued is a query of the live interface
    (DHCP status, IP block, DNS entry) and the store was not consulted;
    when it reports the link as down every call it issued is a read-only
    store call and the interface was not consulted. *)
Theorem get_eth_state_only_reads env w result cfg w' :
  get_eth_state env w = Some ((result, cfg), w') ->
  handle w' = handle w /\ nvs w' = nvs w /\
  exists issued,
    trace w' = issued ++ trace w /\
    forallb (if is_connected cfg then is_netif_query else is_nvs_read)
      issued = true.
Proof.
  intros Hrun. pose proof Hrun as Hrun0.
  destruct (eth_connected_total w) as (b & Hc & Hb).
  unfold get_eth_state in Hrun. unfold bind at 1 in Hrun. rewrite Hc in Hrun.
  destruct b; cbn [negb] in Hrun.
  - destruct (Hb eq_refl) as (hs & events & Hh & Hev & Hbit).
    destruct (get_eth_state_connected env w hs events Hh Hev Hbit)
      as (r1 & c1 & w1 & Hrun1 & Hconn & _).
    rewrite Hrun1 in Hrun0. injection Hrun0 as -> -> ->.
    rewrite Hconn.
    revert Hrun.
    match goal with
    | |- ?m w = _ -> _ =>
        assert (Hm : confined is_netif_query m);
          [| intros Hrun; exact (Hm w _ _ Hrun)]
    end.
    unfold esp_netif_dhcpc_get_status, esp_netif_get_ip_info.
    repeat first
      [ apply confined_get_dns_loop
      | apply confined_logged; reflexivity
      | confined_step
      | match goal with
        | |- confined _ (let '(_, _) := ?p in _) => destruct p
        end ].
  - unfold bind in Hrun.
    destruct (get_saved_or_default_config env w) as [[[r c] w1] |] eqn:Heff;
      [| discriminate].
    injection Hrun as <- <- <-. simpl.
    apply (confined_get_saved_or_default_config env w _ _ Heff).
Qed.

Lemma get_eth_state_only_reads_witness :
  exists result cfg w',
    get_eth_state env_static_live (world_ready BIT_ETH_CONNECTED) =
      Some ((result, cfg), w') /\
    handle w' = handle (world_ready BIT_ETH_CONNECTED) /\ nvs w' = ∅.
Proof.
  destruct (get_eth_state_is_connected env_static_live
              (world_ready BIT_ETH_CONNECTED) (handle_ready BIT_ETH_CONNECTED)
              BIT_ETH_CONNECTED eq_refl eq_refl)
    as (result & cfg & w' & Hrun & _).
  exists result, cfg, w'. split; [exact Hrun |].
  destruct (get_eth_state_only_reads _ _ _ _ _ Hrun) as (Hh & Hn & _).
  split; [exact Hh | exact Hn].
Defined.

(** ** Comparison is an equivalence *)

Lemma ip_addr_cmp_refl a : ip_addr_cmp a a = true.
Proof.
  destruct a as [[[[a0 a1] a2] a3] za ta].
  unfold ip_addr_cmp, ip6_addr_cmp, ip4_addr_cmp, ip4_word. simpl.
  rewrite !Z.eqb_refl. simpl. destruct (ta =? IPADDR_TYPE_V6); reflexivity.
Qed.

Lemma ip_addr_cmp_sym a b : ip_addr_cmp a b = ip_addr_cmp b a.
Proof.
  destruct a as [[[[a0 a1] a2] a3] za ta], b as [[[[b0 b1] b2] b3] zb tb].
  unfold ip_addr_cmp, ip6_addr_cmp, ip4_addr_cmp, ip4_word. simpl.
  rewrite (Z.eqb_sym tb ta).
  destruct (Z.eqb_spec ta tb) as [-> | Hne]; [| reflexivity]. simpl.
  rewrite (Z.eqb_sym b0 a0), (Z.eqb_sym b1 a1), (Z.eqb_sym b2 a2),
    (Z.eqb_sym b3 a3), (Z.eqb_sym zb za).
  reflexivity.
Qed.

Lemma ip_addr_cmp_trans a b c :
  ip_addr_cmp a b = true -> ip_addr_cmp b c = true -> ip_addr_cmp a c = true.
Proof.
  destruct a as [[[[a0 a1] a2] a3] za ta], b as [[[[b0 b1] b2] b3] zb tb],
    c as [[[[c0 c1] c2] c3] zc tc].
  unfold ip_addr_cmp, ip6_addr_cmp, ip4_addr_cmp, ip4_word. simpl.
  destruct (Z.eqb_spec ta tb) as [-> | Hne]; [| discriminate].
  destruct (Z.eqb_spec tb tc) as [-> | Hne]; [| intros _; discriminate].
  simpl. destruct (tc =? IPADDR_TYPE_V6).
  - rewrite !andb_true_iff, !Z.eqb_eq.
    intros ((((-> & ->) & ->) & ->) & ->) ((((-> & ->) & ->) & ->) & ->).
    repeat split.
  - rewrite !Z.eqb_eq. congruence.
Qed.

Lemma cfgs_are_equal_bool a b :
  cfgs_are_equal a b =
    Bool.eqb (is_disabled a) (is_disabled b) &&
    Bool.eqb (is_static a) (is_static b) &&
    (if is_static a then
       (ip (ip_info a) =? ip (ip_info b)) &&
       (netmask (ip_info a) =? netmask (ip_info b)) &&
       (gw (ip_info a) =? gw (ip_info b)) &&
       forallb (fun idx => ip_addr_cmp (dns_at a idx) (dns_at b idx))
         (seq 0 ESP_NETIF_DNS_MAX)
     else true).
Proof.
  unfold cfgs_are_equal, ip4_addr_cmp.
  destruct (Bool.eqb (is_disabled a) (is_disabled b)); [| reflexivity].
  destruct (Bool.eqb (is_static a) (is_static b)); [| reflexivity].
  destruct (is_static a); [| reflexivity].
  destruct (ip (ip_info a) =? ip (ip_info b)); [| reflexivity].
  destruct (netmask (ip_info a) =? netmask (ip_info b)); [| reflexivity].
  destruct (gw (ip_info a) =? gw (ip_info b)); reflexivity.
Qed.

(** X12. [cfgs_are_equal] is an equivalence relation on configurations
    (reflexive, symmetric, transitive), and it looks at nothing but what is
    persisted: [is_default], [is_valid] and [is_connected] never matter. *)
Theorem cfgs_are_equal_equivalence :
  (forall a, cfgs_are_equal a a = true) /\
  (forall a b, cfgs_are_equal a b = cfgs_are_equal b a) /\
  (forall a b c,
      cfgs_are_equal a b = true -> cfgs_are_equal b c = true ->
      cfgs_are_equal a c = true) /\
  (forall a b, cfgs_are_equal a b = cfgs_are_equal (persisted a) (persisted b)).
Proof.
  split; [| split; [| split]].
  - intros a. rewrite cfgs_are_equal_bool, !Bool.eqb_reflx, !Z.eqb_refl.
    cbn [andb]. destruct (is_static a); [| reflexivity].
    apply forallb_forall. intros idx _. apply ip_addr_cmp_refl.
  - intros a b. rewrite !cfgs_are_equal_bool.
    rewrite (Z.eqb_sym (ip (ip_info b))), (Z.eqb_sym (netmask (ip_info b))),
      (Z.eqb_sym (gw (ip_info b))).
    replace (forallb (fun idx => ip_addr_cmp (dns_at b idx) (dns_at a idx))
               (seq 0 ESP_NETIF_DNS_MAX))
      with (forallb (fun idx => ip_addr_cmp (dns_at a idx) (dns_at b idx))
              (seq 0 ESP_NETIF_DNS_MAX)).
    2:{ induction (seq 0 ESP_NETIF_DNS_MAX) as [| idx rest IH];
          [reflexivity |].
        cbn [forallb]. rewrite IH, (ip_addr_cmp_sym (dns_at a idx)).
        reflexivity. }
    destruct (is_disabled a), (is_disabled b), (is_static a), (is_static b);
      reflexivity.
  - intros a b c. rewrite !cfgs_are_equal_bool.
    rewrite !andb_true_iff, !Bool.eqb_true_iff.
    intros [[Hd1 Hs1] H1] [[Hd2 Hs2] H2].
    split; [split; congruence |].
    rewrite <- Hs1 in H2. destruct (is_static a); [| reflexivity].
    rewrite !andb_true_iff, !Z.eqb_eq, !forallb_forall in *.
    destruct H1 as [[[E1 E2] E3] F1], H2 as [[[E4 E5] E6] F2].
    repeat split; try congruence.
    intros idx Hin. eapply ip_addr_cmp_trans; [apply F1 | apply F2]; exact Hin.
  - intros a b. rewrite !cfgs_are_equal_bool. reflexivity.
Qed.

(** ** Setting a configuration and reading it back *)

Lemma stored_record_is_effective env cfg w :
  nvs_reliable env -> nvs w = stored_record cfg ->
  exists w', get_saved_or_default_config env w =
               Some ((ESP_OK, with_is_valid true (persisted cfg)), w').
Proof.
  intros Hrel Hnvs.
  destruct (get_saved_config_reads env w (is_static cfg) (is_disabled cfg)
              (ip_info cfg) (dns_info cfg) Hrel) as (w' & Hload & _).
  { rewrite Hnvs. apply stored_record_complete. }
  exists w'. unfold get_saved_or_default_config, bind. rewrite Hload.
  rewrite is_ok_OK. reflexivity.
Qed.

(** X13. What [eth_manager_set_eth_cfg] was given is what
    [eth_manager_get_eth_cfg] gives back.  With a store that reports no
    error, after a set (whatever applying the configuration returned) the
    next get returns ESP_OK with the same two flags and two address
    blocks, marked valid; after setting the factory default it returns the
    compiled-in defaults. *)
Theorem set_config_then_get_config env new_cfg w result w1 :
  nvs_reliable env ->
  eth_manager_set_eth_cfg env new_cfg w = Some (result, w1) ->
  exists w2,
    eth_manager_get_eth_cfg env w1 =
      Some ((ESP_OK,
             if is_default new_cfg then set_defaults
             else with_is_valid true (persisted new_cfg)), w2).
Proof.
  intros Hrel Hrun.
  destruct (save_config_reliable env new_cfg w Hrel) as (ws & Hsave & Hnvs & _).
  unfold eth_manager_set_eth_cfg, bind in Hrun. rewrite Hsave in Hrun.
  destruct (confined_set_eth_cfg env new_cfg ws result w1 Hrun)
    as (_ & Hn & _).
  rewrite Hnvs in Hn. unfold eth_manager_get_eth_cfg.
  destruct (is_default new_cfg).
  - apply empty_store_gives_defaults. exact Hn.
  - apply stored_record_is_effective; assumption.
Qed.

Lemma set_config_then_get_config_witness :
  exists w1 w2,
    eth_manager_set_eth_cfg env_all_ok cfg_static (world_ready 0) =
      Some (ESP_OK, w1) /\
    eth_manager_get_eth_cfg env_all_ok w1 =
      Some ((ESP_OK, cfg_static), w2).
Proof.
  assert (Hrun : exists w1,
             eth_manager_set_eth_cfg env_all_ok cfg_static (world_ready 0) =
               Some (ESP_OK, w1))
    by (eexists; vm_compute; reflexivity).
  destruct Hrun as (w1 & Hrun).
  destruct (set_config_then_get_config env_all_ok cfg_static (world_ready 0)
              ESP_OK w1 env_all_ok_reliable Hrun) as (w2 & Hget).
  exists w1, w2. split; [exact Hrun | exact Hget].
Defined.

(** * The older revision *)

(** ** Saving and loading *)

Lemma netman_get_saved_config_ok_inv env w cfg w' :
  Netman.get_saved_config env w = Some ((ESP_OK, cfg), w') ->
  complete_record (nvs w) "eth_connect" (Netman.eth_static cfg)
    (Netman.eth_connect cfg) (Netman.eth_ip_info cfg)
    (Netman.eth_dns_info cfg) /\
  cfg = netman_persisted cfg /\ nvs w' = nvs w /\ handle w' = handle w.
Proof.
  destruct w as [h store t].
  unfold Netman.get_saved_config, Netman.get_saved_config_on_exit, nvs_open,
    nvs_close, nvs_get_u32, nvs_get_blob, bind, external, ret. simpl.
  load_cases env store;
    intros Hrun; inversion Hrun; subst; clear Hrun;
    try discriminate;
    try (match goal with
         | E : is_ok ?r = false, H : ?r = ESP_OK |- _ =>
             apply is_ok_false in E; contradiction
         end).
  split; [| repeat split].
  unfold complete_record. simpl.
  eexists. eexists. eexists. repeat split; eassumption.
Qed.

Lemma netman_get_saved_config_reads env w static flag info dns :
  nvs_reliable env ->
  complete_record (nvs w) "eth_connect" static flag info dns ->
  exists w',
    Netman.get_saved_config env w =
      Some ((ESP_OK,
             {| Netman.is_default := false; Netman.is_valid := false;
                Netman.eth_static := static; Netman.eth_ip_info := info;
                Netman.eth_dns_info := dns; Netman.eth_connect := flag |}),
            w') /\
    nvs w' = nvs w /\ handle w' = handle w.
Proof.
  intros Hrel (ver & s & d & Hver & Hle & Hs & -> & Hd & -> & Hip & Hdns).
  destruct w as [h store t]. simpl in *.
  unfold Netman.get_saved_config, Netman.get_saved_config_on_exit, nvs_open,
    nvs_close, nvs_get_u32, nvs_get_blob, bind, external, ret. simpl.
  repeat (first [ rewrite Hrel by reflexivity | rewrite is_ok_OK
                | rewrite Hver | rewrite Hs | rewrite Hd | rewrite Hip
                | rewrite Hdns ]; simpl).
  destruct (Z.gtb_spec ver NVS_CFG_VER) as [Hgt | _]; [lia |]. simpl.
  repeat (first [ rewrite Hrel by reflexivity | rewrite is_ok_OK
                | rewrite Hver | rewrite Hs | rewrite Hd | rewrite Hip
                | rewrite Hdns ]; simpl).
  eexists. repeat split.
Qed.

Lemma netman_stored_record_complete cfg :
  complete_record (Netman.stored_record cfg) "eth_connect"
    (Netman.eth_static cfg) (Netman.eth_connect cfg) (Netman.eth_ip_info cfg)
    (Netman.eth_dns_info cfg).
Proof.
  exists NVS_CFG_VER, (bool_to_u32 (Netman.eth_static cfg)),
    (bool_to_u32 (Netman.eth_connect cfg)).
  rewrite !u32_bool_roundtrip. unfold Netman.stored_record.
  repeat split; by simplify_map_eq.
Qed.

Lemma netman_save_config_reliable env cfg w :
  nvs_reliable env ->
  exists w',
    Netman.save_config env cfg w = Some (ESP_OK, w') /\
    nvs w' = (if Netman.is_default cfg then ∅ else Netman.stored_record cfg).
Proof.
  intros Hrel. destruct w as [h store t].
  unfold Netman.save_config, Netman.clear_config, Netman.save_config_on_exit,
    nvs_open, nvs_close, nvs_commit, nvs_erase_all, nvs_set_u32, nvs_set_blob,
    bind, external, ret.
  simpl.
  repeat (first [rewrite Hrel by reflexivity | rewrite is_ok_OK]; simpl).
  destruct (Netman.is_default cfg); simpl;
    repeat (first [rewrite Hrel by reflexivity | rewrite is_ok_OK]; simpl);
    eexists; repeat split.
Qed.

(** X14. In the older revision too, save then load is the identity on
    what is persisted (the static flag, the connect flag and the two
    address blocks), given a store that reports no error and a
    configuration that is not the factory default.  Its
    [get_effective_config] nevertheless hands the caller's record back
    unchanged: the loaded record stays in a local. *)
Theorem netman_save_then_load env cfg caller_cfg w :
  nvs_reliable env -> Netman.is_default cfg = false ->
  exists w1 w2,
    Netman.save_config env cfg w = Some (ESP_OK, w1) /\
    nvs w1 = Netman.stored_record cfg /\
    Netman.get_saved_config env w1 =
      Some ((ESP_OK, netman_persisted cfg), w2) /\
    Netman.get_effective_config env caller_cfg w1 =
      Some ((ESP_OK, caller_cfg), w2).
Proof.
  intros Hrel Hdef.
  destruct (netman_save_config_reliable env cfg w Hrel) as (w1 & Hsave & Hnvs).
  rewrite Hdef in Hnvs.
  destruct (netman_get_saved_config_reads env w1 (Netman.eth_static cfg)
              (Netman.eth_connect cfg) (Netman.eth_ip_info cfg)
              (Netman.eth_dns_info cfg) Hrel) as (w2 & Hload & _).
  { rewrite Hnvs. apply netman_stored_record_complete. }
  exists w1, w2. split; [exact Hsave |]. split; [exact Hnvs |].
  split; [exact Hload |].
  unfold Netman.get_effective_config, bind. rewrite Hload. reflexivity.
Qed.

Lemma netman_save_then_load_witness :
  exists w1 w2,
    Netman.save_config env_all_ok netman_cfg_static (world_uninit ∅) =
      Some (ESP_OK, w1) /\
    Netman.get_saved_config env_all_ok w1 =
      Some ((ESP_OK, netman_persisted netman_cfg_static), w2).
Proof.
  destruct (netman_save_then_load env_all_ok netman_cfg_static Netman.cfg_zero
              (world_uninit ∅) env_all_ok_reliable eq_refl)
    as (w1 & w2 & Hsave & _ & Hload & _).
  exists w1, w2. split; assumption.
Defined.

(** ** Applying a configuration *)

Arguments Netman.get_effective_config : simpl never.

Ltac netman_run :=
  unfold NetmanStack.set_eth_cfg, NetmanStack.nbind, NetmanStack.nret,
    NetmanStack.lift, NetmanStack.get_eth_netif, external;
  simpl.

(** X15. In the older revision applying a configuration only sets
    addresses and drives the DHCP client: it always returns, every call it
    issues is one of DHCP stop or start, set IP or set DNS (the interface
    is never started or stopped), it leaves the interface pointer and the
    store alone, and the outcome is the same whatever [eth_connect] says.
    For a DHCP configuration it issues the one DHCP start and maps
    "already started" to ESP_OK, returning any other status as it is. *)
Theorem netman_set_eth_cfg_behaviour env cfg s :
  exists result s',
    NetmanStack.set_eth_cfg env cfg s = Some (result, s') /\
    NetmanStack.eth_netif s' = NetmanStack.eth_netif s /\
    nvs (NetmanStack.world s') = nvs (NetmanStack.world s) /\
    (exists issued,
        trace (NetmanStack.world s') = issued ++ trace (NetmanStack.world s) /\
        forallb is_netman_apply_call issued = true) /\
    (forall flag,
        NetmanStack.set_eth_cfg env (Netman.with_eth_connect flag cfg) s =
          Some (result, s')) /\
    (Netman.eth_static cfg = false ->
     let r := respond env (trace (NetmanStack.world s))
                (EspNetifDhcpcStart (NetmanStack.eth_netif s)) in
     result = (if r =? ESP_ERR_ESP_NETIF_DHCP_ALREADY_STARTED then ESP_OK
               else r) /\
     trace (NetmanStack.world s') =
       EspNetifDhcpcStart (NetmanStack.eth_netif s)
       :: trace (NetmanStack.world s)).
Proof.
  destruct s as [netif [h store t]].
  destruct cfg as [cdef cval cstatic cip cdns cconn].
  netman_run.
  destruct cstatic; simpl.
  - repeat match goal with
           | |- context [ip_addr_isany_val ?a] =>
               destruct (ip_addr_isany_val a); simpl
           end;
      destruct cconn; simpl;
      eexists; eexists; (split; [reflexivity |]); simpl;
      (split; [reflexivity |]); (split; [reflexivity |]);
      (split; [eexists; split;
               [ first [ exact (eq_refl : _ = [_; _] ++ t)
                       | exact (eq_refl : _ = [_; _; _] ++ t)
                       | exact (eq_refl : _ = [_; _; _; _] ++ t)
                       | exact (eq_refl : _ = [_; _; _; _; _] ++ t) ]
               | reflexivity ] |]);
      (split; [intros []; reflexivity | discriminate]).
  - destruct (_ =? ESP_ERR_ESP_NETIF_DHCP_ALREADY_STARTED) eqn:E;
      destruct cconn; simpl;
      eexists; eexists; (split; [reflexivity |]); simpl;
      (split; [reflexivity |]); (split; [reflexivity |]);
      (split; [exists [EspNetifDhcpcStart netif]; split; reflexivity |]);
      (split; [intros []; reflexivity |]);
      intros _; cbv zeta; rewrite ?E; split; reflexivity.
Qed.

Lemma netman_set_eth_cfg_frame env cfg s :
  exists result s',
    NetmanStack.set_eth_cfg env cfg s = Some (result, s') /\
    NetmanStack.eth_netif s' = NetmanStack.eth_netif s /\
    nvs (NetmanStack.world s') = nvs (NetmanStack.world s).
Proof.
  destruct s as [netif [h store t]].
  destruct cfg as [cdef cval cstatic cip cdns cconn].
  netman_run.
  destruct cstatic; simpl;
    repeat match goal with
           | |- context [ip_addr_isany_val ?a] =>
               destruct (ip_addr_isany_val a); simpl
           | |- context [?r =? ESP_ERR_ESP_NETIF_DHCP_ALREADY_STARTED] =>
               destruct (r =? ESP_ERR_ESP_NETIF_DHCP_ALREADY_STARTED); simpl
           end;
    destruct cconn; simpl;
    eexists; eexists; repeat split.
Qed.

(** ** Reading the live configuration *)

(** X16. The older revision's [get_eth_cfg] always returns and changes
    nothing but the trace.  It asks the interface for its IP block and DNS
    entries only when the DHCP client is reported stopped: with the client
    in any other state a successful query issues that one call and returns
    a zeroed record marked valid.  Whenever it succeeds the record is
    valid and static exactly when DHCP is stopped; the record never
    carries [is_default] or [eth_connect]. *)
Theorem netman_get_eth_cfg_behaviour env s :
  let netif := NetmanStack.eth_netif s in
  let t := trace (NetmanStack.world s) in
  exists result cfg s',
    NetmanStack.get_eth_cfg env s = Some ((result, cfg), s') /\
    NetmanStack.eth_netif s' = netif /\
    nvs (NetmanStack.world s') = nvs (NetmanStack.world s) /\
    Netman.is_default cfg = false /\ Netman.eth_connect cfg = false /\
    (result = ESP_OK ->
     Netman.is_valid cfg = true /\
     Netman.eth_static cfg = (dhcpc_status env t =? ESP_NETIF_DHCP_STOPPED)) /\
    (respond env t (EspNetifDhcpcGetStatus netif) = ESP_OK ->
     dhcpc_status env t <> ESP_NETIF_DHCP_STOPPED ->
     result = ESP_OK /\
     cfg = Netman.with_is_valid true Netman.cfg_zero /\
     trace (NetmanStack.world s') = EspNetifDhcpcGetStatus netif :: t).
Proof.
  destruct s as [netif [h store t]]. cbv zeta. simpl.
  unfold NetmanStack.get_eth_cfg, NetmanStack.nbind, NetmanStack.nret,
    NetmanStack.lift, NetmanStack.get_eth_netif, esp_netif_dhcpc_get_status,
    esp_netif_get_ip_info, esp_netif_get_dns_info.
  simpl.
  destruct (dhcpc_status env t =? ESP_NETIF_DHCP_STOPPED) eqn:Ed;
    repeat
      (match goal with
       | |- context [is_ok (respond env ?tr ?c)] =>
           let E := fresh "E" in
           destruct (is_ok (respond env tr c)) eqn:E;
           [| apply is_ok_false in E]
       end;
       unfold NetmanStack.nbind, NetmanStack.nret, NetmanStack.lift,
         NetmanStack.get_eth_netif, esp_netif_get_dns_info; simpl);
    eexists; eexists; eexists;
    (split; [reflexivity |]); simpl;
    (split; [reflexivity |]); (split; [reflexivity |]);
    (split; [reflexivity |]); (split; [reflexivity |]);
    (split;
     [ intros Hr; first [contradiction | split; reflexivity]
     | intros Hr Hd;
       first [ apply Z.eqb_eq in Ed; contradiction
             | contradiction
             | repeat split; try assumption ] ]).
Qed.

Lemma netman_get_saved_config_keeps_nvs env w r c w' :
  Netman.get_saved_config env w = Some ((r, c), w') -> nvs w' = nvs w.
Proof.
  destruct w as [h store t].
  unfold Netman.get_saved_config, Netman.get_saved_config_on_exit, nvs_open,
    nvs_close, nvs_get_u32, nvs_get_blob, bind, external, ret. simpl.
  load_cases env store;
    intros Hrun; inversion Hrun; subst; reflexivity.
Qed.

(** ** Initialisation *)

Arguments NetmanStack.set_eth_cfg : simpl never.

(** X17. The older revision's [eth_manager_init].  A NULL driver handle is
    refused with ESP_ERR_INVALID_ARG before anything is done.  Otherwise
    the call always returns, never writes the store, and leaves the
    interface pointer set to whatever [esp_netif_new] returned, also when
    it goes on to report an error (nothing is rolled back).  When
    [esp_netif_new] returns NULL the call stops there and reports ESP_OK.
    When the interface was created, the call can report ESP_OK only if the
    store holds a complete record: the load error of
    [get_effective_config] ends the initialisation, so a device with
    nothing saved does not come up. *)
Theorem netman_init_outcome env eth cfg_state s :
  NetmanStack.eth_manager_init env None cfg_state s =
    Some (ESP_ERR_INVALID_ARG, s) /\
  exists result s',
    NetmanStack.eth_manager_init env (Some eth) cfg_state s =
      Some (result, s') /\
    NetmanStack.eth_netif s' = netif_new env (trace (NetmanStack.world s)) /\
    nvs (NetmanStack.world s') = nvs (NetmanStack.world s) /\
    (netif_new env (trace (NetmanStack.world s)) = None ->
     result = ESP_OK /\
     trace (NetmanStack.world s') =
       EspNetifNew :: trace (NetmanStack.world s)) /\
    (result = ESP_OK ->
     netif_new env (trace (NetmanStack.world s)) <> None ->
     exists static flag info dns,
       complete_record (nvs (NetmanStack.world s)) "eth_connect"
         static flag info dns).
Proof.
  split; [reflexivity |].
  destruct s as [netif0 [h store t]].
  unfold NetmanStack.eth_manager_init, NetmanStack.nbind, NetmanStack.nret,
    NetmanStack.lift, NetmanStack.get_eth_netif, NetmanStack.put_eth_netif,
    esp_netif_new, external.
  simpl.
  destruct (netif_new env t) as [netif |] eqn:Hnew; simpl.
  2:{ eexists. eexists. split; [reflexivity |]. simpl.
      repeat split; try reflexivity. intros _ Hne. contradiction. }
  assert (Hstop : forall r w,
             r <> 0 -> nvs w = store ->
             exists result s',
               Some (r, {| NetmanStack.eth_netif := Some netif;
                           NetmanStack.world := w |}) = Some (result, s') /\
               NetmanStack.eth_netif s' = Some netif /\
               nvs (NetmanStack.world s') = store /\
               (Some netif = None ->
                result = ESP_OK /\
                trace (NetmanStack.world s') = EspNetifNew :: t) /\
               (result = ESP_OK -> Some netif <> None ->
                exists static flag info dns,
                  complete_record store "eth_connect" static flag info dns)).
  { intros r w Hr Hnvs. eexists. eexists. split; [reflexivity |]. simpl.
    split; [reflexivity |]. split; [exact Hnvs |].
    split; [discriminate |]. intros Hok. contradiction. }
  destruct (Z.eqb_spec (respond env (EspNetifNew :: t)
                          (EspNetifAttach (Some netif) (Some eth))) 0)
    as [_ | E1]; simpl; [| apply Hstop; [exact E1 | reflexivity]].
  destruct (Z.eqb_spec
              (respond env (EspNetifAttach (Some netif) (Some eth)
                            :: EspNetifNew :: t)
                 (EspEventHandlerInstanceRegister (Some netif))) 0)
    as [_ | E2]; simpl; [| apply Hstop; [exact E2 | reflexivity]].
  destruct (Z.eqb_spec
              (respond env (EspEventHandlerInstanceRegister (Some netif)
                            :: EspNetifAttach (Some netif) (Some eth)
                               :: EspNetifNew :: t)
                 (EspEthStart (Some eth))) 0)
    as [_ | E3]; simpl; [| apply Hstop; [exact E3 | reflexivity]].
  match goal with
  | |- context [Netman.get_effective_config env cfg_state ?w0] =>
      destruct (netman_get_effective_config_passes_through env cfg_state w0)
        as (r & c & w1 & Hload & Heff); rewrite Heff;
      pose proof (netman_get_saved_config_keeps_nvs env w0 r c w1 Hload)
        as Hnvs1;
      simpl in Hnvs1
  end.
  destruct (Z.eqb_spec r 0) as [-> | E4]; simpl;
    [| apply Hstop; [exact E4 | exact Hnvs1]].
  destruct (netman_get_saved_config_ok_inv env _ c w1 Hload)
    as (Hrec & _). simpl in Hrec.
  destruct (netman_set_eth_cfg_frame env cfg_state
              {| NetmanStack.eth_netif := Some netif;
                 NetmanStack.world := w1 |})
    as (r5 & s5 & Hrun5 & Hnetif5 & Hnvs5).
  rewrite Hrun5. simpl in Hnetif5, Hnvs5.
  destruct (Z.eqb_spec r5 0) as [-> | E5]; simpl.
  - eexists. eexists. split; [reflexivity |].
    split; [exact Hnetif5 |]. split; [congruence |].
    split; [discriminate |]. intros _ _. eauto.
  - eexists. eexists. split; [reflexivity |].
    split; [exact Hnetif5 |]. split; [congruence |].
    split; [discriminate |]. intros Hok. contradiction.
Qed.

(** On an empty store, with a stack that accepts everything, the older
    revision starts the driver and then gives up on the load error, while
    the handle-based revision comes up with the defaults. *)
Example init_on_empty_store :
  (exists s',
      NetmanStack.eth_manager_init env_all_ok (Some 2) Netman.cfg_zero
        (netman_state None ∅) = Some (ESP_ERR_NVS_NOT_FOUND, s') /\
      NetmanStack.eth_netif s' = Some 1 /\
      In (EspEthStart (Some 2)) (trace (NetmanStack.world s'))) /\
  (exists w', eth_manager_init env_all_ok (Some 2) (world_uninit ∅) =
                Some (ESP_OK, w')).
Proof.
  split.
  - eexists. split; [vm_compute; reflexivity |]. split; [reflexivity |].
    simpl. tauto.
  - eexists. vm_compute. reflexivity.
Qed.

(** * Two more consequences *)

Lemma netman_save_config_two_states_witness :
  exists result w',
    Netman.save_config env_all_ok netman_cfg_static (world_uninit ∅) =
      Some (result, w') /\
    (nvs w' = ∅ \/ nvs w' = Netman.stored_record netman_cfg_static).
Proof.
  destruct (netman_save_config_two_states env_all_ok netman_cfg_static
              (world_uninit ∅) eq_refl (fun t => eq_refl))
    as (result & w' & Hrun & Hstates & _).
  exists result, w'. split; [exact Hrun | exact Hstates].
Defined.

(** X18. The rollback of a failed [eth_manager_init] frees the handle but
    does not take back the event handler it may have registered.  After an
    initialisation that reported an error, each of the four Ethernet
    events, delivered to that handler, dereferences the NULL handle. *)
Theorem failed_init_leaves_handler_dangling env eth w result w' event_id :
  handle w = None ->
  eth_manager_init env eth w = Some (result, w') ->
  result <> ESP_OK ->
  In event_id [ETHERNET_EVENT_START; ETHERNET_EVENT_STOP;
               ETHERNET_EVENT_CONNECTED; ETHERNET_EVENT_DISCONNECTED] ->
  forall env' netif,
    eth_event_handler env' netif ETH_EVENT event_id w' = None.
Proof.
  intros Hh Hrun Hr Hin env' netif.
  destruct (eth_manager_init_outcome env eth w Hh)
    as (r0 & w0 & Hrun0 & Herr & _).
  rewrite Hrun in Hrun0. injection Hrun0 as <- <-.
  specialize (Herr Hr).
  unfold eth_event_handler. rewrite String.eqb_refl.
  simpl in Hin.
  destruct Hin as [<- | [<- | [<- | [<- | []]]]]; simpl;
    unfold xEventGroupSetBits, xEventGroupClearBits, bind, deref_handle;
    rewrite Herr; reflexivity.
Qed.

Lemma failed_init_leaves_handler_dangling_witness :
  exists w',
    eth_manager_init env_eth_start_fails (Some 2) (world_uninit ∅) =
      Some (ESP_FAIL, w') /\
    In (EspEventHandlerInstanceRegister (Some 1)) (trace w') /\
    eth_event_handler env_all_ok (Some 1) ETH_EVENT ETHERNET_EVENT_CONNECTED
      w' = None.
Proof.
  assert (Hrun : exists w',
             eth_manager_init env_eth_start_fails (Some 2) (world_uninit ∅) =
               Some (ESP_FAIL, w') /\
             In (EspEventHandlerInstanceRegister (Some 1)) (trace w')).
  { eexists. split; [vm_compute; reflexivity |]. simpl. tauto. }
  destruct Hrun as (w' & Hrun & Hreg).
  exists w'. split; [exact Hrun |]. split; [exact Hreg |].
  apply (failed_init_leaves_handler_dangling env_eth_start_fails (Some 2)
           (world_uninit ∅) ESP_FAIL w' ETHERNET_EVENT_CONNECTED
           eq_refl Hrun).
  - discriminate.
  - simpl. tauto.
Defined.
